(** * Hotel service scheduler: a shallow embedding of
    [hotel_management_system.py] and the properties of its scheduling core.

    The file follows the Python source class by class: [Task], [HotelRoom]
    and its three subclasses, [HotelScheduler], and the part of
    [HotelManagementGUI] that drives the scheduler (admission, clearing,
    the start and stop buttons and the background threads that run the
    dispatch loop).  Tk widgets are not modelled.

    Python objects are shared by reference: the very same [Task] object sits
    in [HotelScheduler.tasks], in its room's [tasks_history], in the list
    returned by a schedule and, once served, in [completed_tasks].  The model
    therefore keeps an object store and lets every collection hold
    references into it. *)

From Stdlib Require Import ZArith QArith String Ascii List Lia Permutation.
From Stdlib Require Import Sorting.Sorted.
From Stdlib Require Import Floats.PrimFloat Floats.FloatOps Floats.SpecFloat.
From stdpp Require Import gmap strings list fin_maps pretty.

Local Open Scope string_scope.
Local Open Scope Z_scope.

(** ** Python built-ins used by the program *)

(** Exceptions the modelled code can raise. *)
Inductive exn :=
| ValueError (msg : string)
| KeyError (key : string)
| IndexError (msg : string).

(** [s.replace(old, new)]: every non-overlapping occurrence of [old], found
    left to right, is replaced.  [skip] counts the characters of a matched
    occurrence that are still to be dropped. *)
Fixpoint replace_from (skip : nat) (old new s : string) : string :=
  match s with
  | EmptyString => EmptyString
  | String c s' =>
      match skip with
      | S k => replace_from k old new s'
      | O =>
          if String.prefix old s
          then new +:+ replace_from (String.length old - 1) old new s'
          else String c (replace_from 0 old new s')
      end
  end.

Fixpoint interleave (new s : string) : string :=
  match s with
  | EmptyString => EmptyString
  | String c s' => String c (new +:+ interleave new s')
  end.

Definition replace (s old new : string) : string :=
  match old with
  | EmptyString => new +:+ interleave new s
  | String _ _ => replace_from 0 old new s
  end.

(** The format specification [:02d] on the integers the program formats
    (room sequence numbers): decimal, zero-padded to two characters. *)
Definition format_02d (n : Z) : string :=
  if (0 <=? n) && (n <? 10) then "0" +:+ pretty n else pretty n.

(** [sorted(l, key=key)].  Python's sort is stable and compares keys with
    [<] only.  A stable sort is determined by its input (lemma
    [sorted_characterised] below), so the stable insertion sort written
    here returns the list Python returns.  An element is put
    after the elements whose key is strictly smaller and before all others:
    since [foldr] inserts the elements from the last to the first, an
    element ends up before the equal-key elements that followed it. *)
Section Sorted.
Context {A K : Type} (lt : K -> K -> bool) (key : A -> K).

Fixpoint insert_by (x : A) (l : list A) : list A :=
  match l with
  | [] => [x]
  | y :: l' => if lt (key y) (key x) then y :: insert_by x l' else x :: y :: l'
  end.

Definition sorted (l : list A) : list A := foldr insert_by [] l.

(** [x] may stand before [y] in sorted order: the key of [y] is not below
    the key of [x]. *)
Definition key_le (x y : A) : Prop := lt (key y) (key x) = false.
End Sorted.

(** Tuple comparison of Python on the integer tuples used as sort keys:
    the first differing component decides. *)
Definition lt_Z : Z -> Z -> bool := Z.ltb.

Definition lt_tuple2 (a b : Z * Z) : bool :=
  if fst a =? fst b then snd a <? snd b else fst a <? fst b.

Definition lt_tuple3 (a b : Z * Z * Z) : bool :=
  if fst (fst a) =? fst (fst b)
  then lt_tuple2 (snd (fst a), snd a) (snd (fst b), snd b)
  else fst (fst a) <? fst (fst b).

(** ** class Task *)

(** A reference to a [Task] object: its address in the object store. *)
Definition ref := nat.

Module Task.
(** [timestamp] is the value of [datetime.now()], as a count of
    microseconds; [service_charge] is a Python float, that is an IEEE 754
    binary64 number. *)
Record t := mk {
  id : Z;
  room_number : string;
  room_class : string;
  task_type : string;
  priority : Z;
  estimated_time : Z;
  description : string;
  timestamp : Z;
  status : string;
  assigned_staff : string;
  actual_time : Z;
  service_charge : float
}.

Definition set_status (v : string) (x : t) : t :=
  mk (id x) (room_number x) (room_class x) (task_type x) (priority x)
     (estimated_time x) (description x) (timestamp x) v (assigned_staff x)
     (actual_time x) (service_charge x).

Definition set_assigned_staff (v : string) (x : t) : t :=
  mk (id x) (room_number x) (room_class x) (task_type x) (priority x)
     (estimated_time x) (description x) (timestamp x) (status x) v
     (actual_time x) (service_charge x).

Definition set_actual_time (v : Z) (x : t) : t :=
  mk (id x) (room_number x) (room_class x) (task_type x) (priority x)
     (estimated_time x) (description x) (timestamp x) (status x)
     (assigned_staff x) v (service_charge x).

(** The [__eq__] that [@dataclass] generates: the tuples of fields are
    compared. *)
Definition eqb (x y : t) : bool :=
  (id x =? id y)
  && String.eqb (room_number x) (room_number y)
  && String.eqb (room_class x) (room_class y)
  && String.eqb (task_type x) (task_type y)
  && (priority x =? priority y)
  && (estimated_time x =? estimated_time y)
  && String.eqb (description x) (description y)
  && (timestamp x =? timestamp y)
  && String.eqb (status x) (status y)
  && String.eqb (assigned_staff x) (assigned_staff y)
  && (actual_time x =? actual_time y)
  && PrimFloat.eqb (service_charge x) (service_charge y).

(** What a dangling reference would read.  The program never holds one;
    this value only makes dereferencing total. *)
Definition unallocated : t :=
  mk 0 "" "" "" 0 0 "" 0 "" "" 0 0%float.
End Task.

(** ** class HotelRoom and its subclasses *)

Inductive RoomKind := EconomyRoom | MidRangeRoom | VIPRoom.

Module HotelRoom.
Record t := mk {
  kind : RoomKind;
  room_number : string;
  floor : Z;
  amenities : list string;
  is_occupied : bool;
  guest_name : string;
  check_in_time : option Z;
  tasks_history : list ref;
  room_class : string
}.

Definition amenities_of (k : RoomKind) : list string :=
  match k with
  | EconomyRoom => ["Basic TV"; "Wi-Fi"; "Air Conditioning"; "Private Bathroom"]
  | MidRangeRoom =>
      ["Premium TV"; "High-Speed Wi-Fi"; "Climate Control";
       "Premium Bathroom"; "Mini Fridge"; "Coffee Maker"; "Room Service Menu"]
  | VIPRoom =>
      ["Smart TV"; "Ultra-Fast Wi-Fi"; "Premium Climate Control";
       "Luxury Bathroom"; "Mini Bar"; "Espresso Machine"; "24/7 Room Service";
       "Concierge Service"; "Premium Linens"; "Balcony"; "Butler Service"]
  end.

Definition get_room_class (r : t) : string :=
  match kind r with
  | EconomyRoom => "Economy"
  | MidRangeRoom => "Mid-Range"
  | VIPRoom => "VIP"
  end.

Definition get_service_multiplier (r : t) : float :=
  match kind r with
  | EconomyRoom => 1.0
  | MidRangeRoom => 1.5
  | VIPRoom => 2.5
  end%float.

Definition get_priority_level (r : t) : Z :=
  match kind r with
  | EconomyRoom => 3
  | MidRangeRoom => 2
  | VIPRoom => 1
  end.

Definition get_base_service_charge (r : t) : float :=
  match kind r with
  | EconomyRoom => 10.0
  | MidRangeRoom => 15.0
  | VIPRoom => 25.0
  end%float.

(** The constructors [EconomyRoom(room_number, floor)] and so on. *)
Definition new (k : RoomKind) (room_number : string) (floor : Z) : t :=
  mk k room_number floor (amenities_of k) false "" None []
     (match k with
      | EconomyRoom => "Economy"
      | MidRangeRoom => "Mid-Range"
      | VIPRoom => "VIP"
      end).

Definition calculate_service_charge (r : t) (base_charge : float) : float :=
  (base_charge * get_service_multiplier r)%float.

Definition add_task_to_history (r : t) (task : ref) : t :=
  mk (kind r) (room_number r) (floor r) (amenities r) (is_occupied r)
     (guest_name r) (check_in_time r) (tasks_history r ++ [task])
     (room_class r).
End HotelRoom.

(** ** class HotelScheduler *)

Module HotelScheduler.
(** [objects] is the store of [Task] objects; [tasks] and
    [completed_tasks] hold references.  The attributes
    [scheduler_thread] and [task_queue] are assigned once in [__init__]
    and never read; they are left out. *)
Record t := mk {
  objects : list Task.t;
  tasks : list ref;
  completed_tasks : list ref;
  rooms : gmap string HotelRoom.t;
  task_counter : Z;
  staff_members : gmap string (list string);
  current_task : option ref;
  is_running : bool;
  current_algorithm : string;
  time_quantum : Z
}.

Definition deref (s : t) (r : ref) : Task.t :=
  default Task.unallocated (objects s !! r).

(** In-place update of the object behind a reference. *)
Definition set_object (r : ref) (f : Task.t -> Task.t) (s : t) : t :=
  mk (<[r := f (deref s r)]> (objects s)) (tasks s) (completed_tasks s)
     (rooms s) (task_counter s) (staff_members s) (current_task s)
     (is_running s) (current_algorithm s) (time_quantum s).

Definition set_tasks (v : list ref) (s : t) : t :=
  mk (objects s) v (completed_tasks s) (rooms s) (task_counter s)
     (staff_members s) (current_task s) (is_running s)
     (current_algorithm s) (time_quantum s).

Definition set_completed_tasks (v : list ref) (s : t) : t :=
  mk (objects s) (tasks s) v (rooms s) (task_counter s)
     (staff_members s) (current_task s) (is_running s)
     (current_algorithm s) (time_quantum s).

Definition set_current_algorithm (v : string) (s : t) : t :=
  mk (objects s) (tasks s) (completed_tasks s) (rooms s) (task_counter s)
     (staff_members s) (current_task s) (is_running s) v (time_quantum s).

Definition set_time_quantum (v : Z) (s : t) : t :=
  mk (objects s) (tasks s) (completed_tasks s) (rooms s) (task_counter s)
     (staff_members s) (current_task s) (is_running s)
     (current_algorithm s) v.

Definition room_number_of (floor room_num : Z) : string :=
  pretty floor +:+ format_02d room_num.

(** One of the three nested loops of [initialize_rooms]: [floors] and
    [room_nums] are the two ranges. *)
Definition make_rooms (k : RoomKind) (floors room_nums : list Z)
    (rooms : gmap string HotelRoom.t) : gmap string HotelRoom.t :=
  foldl (fun acc floor =>
           foldl (fun acc room_num =>
                    let room_number := room_number_of floor room_num in
                    <[room_number := HotelRoom.new k room_number floor]> acc)
                 acc room_nums)
        rooms floors.

Definition initialize_rooms (rooms : gmap string HotelRoom.t)
    : gmap string HotelRoom.t :=
  let rooms := make_rooms EconomyRoom (seqZ 1 3) (seqZ 1 30) rooms in
  let rooms := make_rooms MidRangeRoom (seqZ 4 3) (seqZ 1 30) rooms in
  make_rooms VIPRoom (seqZ 7 4) (seqZ 1 30) rooms.

Definition initial_staff : gmap string (list string) :=
  list_to_map
    [("VIP", ["Alice (VIP Specialist)"; "Robert (Butler)"; "Elena (Concierge)"]);
     ("Mid-Range", ["Bob (Senior Staff)"; "Diana (Room Service)"; "Carlos (Maintenance)"]);
     ("Economy", ["Charlie (Staff)"; "Eve (Housekeeper)"; "Frank (Assistant)"])].

(** [HotelScheduler()] *)
Definition init : t :=
  mk [] [] [] (initialize_rooms ∅) 1 initial_staff None false "Priority" 15.

Definition get_room (s : t) (room_number : string) : option HotelRoom.t :=
  rooms s !! replace room_number "Room " "".

(** [random.choice] draws an index; the draw is the argument [rnd]. *)
Definition get_staff_for_room_class (s : t) (room_class : string) (rnd : nat)
    : exn + string :=
  match staff_members s !! "Economy" with
  | None => inl (KeyError "Economy")
  | Some dflt =>
      let staff_list := default dflt (staff_members s !! room_class) in
      match staff_list !! (rnd mod length staff_list)%nat with
      | None => inl (IndexError "Cannot choose from an empty sequence")
      | Some staff => inr staff
      end
  end.

(** [add_task]; [now] is what [datetime.now()] returns during the call.
    The result pairs the outcome (the exception raised or the reference
    to the new task) with the state the call leaves behind. *)
Definition add_task (room_number task_type : string) (estimated_time : Z)
    (description : string) (now : Z) (s : t) : (exn + ref) * t :=
  match get_room s room_number with
  | None => (inl (ValueError ("Room " +:+ room_number +:+ " not found")), s)
  | Some room =>
      let priority := HotelRoom.get_priority_level room in
      let service_charge :=
        HotelRoom.calculate_service_charge room
          (HotelRoom.get_base_service_charge room) in
      let task :=
        Task.mk (task_counter s) room_number (HotelRoom.get_room_class room)
                task_type priority estimated_time description now
                "Pending" "" 0 service_charge in
      let r : ref := length (objects s) in
      (inr r,
       mk (objects s ++ [task]) (tasks s ++ [r]) (completed_tasks s)
          (<[replace room_number "Room " "" :=
               HotelRoom.add_task_to_history room r]> (rooms s))
          (task_counter s + 1) (staff_members s) (current_task s)
          (is_running s) (current_algorithm s) (time_quantum s))
  end.

Definition get_priority_text (priority : Z) : string :=
  if priority =? 1 then "VIP"
  else if priority =? 2 then "Mid-Range"
  else if priority =? 3 then "Economy"
  else "Unknown".

(** [[t for t in self.tasks if t.status == "Pending"]] *)
Definition pending (s : t) : list ref :=
  List.filter (fun r => String.eqb (Task.status (deref s r)) "Pending") (tasks s).

Definition fcfs_schedule (s : t) : list ref :=
  sorted lt_Z (fun x => Task.timestamp (deref s x)) (pending s).

Definition priority_schedule (s : t) : list ref :=
  sorted lt_tuple2
    (fun x => (Task.priority (deref s x), Task.timestamp (deref s x)))
    (pending s).

Definition sjf_schedule (s : t) : list ref :=
  sorted lt_tuple3
    (fun x => (Task.estimated_time (deref s x), Task.priority (deref s x),
               Task.timestamp (deref s x)))
    (pending s).

Definition round_robin_schedule (s : t) : list ref :=
  let pending_tasks := pending s in
  sorted lt_tuple2
    (fun x => (Task.priority (deref s x), Task.timestamp (deref s x)))
    pending_tasks.

Definition get_scheduled_tasks (s : t) : list ref :=
  if String.eqb (current_algorithm s) "FCFS" then fcfs_schedule s
  else if String.eqb (current_algorithm s) "Priority" then priority_schedule s
  else if String.eqb (current_algorithm s) "SJF" then sjf_schedule s
  else if String.eqb (current_algorithm s) "Round Robin" then round_robin_schedule s
  else [].
End HotelScheduler.

(** ** class HotelManagementGUI: the handlers that touch the scheduler *)

Module HotelManagementGUI.
Import HotelScheduler.

(** The program points of a thread that runs [run_simulation].  A
    thread is observed where it can be overtaken by the GUI thread or by
    another such thread: at the loop test, at the flag test that opens a
    progress increment, during the increment (progress bar update and
    [time.sleep(0.1)]), and before the completion block. *)
Inductive pc :=
| NotStarted
| AtWhile
| AtCheck (task : ref) (i n : Z)
| InIncrement (task : ref) (i n : Z)
| AtComplete (task : ref)
| Returned
| Raised (e : exn).

(** The window and its dispatch threads.  [start_simulation] creates a new
    thread whenever it finds the flag clear, and [stop_simulation] only
    clears the flag, so a thread that has not yet come to its next flag test
    lives on beside the thread of the next start.  All threads share the
    scheduler, the flag and the widgets; a thread's own data (its task and
    loop index) are in its program point.  [thread] is the dispatch thread
    that runs next and [others] are the other dispatch threads still in
    existence; [shown] is the task last passed to
    [update_current_status]. *)
Record t := mk {
  scheduler : HotelScheduler.t;
  is_simulation_running : bool;
  thread : pc;
  shown : option ref;
  others : list pc
}.

(** [l.remove(x)]: the first element that is [x] or equals [x] is
    removed; [None] stands for the [ValueError] raised when there is
    none. *)
Fixpoint list_remove (s : HotelScheduler.t) (x : ref) (l : list ref)
    : option (list ref) :=
  match l with
  | [] => None
  | y :: l' =>
      if Nat.eqb y x || Task.eqb (deref s y) (deref s x) then Some l'
      else cons y <$> list_remove s x l'
  end.

(** The form handler [add_task].  [estimated_time] is the integer read
    from the form; [all([...])] rejects an empty string and the number
    zero.  Exceptions of the scheduler end in a message box. *)
Definition add_task (room_number task_type : string) (estimated_time : Z)
    (description : string) (now : Z) (g : t) : t :=
  if String.eqb room_number "" || String.eqb task_type ""
     || (estimated_time =? 0) || String.eqb description ""
  then g
  else
    mk (snd (HotelScheduler.add_task room_number task_type estimated_time
               description now (scheduler g)))
       (is_simulation_running g) (thread g) (shown g) (others g).

Definition on_algorithm_change (selected_algo : string) (quantum : option Z)
    (g : t) : t :=
  let s := set_current_algorithm selected_algo (scheduler g) in
  let s :=
    if String.eqb selected_algo "Round Robin"
    then set_time_quantum (default 15 quantum) s
    else s in
  mk s (is_simulation_running g) (thread g) (shown g) (others g).

(** The thread has been started and has neither returned nor died. *)
Definition alive (p : pc) : bool :=
  match p with
  | NotStarted | Returned | Raised _ => false
  | _ => true
  end.

(** [start_simulation]: with the flag clear, a new thread begins
    [run_simulation] and is the one that runs next.  The thread that was in
    focus goes on existing beside it unless it has finished. *)
Definition start_simulation (g : t) : t :=
  if is_simulation_running g then g
  else mk (scheduler g) true AtWhile (shown g)
          (if alive (thread g) then thread g :: others g else others g).

Definition stop_simulation (g : t) : t :=
  mk (scheduler g) false (thread g) (shown g) (others g).

(** The interpreter lets another dispatch thread run: the [k]-th of the
    other threads comes into focus and the thread that was in focus takes
    its place. *)
Definition switch (k : nat) (g : t) : t :=
  match others g !! k with
  | None => g
  | Some p =>
      mk (scheduler g) (is_simulation_running g) p (shown g)
         (<[k := thread g]> (others g))
  end.

Definition clear_all_tasks (g : t) : t :=
  mk (set_completed_tasks [] (set_tasks [] (scheduler g)))
     (is_simulation_running g) (thread g) (shown g) (others g).

(** [for i in range(n)] at index [i]: another iteration or the code after
    the loop. *)
Definition for_next (task : ref) (i n : Z) : pc :=
  if i <? n then AtCheck task i n else AtComplete task.

(** Lines 706 to 712 of [run_simulation]. *)
Definition complete (task : ref) (g : t) : t :=
  let s := set_object task (Task.set_status "Completed") (scheduler g) in
  let s :=
    set_object task
      (fun x => Task.set_actual_time (Task.estimated_time x) x) s in
  let s := set_completed_tasks (completed_tasks s ++ [task]) s in
  match list_remove s task (tasks s) with
  | None =>
      mk s (is_simulation_running g)
         (Raised (ValueError "list.remove(x): x not in list")) (shown g)
         (others g)
  | Some l =>
      mk (set_tasks l s) (is_simulation_running g) AtWhile None (others g)
  end.

(** [run_simulation], from one program point to the next: the thread in
    focus advances, the other threads stay where they are. *)
Definition step (rnd : nat) (g : t) : t :=
  match thread g with
  | NotStarted | Returned | Raised _ => g
  | AtWhile =>
      if is_simulation_running g then
        match get_scheduled_tasks (scheduler g) with
        | [] => mk (scheduler g) (is_simulation_running g) AtWhile None (others g)
        | task :: _ =>
            let x := deref (scheduler g) task in
            match get_staff_for_room_class (scheduler g) (Task.room_class x) rnd with
            | inl e =>
                mk (scheduler g) (is_simulation_running g) (Raised e) (shown g)
                   (others g)
            | inr staff =>
                mk (set_object task (Task.set_assigned_staff staff) (scheduler g))
                   (is_simulation_running g)
                   (for_next task 0 (Task.estimated_time x))
                   (Some task) (others g)
            end
        end
      else mk (scheduler g) (is_simulation_running g) Returned None (others g)
  | AtCheck task i n =>
      if is_simulation_running g
      then mk (scheduler g) (is_simulation_running g) (InIncrement task i n) (shown g)
              (others g)
      else mk (scheduler g) (is_simulation_running g) Returned None (others g)
  | InIncrement task i n =>
      mk (scheduler g) (is_simulation_running g) (for_next task (i + 1) n) (shown g)
         (others g)
  | AtComplete task => complete task g
  end.

(** [populate_sample_data], called by [__init__]; the arguments are the
    three readings of the clock. *)
Definition populate_sample_data (t1 t2 t3 : Z) (g : t) : t :=
  let s := scheduler g in
  let s := snd (HotelScheduler.add_task "101" "Housekeeping" 30 "Sample cleaning for Economy" t1 s) in
  let s := snd (HotelScheduler.add_task "405" "Premium Housekeeping" 25 "Sample cleaning for Mid-Range" t2 s) in
  let s := snd (HotelScheduler.add_task "710" "Butler Service" 10 "Sample butler for VIP" t3 s) in
  mk s (is_simulation_running g) (thread g) (shown g) (others g).

(** [HotelManagementGUI(root)]: no dispatch thread exists yet. *)
Definition init (t1 t2 t3 : Z) : t :=
  populate_sample_data t1 t2 t3 (mk HotelScheduler.init false NotStarted None []).

(** What can happen next: the dispatch thread in focus advances by one
    program point, another dispatch thread comes into focus, or the GUI
    thread runs one handler.  [Admit] is a direct call of the scheduler's
    [add_task], as [quick_add_by_class] makes; [Start] and [Stop] are the
    two buttons. *)
Inductive event :=
| Tick (rnd : nat)
| Admit (room_number task_type : string) (estimated_time : Z)
        (description : string) (now : Z)
| AddTask (room_number task_type : string) (estimated_time : Z)
          (description : string) (now : Z)
| AlgorithmChange (selected_algo : string) (quantum : option Z)
| ClearAll
| Stop
| Start
| Switch (k : nat).

Definition apply (g : t) (e : event) : t :=
  match e with
  | Tick rnd => step rnd g
  | Admit rn ty n d now =>
      mk (snd (HotelScheduler.add_task rn ty n d now (scheduler g)))
         (is_simulation_running g) (thread g) (shown g) (others g)
  | AddTask rn ty n d now => add_task rn ty n d now g
  | AlgorithmChange a q => on_algorithm_change a q g
  | ClearAll => clear_all_tasks g
  | Stop => stop_simulation g
  | Start => start_simulation g
  | Switch k => switch k g
  end.

Definition run (g : t) (es : list event) : t := foldl apply g es.

(** The identifiers of rooms 1 to 30 on the floors [floors], floor by floor:
    the list that the nested loops of [on_room_class_change] and the
    comprehensions of [quick_add_by_class] build. *)
Definition room_numbers_on (floors : list Z) : list string :=
  concat (map (fun floor => map (room_number_of floor) (seqZ 1 30)) floors).

Definition class_room_numbers (room_class : string) : list string :=
  if String.eqb room_class "Economy" then room_numbers_on (seqZ 1 3)
  else if String.eqb room_class "Mid-Range" then room_numbers_on (seqZ 4 3)
  else if String.eqb room_class "VIP" then room_numbers_on (seqZ 7 4)
  else [].

(** [on_room_class_change]: the values given to the room combo box and the
    entry the box is set to. *)
Definition on_room_class_change (selected_class : string) : list string * string :=
  let room_numbers := class_room_numbers selected_class in
  (room_numbers, match room_numbers with x :: _ => x | [] => "" end).

(** [quick_add_by_class]; [rnd] is the draw of [random.choice].  With no
    room to choose from the handler shows an error and returns. *)
Definition quick_add_by_class (room_class task_type : string)
    (estimated_time now : Z) (rnd : nat) (g : t) : t :=
  let room_numbers := class_room_numbers room_class in
  match room_numbers !! (rnd mod length room_numbers)%nat with
  | None => g
  | Some room_number =>
      let description :=
        "Auto-generated " +:+ task_type +:+ " for " +:+ room_class in
      mk (snd (HotelScheduler.add_task room_number task_type estimated_time
                 description now (scheduler g)))
         (is_simulation_running g) (thread g) (shown g) (others g)
  end.
End HotelManagementGUI.

Import HotelScheduler.

(** * Vocabulary of the properties *)

(** The sort keys of the policies, read through a reference. *)
Definition rank (s : HotelScheduler.t) (r : ref) : Z := Task.priority (deref s r).
Definition stamp (s : HotelScheduler.t) (r : ref) : Z := Task.timestamp (deref s r).
Definition minutes (s : HotelScheduler.t) (r : ref) : Z :=
  Task.estimated_time (deref s r).

(** Ascending order on (priority rank, creation timestamp). *)
Definition priority_le (s : HotelScheduler.t) (a b : ref) : Prop :=
  rank s a < rank s b \/ (rank s a = rank s b /\ stamp s a <= stamp s b).

(** Ascending order on (estimated duration, priority rank, creation
    timestamp). *)
Definition sjf_le (s : HotelScheduler.t) (a b : ref) : Prop :=
  minutes s a < minutes s b
  \/ (minutes s a = minutes s b /\ priority_le s a b).

(** The number a finite binary64 value stands for, as a rational. *)
Definition float_to_Q (f : float) : option Q :=
  match Prim2SF f with
  | S754_zero _ => Some 0%Q
  | S754_finite sign m e =>
      Some ((if sign then -1 else 1) * inject_Z (Z.pos m) * Qpower 2 e)%Q
  | _ => None
  end.

(** The string has no capital R, hence no occurrence of ["Room "]. *)
Fixpoint no_R (s : string) : bool :=
  match s with
  | EmptyString => true
  | String c s' => negb (Ascii.eqb c "R") && no_R s'
  end.

Module GUI := HotelManagementGUI.

(** Every reference in the pending collection points into the store, every
    identifier handed out so far is below the counter, and no two objects
    share an identifier. *)
Record wf (s : HotelScheduler.t) : Prop := {
  wf_refs : forall r, r ∈ tasks s -> (r < length (objects s))%nat;
  wf_ids : forall r x, objects s !! r = Some x -> Task.id x < task_counter s;
  wf_uniq : forall r1 r2 x1 x2,
      objects s !! r1 = Some x1 -> objects s !! r2 = Some x2 ->
      Task.id x1 = Task.id x2 -> r1 = r2
}.

Definition pending_count (g : GUI.t) : nat := length (tasks (GUI.scheduler g)).

(** The task a dispatch thread at program point [p] is serving, if it is
    serving one. *)
Definition serving (p : GUI.pc) : option ref :=
  match p with
  | GUI.AtCheck task _ _ | GUI.InIncrement task _ _ | GUI.AtComplete task => Some task
  | _ => None
  end.

(** The task the dispatch thread in focus is serving. *)
Definition in_flight (g : GUI.t) : option ref := serving (GUI.thread g).

(** All dispatch threads of the window, the one in focus first. *)
Definition threads (g : GUI.t) : list GUI.pc := GUI.thread g :: GUI.others g.

(** Every task that a dispatch thread is serving is still in the pending
    collection. *)
Definition in_flight_ok (g : GUI.t) : Prop :=
  forall p task, p ∈ threads g -> serving p = Some task ->
    task ∈ tasks (GUI.scheduler g).

(** Every object of the store [s] is still in the store [s'], under the same
    reference and with the same identifier. *)
Definition ids_kept (s s' : HotelScheduler.t) : Prop :=
  forall r x, objects s !! r = Some x ->
    exists x', objects s' !! r = Some x' /\ Task.id x' = Task.id x.


(** The run has no [clear_all_tasks]. *)
Definition no_clear_all (es : list GUI.event) : bool :=
  forallb (fun e => match e with GUI.ClearAll => false | _ => true end) es.

(** The window as it is right after start-up, with the simulation started:
    three sample tasks are pending (rooms 101, 405 and 710, created at
    times 1, 2 and 3). *)
Definition sample_gui : GUI.t := GUI.start_simulation (GUI.init 1 2 3).

(** A request for VIP room 701 comes in at time 4; the dispatch thread then
    picks the head of the Priority order, the ten-minute sample task of room
    710, goes through its ten progress increments and stands before the
    completion block. *)
Definition admit_and_serve : list GUI.event :=
  (GUI.Admit "701" "Butler Service" 5 "Wake-up call" 4 :: repeat (GUI.Tick 0) 21)%list.

(** The stop button is pressed while the dispatch thread is inside the last
    of the ten progress increments of the sample task for room 710. *)
Definition stop_in_last_increment : list GUI.event :=
  (repeat (GUI.Tick 0) 20 ++ [GUI.Stop])%list.

(** The stop button is pressed while the thread sleeps in the first progress
    increment of the sample task for room 710.  The thread sees the cleared
    flag at its next flag test and returns; then the start button is
    pressed, and the new thread picks the task again and serves it up to
    the completion block. *)
Definition stop_then_restart : list GUI.event :=
  ([GUI.Tick 0; GUI.Tick 0; GUI.Stop; GUI.Tick 0; GUI.Tick 0; GUI.Start]
     ++ repeat (GUI.Tick 0) 21)%list.


(** Rooms of the three classes ask for service in the order VIP (10 min),
    Economy (5 min), Mid-Range (8 min). *)
Definition three_requests : HotelScheduler.t :=
  let s := snd (add_task "710" "Butler Service" 10 "Evening service" 1 init) in
  let s := snd (add_task "101" "Housekeeping" 5 "Fresh towels" 2 s) in
  snd (add_task "405" "Room Service" 8 "Breakfast" 3 s).

(** Three requests of the same duration, one per class, Economy first. *)
Definition same_duration : HotelScheduler.t :=
  let s := snd (add_task "101" "Housekeeping" 15 "Fresh towels" 1 init) in
  let s := snd (add_task "405" "Housekeeping" 15 "Fresh towels" 2 s) in
  let s := snd (add_task "710" "Housekeeping" 15 "Fresh towels" 3 s) in
  set_current_algorithm "SJF" s.

(** The four names [get_scheduled_tasks] knows. *)
Definition policies : list string := ["FCFS"; "Priority"; "SJF"; "Round Robin"].

(** The window after [on_algorithm_change] has run with a name that is none
    of the four. *)
Definition unknown_policy_gui : GUI.t :=
  GUI.on_algorithm_change "LIFO" None sample_gui.

(** The fields of a task that are written once, when it is admitted; the
    dispatch loop writes the other three. *)
Definition frozen (x x' : Task.t) : Prop :=
  Task.id x' = Task.id x
  /\ Task.room_number x' = Task.room_number x
  /\ Task.room_class x' = Task.room_class x
  /\ Task.task_type x' = Task.task_type x
  /\ Task.priority x' = Task.priority x
  /\ Task.estimated_time x' = Task.estimated_time x
  /\ Task.description x' = Task.description x
  /\ Task.timestamp x' = Task.timestamp x
  /\ Task.service_charge x' = Task.service_charge x.

(** Every task of the store [s] is still in the store [s'], under the same
    reference and with the same admission data. *)
Definition snapshot_kept (s s' : HotelScheduler.t) : Prop :=
  forall r x, objects s !! r = Some x ->
    exists x', objects s' !! r = Some x' /\ frozen x x'.

(** Identifiers count up from 1 in the order of admission. *)
Definition ids_consecutive (s : HotelScheduler.t) : Prop :=
  task_counter s = Z.of_nat (length (objects s)) + 1
  /\ forall r x, objects s !! r = Some x -> Task.id x = Z.of_nat r + 1.

(** The task carries the class, rank and charge of one of the three room
    classes. *)
Definition priced (x : Task.t) : Prop :=
  (Task.room_class x = "Economy" /\ Task.priority x = 3
   /\ Task.service_charge x = 10%float)
  \/ (Task.room_class x = "Mid-Range" /\ Task.priority x = 2
      /\ Task.service_charge x = 22.5%float)
  \/ (Task.room_class x = "VIP" /\ Task.priority x = 1
      /\ Task.service_charge x = 62.5%float).

(** The room is the same room, with a history that has only grown. *)
Definition room_kept (room room' : HotelRoom.t) : Prop :=
  HotelRoom.kind room' = HotelRoom.kind room
  /\ HotelRoom.room_number room' = HotelRoom.room_number room
  /\ HotelRoom.floor room' = HotelRoom.floor room
  /\ HotelRoom.amenities room' = HotelRoom.amenities room
  /\ HotelRoom.is_occupied room' = HotelRoom.is_occupied room
  /\ HotelRoom.guest_name room' = HotelRoom.guest_name room
  /\ HotelRoom.check_in_time room' = HotelRoom.check_in_time room
  /\ HotelRoom.room_class room' = HotelRoom.room_class room
  /\ HotelRoom.tasks_history room `prefix_of` HotelRoom.tasks_history room'.

(** The two catalogs have the same identifiers and, under each, the same
    room. *)
Definition rooms_kept (s s' : HotelScheduler.t) : Prop :=
  forall k,
    match rooms s !! k, rooms s' !! k with
    | Some room, Some room' => room_kept room room'
    | None, None => True
    | _, _ => False
    end.

(** Tasks and room histories agree: every task is filed in the history of
    the room it names, and every entry of a history is a task that names
    that room. *)
Definition filed (s : HotelScheduler.t) : Prop :=
  (forall r x, objects s !! r = Some x ->
     exists room,
       get_room s (Task.room_number x) = Some room
       /\ r ∈ HotelRoom.tasks_history room
       /\ HotelRoom.get_room_class room = Task.room_class x
       /\ HotelRoom.get_priority_level room = Task.priority x)
  /\ (forall k room r, rooms s !! k = Some room ->
        r ∈ HotelRoom.tasks_history room ->
        exists x, objects s !! r = Some x
                  /\ replace (Task.room_number x) "Room " "" = k).

(** The class of the rooms of a floor, as [initialize_rooms] assigns it. *)
Definition floor_kind (floor : Z) : RoomKind :=
  if floor <=? 3 then EconomyRoom
  else if floor <=? 6 then MidRangeRoom
  else VIPRoom.

(** The three class names of the room-class combo box. *)
Definition room_classes : list string := ["Economy"; "Mid-Range"; "VIP"].

Global Instance RoomKind_eq_dec : EqDecision RoomKind.
Proof. solve_decision. Defined.

Global Instance HotelRoom_eq_dec : EqDecision HotelRoom.t.
Proof. solve_decision. Defined.

(** The dispatch thread has died of an exception. *)
Definition raised (p : GUI.pc) : bool :=
  match p with GUI.Raised _ => true | _ => false end.

(** The dispatch thread is not running: never started, returned or dead. *)
Definition stopped (p : GUI.pc) : bool :=
  match p with GUI.NotStarted | GUI.Returned | GUI.Raised _ => true | _ => false end.

(** The number of dispatch threads that are running. *)
Definition live_threads (g : GUI.t) : nat :=
  length (List.filter GUI.alive (threads g)).

(** At most one dispatch thread is running in every state the run goes
    through: the start button is pressed again only after the thread of the
    earlier start has seen the stop and returned. *)
Fixpoint one_thread (g : GUI.t) (es : list GUI.event) : bool :=
  (live_threads g <=? 1)%nat
  && match es with
     | [] => true
     | e :: es' => one_thread (GUI.apply g e) es'
     end.

(** The number of program points a thread at [p] that is serving a task
    still has to go through, with the flag set, until it has left the
    completion block. *)
Definition steps_left (p : GUI.pc) : nat :=
  match p with
  | GUI.AtCheck _ i n => 2 * Z.to_nat (n - (i + 1)) + 3
  | GUI.InIncrement _ i n => 2 * Z.to_nat (n - (i + 1)) + 2
  | GUI.AtComplete _ => 1
  | _ => 0
  end.

(** The number of steps the thread in focus takes in the run. *)
Definition ticks (es : list GUI.event) : nat :=
  length (List.filter (fun e => match e with GUI.Tick _ => true | _ => false end) es).

(** The event is neither the stop button, nor clear-all, nor a change of
    focus: it is a step of the thread in focus, an admission, a change of
    policy, or the start button (which does nothing while the flag is
    set). *)
Definition goes_on (e : GUI.event) : bool :=
  match e with
  | GUI.Stop | GUI.ClearAll | GUI.Switch _ => false
  | _ => true
  end.

(** The flag is set, the store is well formed and holds at least [N] tasks,
    and every pending task was admitted after the first [N]. *)
Definition admitted_later (N : nat) (g : GUI.t) : Prop :=
  wf (GUI.scheduler g)
  /\ GUI.is_simulation_running g = true
  /\ (N <= length (objects (GUI.scheduler g)))%nat
  /\ (forall r, r ∈ tasks (GUI.scheduler g) -> (N <= r)%nat).

(** The two collections are in order: no task is pending twice, every
    pending task has status Pending, every completed task is a stored task
    with status Completed whose actual time is its estimated time, and the
    task that a dispatch thread is serving is a stored task. *)
Definition collections_ok (g : GUI.t) : Prop :=
  NoDup (tasks (GUI.scheduler g))
  /\ (forall r, r ∈ tasks (GUI.scheduler g) ->
        Task.status (deref (GUI.scheduler g) r) = "Pending")
  /\ (forall r, r ∈ completed_tasks (GUI.scheduler g) ->
        (r < length (objects (GUI.scheduler g)))%nat
        /\ Task.status (deref (GUI.scheduler g) r) = "Completed"
        /\ Task.actual_time (deref (GUI.scheduler g) r)
           = Task.estimated_time (deref (GUI.scheduler g) r))
  /\ (forall p task, p ∈ threads g -> serving p = Some task ->
        (task < length (objects (GUI.scheduler g)))%nat).

(** * Properties *)

(** ** Facts about [sorted] *)

Section SortedFacts.
Context {A K : Type} (lt : K -> K -> bool) (key : A -> K).
Hypothesis lt_asym : forall a b, lt a b = true -> lt b a = false.
Hypothesis lt_cotrans :
  forall a b c, lt b a = false -> lt c b = false -> lt c a = false.

Lemma insert_by_Permutation x l : insert_by lt key x l ≡ₚ x :: l.
Proof.
  induction l as [|y l IH]; simpl; [done|].
  destruct (lt (key y) (key x)); [|done].
  rewrite IH. apply Permutation_swap.
Qed.

Lemma sorted_Permutation l : sorted lt key l ≡ₚ l.
Proof.
  induction l as [|x l IH]; simpl; [done|].
  by rewrite insert_by_Permutation, IH.
Qed.

Lemma insert_by_StronglySorted x l :
  StronglySorted (key_le lt key) l -> StronglySorted (key_le lt key) (insert_by lt key x l).
Proof.
  induction 1 as [|y l Hl IH Hy]; simpl.
  - repeat constructor.
  - destruct (lt (key y) (key x)) eqn:Hyx.
    + constructor; [exact IH|].
      rewrite insert_by_Permutation. constructor; [|exact Hy].
      apply lt_asym, Hyx.
    + constructor; [by constructor|].
      constructor; [exact Hyx|].
      eapply Forall_impl; [exact Hy|].
      intros z Hz. unfold key_le in *. eauto.
Qed.

Lemma sorted_StronglySorted l : StronglySorted (key_le lt key) (sorted lt key l).
Proof.
  induction l as [|x l IH]; simpl; [constructor|].
  by apply insert_by_StronglySorted.
Qed.

Lemma lt_irrefl a : lt a a = false.
Proof. destruct (lt a a) eqn:H; [|done]. by rewrite (lt_asym a a H) in H. Qed.

(** Stability: the elements with a given key come out in the order in
    which they went in. *)
Lemma insert_by_filter_key `{!EqDecision K} (k : K) x l :
  filter (fun y => key y = k) (insert_by lt key x l)
  = filter (fun y => key y = k) (x :: l).
Proof.
  induction l as [|y l IH]; simpl; [done|].
  destruct (lt (key y) (key x)) eqn:Hyx; [|done].
  rewrite !filter_cons in *.
  destruct (decide (key y = k)) as [Hy|Hy], (decide (key x = k)) as [Hx|Hx];
    try (by rewrite IH).
  rewrite Hy, Hx, lt_irrefl in Hyx. discriminate.
Qed.

Lemma sorted_stable `{!EqDecision K} (k : K) l :
  filter (fun y => key y = k) (sorted lt key l) = filter (fun y => key y = k) l.
Proof.
  induction l as [|x l IH]; simpl; [done|].
  rewrite insert_by_filter_key. rewrite !filter_cons. by rewrite IH.
Qed.

(** When keys that are not ordered either way are equal, as integers and
    tuples of integers are, being sorted and stable pins the result down:
    every sorting procedure with these two properties, Python's among them,
    returns what [sorted] returns. *)
Hypothesis lt_connex : forall a b, lt a b = false -> lt b a = false -> a = b.

Lemma head_keys_agree `{!EqDecision K} x y l1 l2 :
  StronglySorted (key_le lt key) (x :: l1) ->
  StronglySorted (key_le lt key) (y :: l2) ->
  (forall k, filter (fun z => key z = k) (x :: l1)
             = filter (fun z => key z = k) (y :: l2)) ->
  key x = key y.
Proof.
  intros H1 H2 Hf.
  apply StronglySorted_inv in H1 as [_ H1], H2 as [_ H2].
  rewrite Forall_forall in H1, H2.
  assert (Hx : x ∈ y :: l2).
  { eapply (list_elem_of_filter (fun z => key z = key x)). rewrite <- Hf.
    rewrite filter_cons_True by done. apply list_elem_of_here. }
  assert (Hy : y ∈ x :: l1).
  { eapply (list_elem_of_filter (fun z => key z = key y)). rewrite Hf.
    rewrite filter_cons_True by done. apply list_elem_of_here. }
  apply elem_of_cons in Hx as [->|Hx]; [done|].
  apply elem_of_cons in Hy as [->|Hy]; [done|].
  apply lt_connex; [apply (H2 x Hx) | apply (H1 y Hy)].
Qed.

Lemma stable_sort_unique `{!EqDecision K} l1 l2 :
  StronglySorted (key_le lt key) l1 -> StronglySorted (key_le lt key) l2 ->
  (forall k, filter (fun z => key z = k) l1 = filter (fun z => key z = k) l2) ->
  l1 = l2.
Proof.
  revert l2. induction l1 as [|x l1 IH]; intros [|y l2] H1 H2 Hf; [done| | |].
  - specialize (Hf (key y)). by rewrite filter_cons_True in Hf.
  - specialize (Hf (key x)). by rewrite filter_cons_True in Hf.
  - pose proof (head_keys_agree x y l1 l2 H1 H2 Hf) as Hk.
    assert (x = y) as <-.
    { specialize (Hf (key x)). rewrite !filter_cons_True in Hf by done.
      by injection Hf. }
    f_equal. apply StronglySorted_inv in H1 as [H1 _], H2 as [H2 _].
    apply IH; [done|done|]. intros k. specialize (Hf k).
    rewrite !filter_cons in Hf. destruct (decide (key x = k)); [by injection Hf|done].
Qed.

Lemma sorted_characterised `{!EqDecision K} l l' :
  StronglySorted (key_le lt key) l' ->
  (forall k, filter (fun z => key z = k) l' = filter (fun z => key z = k) l) ->
  l' = sorted lt key l.
Proof.
  intros Hs Hf. apply stable_sort_unique; [done|apply sorted_StronglySorted|].
  intros k. by rewrite sorted_stable.
Qed.
End SortedFacts.

Lemma StronglySorted_lookup_lt {A} (R : A -> A -> Prop) (l : list A) i j a b :
  StronglySorted R l -> l !! i = Some a -> l !! j = Some b -> (i < j)%nat -> R a b.
Proof.
  intros Hs. revert i j. induction Hs as [|x l Hl IH Hx]; intros i j Hi Hj Hij.
  - done.
  - destruct j as [|j]; [lia|]. destruct i as [|i]; simpl in *.
    + injection Hi as <-. rewrite Forall_forall in Hx.
      apply Hx. eapply list_elem_of_lookup_2, Hj.
    + apply (IH i j); [done|done|lia].
Qed.

Lemma StronglySorted_weaken {A} (R1 R2 : A -> A -> Prop) (l : list A) :
  (forall a b, R1 a b -> R2 a b) -> StronglySorted R1 l -> StronglySorted R2 l.
Proof.
  intros Himp. induction 1 as [|x l Hl IH Hx]; constructor; [exact IH|].
  eapply Forall_impl; [exact Hx|]. intros y. apply Himp.
Qed.

Lemma lt_tuple2_asym a b : lt_tuple2 a b = true -> lt_tuple2 b a = false.
Proof.
  unfold lt_tuple2. destruct a as [a1 a2], b as [b1 b2]; simpl.
  destruct (Z.eqb_spec a1 b1), (Z.eqb_spec b1 a1); lia.
Qed.

Lemma lt_tuple2_cotrans a b c :
  lt_tuple2 b a = false -> lt_tuple2 c b = false -> lt_tuple2 c a = false.
Proof.
  unfold lt_tuple2. destruct a as [a1 a2], b as [b1 b2], c as [c1 c2]; simpl.
  destruct (Z.eqb_spec b1 a1), (Z.eqb_spec c1 b1), (Z.eqb_spec c1 a1); lia.
Qed.

Lemma lt_tuple2_connex a b :
  lt_tuple2 a b = false -> lt_tuple2 b a = false -> a = b.
Proof.
  unfold lt_tuple2. destruct a as [a1 a2], b as [b1 b2]; simpl.
  destruct (Z.eqb_spec a1 b1), (Z.eqb_spec b1 a1); intros; f_equal; lia.
Qed.

Lemma lt_tuple3_asym a b : lt_tuple3 a b = true -> lt_tuple3 b a = false.
Proof.
  unfold lt_tuple3, lt_tuple2.
  destruct a as [[a1 a2] a3], b as [[b1 b2] b3]; simpl.
  destruct (Z.eqb_spec a1 b1), (Z.eqb_spec b1 a1),
    (Z.eqb_spec a2 b2), (Z.eqb_spec b2 a2); lia.
Qed.

Lemma lt_tuple3_cotrans a b c :
  lt_tuple3 b a = false -> lt_tuple3 c b = false -> lt_tuple3 c a = false.
Proof.
  unfold lt_tuple3, lt_tuple2.
  destruct a as [[a1 a2] a3], b as [[b1 b2] b3], c as [[c1 c2] c3]; simpl.
  destruct (Z.eqb_spec b1 a1), (Z.eqb_spec c1 b1), (Z.eqb_spec c1 a1),
    (Z.eqb_spec b2 a2), (Z.eqb_spec c2 b2), (Z.eqb_spec c2 a2); lia.
Qed.

Lemma lt_tuple3_connex a b :
  lt_tuple3 a b = false -> lt_tuple3 b a = false -> a = b.
Proof.
  unfold lt_tuple3, lt_tuple2.
  destruct a as [[a1 a2] a3], b as [[b1 b2] b3]; simpl.
  destruct (Z.eqb_spec a1 b1), (Z.eqb_spec b1 a1),
    (Z.eqb_spec a2 b2), (Z.eqb_spec b2 a2); intros; repeat f_equal; lia.
Qed.

Lemma lt_tuple2_false_le a b :
  lt_tuple2 b a = false ->
  fst a < fst b \/ (fst a = fst b /\ snd a <= snd b).
Proof.
  unfold lt_tuple2. destruct a as [a1 a2], b as [b1 b2]; simpl.
  destruct (Z.eqb_spec b1 a1); lia.
Qed.

Lemma priority_schedule_sorted (s : HotelScheduler.t) :
  StronglySorted (priority_le s) (priority_schedule s).
Proof.
  unfold priority_schedule.
  eapply StronglySorted_weaken;
    [|apply sorted_StronglySorted; [apply lt_tuple2_asym | apply lt_tuple2_cotrans]].
  intros a b Hab. apply lt_tuple2_false_le in Hab. exact Hab.
Qed.

Lemma sjf_schedule_sorted (s : HotelScheduler.t) :
  StronglySorted (sjf_le s) (sjf_schedule s).
Proof.
  unfold sjf_schedule.
  eapply StronglySorted_weaken;
    [|apply sorted_StronglySorted; [apply lt_tuple3_asym | apply lt_tuple3_cotrans]].
  intros a b Hab. unfold key_le, lt_tuple3 in Hab; simpl in Hab.
  unfold sjf_le, minutes.
  destruct (Z.eqb_spec (Task.estimated_time (deref s b))
              (Task.estimated_time (deref s a))) as [He|He].
  - right. split; [lia|]. apply lt_tuple2_false_le in Hab. exact Hab.
  - left. lia.
Qed.

(** The list the schedules sort is made of the tasks of the pending
    collection whose status field reads "Pending", in the order of the
    collection. *)
Lemma pending_elem (s : HotelScheduler.t) r :
  r ∈ pending s <-> r ∈ tasks s /\ Task.status (deref s r) = "Pending".
Proof.
  unfold pending. rewrite !list_elem_of_In, filter_In.
  by rewrite String.eqb_eq.
Qed.

Lemma pending_filter (s : HotelScheduler.t) :
  pending s = filter (fun r => Task.status (deref s r) = "Pending") (tasks s).
Proof.
  unfold pending. induction (tasks s) as [|r l IH]; [done|].
  cbn [List.filter]. rewrite filter_cons.
  destruct (String.eqb_spec (Task.status (deref s r)) "Pending") as [E|E].
  - rewrite decide_True by done. by rewrite IH.
  - by rewrite decide_False by done.
Qed.

(** The Priority and ShortestJobFirst orders are the only sorted and stable
    arrangements of the pending tasks. *)
Lemma priority_schedule_unique (s : HotelScheduler.t) (l : list ref) :
  StronglySorted
    (key_le lt_tuple2 (fun x => (Task.priority (deref s x), Task.timestamp (deref s x))))
    l ->
  (forall k : Z * Z,
     filter (fun x => (Task.priority (deref s x), Task.timestamp (deref s x)) = k) l
     = filter (fun x => (Task.priority (deref s x), Task.timestamp (deref s x)) = k)
         (pending s)) ->
  l = priority_schedule s.
Proof.
  apply sorted_characterised;
    [apply lt_tuple2_asym | apply lt_tuple2_cotrans | apply lt_tuple2_connex].
Qed.

Lemma sjf_schedule_unique (s : HotelScheduler.t) (l : list ref) :
  StronglySorted
    (key_le lt_tuple3
       (fun x => (Task.estimated_time (deref s x), Task.priority (deref s x),
                  Task.timestamp (deref s x))))
    l ->
  (forall k : Z * Z * Z,
     filter (fun x => (Task.estimated_time (deref s x), Task.priority (deref s x),
                       Task.timestamp (deref s x)) = k) l
     = filter (fun x => (Task.estimated_time (deref s x), Task.priority (deref s x),
                         Task.timestamp (deref s x)) = k) (pending s)) ->
  l = sjf_schedule s.
Proof.
  apply sorted_characterised;
    [apply lt_tuple3_asym | apply lt_tuple3_cotrans | apply lt_tuple3_connex].
Qed.

(** C1: under the Priority policy the scheduled order is made of the tasks
    of the pending collection whose status is Pending, each as often as it
    is there and no other task, sorted ascending by (priority rank, creation
    timestamp): a task of strictly lower rank stands before a task of higher
    rank wherever the two stood in the pending collection, tasks of equal
    rank stand in ascending timestamp order, and tasks with the same rank
    and timestamp keep the order they have in the pending collection. *)
Theorem priority_policy_order (s : HotelScheduler.t) :
  current_algorithm s = "Priority" ->
  get_scheduled_tasks s = priority_schedule s
  /\ (forall r, r ∈ get_scheduled_tasks s
                <-> r ∈ tasks s /\ Task.status (deref s r) = "Pending")
  /\ get_scheduled_tasks s
     ≡ₚ filter (fun r => Task.status (deref s r) = "Pending") (tasks s)
  /\ StronglySorted (priority_le s) (get_scheduled_tasks s)
  /\ (forall i j a b,
        get_scheduled_tasks s !! i = Some a ->
        get_scheduled_tasks s !! j = Some b ->
        rank s a < rank s b -> (i < j)%nat)
  /\ (forall i j a b,
        get_scheduled_tasks s !! i = Some a ->
        get_scheduled_tasks s !! j = Some b ->
        (i < j)%nat -> rank s a = rank s b -> stamp s a <= stamp s b)
  /\ (forall k : Z * Z,
        filter (fun x => (rank s x, stamp s x) = k) (get_scheduled_tasks s)
        = filter (fun x => (rank s x, stamp s x) = k)
            (filter (fun r => Task.status (deref s r) = "Pending") (tasks s))).
Proof.
  intros Halg.
  assert (Hget : get_scheduled_tasks s = priority_schedule s).
  { unfold get_scheduled_tasks. by rewrite Halg. }
  rewrite Hget. pose proof (priority_schedule_sorted s) as Hsorted.
  assert (Hperm : priority_schedule s ≡ₚ pending s) by apply sorted_Permutation.
  split; [done|]. split; [intros r; rewrite Hperm; apply pending_elem|].
  split; [by rewrite <- pending_filter|]. split; [done|].
  split; [|split].
  - intros i j a b Hi Hj Hlt.
    destruct (Nat.lt_trichotomy i j) as [Hij|[Hij|Hij]]; [done| |].
    + subst j. rewrite Hi in Hj. injection Hj as <-. lia.
    + pose proof (StronglySorted_lookup_lt _ _ _ _ _ _ Hsorted Hj Hi Hij) as Hba.
      unfold priority_le in Hba. lia.
  - intros i j a b Hi Hj Hij Heq.
    pose proof (StronglySorted_lookup_lt _ _ _ _ _ _ Hsorted Hi Hj Hij) as Hab.
    unfold priority_le in Hab. lia.
  - intros k. rewrite <- pending_filter. unfold priority_schedule.
    apply (sorted_stable lt_tuple2
             (fun x => (Task.priority (deref s x), Task.timestamp (deref s x)))
             lt_tuple2_asym).
Qed.

(** On the start-up state the three sample tasks come out VIP first, then
    Mid-Range, then Economy, the reverse of the order of admission. *)
Lemma priority_policy_order_witness :
  current_algorithm (GUI.scheduler sample_gui) = "Priority"
  /\ tasks (GUI.scheduler sample_gui) = [0%nat; 1%nat; 2%nat]
  /\ get_scheduled_tasks (GUI.scheduler sample_gui) = [2%nat; 1%nat; 0%nat]
  /\ 2%nat ∈ get_scheduled_tasks (GUI.scheduler sample_gui)
  /\ get_scheduled_tasks (GUI.scheduler sample_gui)
     ≡ₚ filter (fun r => Task.status (deref (GUI.scheduler sample_gui) r) = "Pending")
          (tasks (GUI.scheduler sample_gui))
  /\ StronglySorted (priority_le (GUI.scheduler sample_gui))
       (get_scheduled_tasks (GUI.scheduler sample_gui)).
Proof.
  assert (Halg : current_algorithm (GUI.scheduler sample_gui) = "Priority")
    by (vm_compute; reflexivity).
  assert (Htasks : tasks (GUI.scheduler sample_gui) = [0%nat; 1%nat; 2%nat])
    by (vm_compute; reflexivity).
  split; [exact Halg|]. split; [exact Htasks|].
  split; [vm_compute; reflexivity|].
  destruct (priority_policy_order (GUI.scheduler sample_gui) Halg)
    as (_ & Hmem & Hperm & Hsorted & _).
  split; [|split; [exact Hperm | exact Hsorted]].
  apply Hmem. split; [|vm_compute; reflexivity].
  rewrite Htasks. apply list_elem_of_further, list_elem_of_further, list_elem_of_here.
Defined.

(** C3: under the ShortestJobFirst policy the scheduled order is made of the
    tasks of the pending collection whose status is Pending, each as often
    as it is there and no other task, sorted ascending by (estimated
    duration, priority rank, creation timestamp): among tasks of equal
    duration the lower rank comes first, among tasks of equal duration and
    rank the earlier timestamp, and tasks that agree on all three keep the
    order they have in the pending collection. *)
Theorem sjf_policy_order (s : HotelScheduler.t) :
  current_algorithm s = "SJF" ->
  get_scheduled_tasks s = sjf_schedule s
  /\ (forall r, r ∈ get_scheduled_tasks s
                <-> r ∈ tasks s /\ Task.status (deref s r) = "Pending")
  /\ get_scheduled_tasks s
     ≡ₚ filter (fun r => Task.status (deref s r) = "Pending") (tasks s)
  /\ StronglySorted (sjf_le s) (get_scheduled_tasks s)
  /\ (forall i j a b,
        get_scheduled_tasks s !! i = Some a ->
        get_scheduled_tasks s !! j = Some b ->
        minutes s a < minutes s b -> (i < j)%nat)
  /\ (forall i j a b,
        get_scheduled_tasks s !! i = Some a ->
        get_scheduled_tasks s !! j = Some b ->
        minutes s a = minutes s b ->
        rank s a < rank s b -> (i < j)%nat)
  /\ (forall i j a b,
        get_scheduled_tasks s !! i = Some a ->
        get_scheduled_tasks s !! j = Some b ->
        (i < j)%nat ->
        minutes s a = minutes s b -> rank s a = rank s b ->
        stamp s a <= stamp s b)
  /\ (forall k : Z * Z * Z,
        filter (fun x => (minutes s x, rank s x, stamp s x) = k)
          (get_scheduled_tasks s)
        = filter (fun x => (minutes s x, rank s x, stamp s x) = k)
            (filter (fun r => Task.status (deref s r) = "Pending") (tasks s))).
Proof.
  intros Halg.
  assert (Hget : get_scheduled_tasks s = sjf_schedule s).
  { unfold get_scheduled_tasks. by rewrite Halg. }
  rewrite Hget. pose proof (sjf_schedule_sorted s) as Hsorted.
  assert (Hperm : sjf_schedule s ≡ₚ pending s) by apply sorted_Permutation.
  split; [done|]. split; [intros r; rewrite Hperm; apply pending_elem|].
  split; [by rewrite <- pending_filter|]. split; [done|].
  split; [|split; [|split]].
  - intros i j a b Hi Hj Hlt.
    destruct (Nat.lt_trichotomy i j) as [Hij|[Hij|Hij]]; [done| |].
    + subst j. rewrite Hi in Hj. injection Hj as <-. lia.
    + pose proof (StronglySorted_lookup_lt _ _ _ _ _ _ Hsorted Hj Hi Hij) as Hba.
      unfold sjf_le, priority_le in Hba. lia.
  - intros i j a b Hi Hj Hmin Hlt.
    destruct (Nat.lt_trichotomy i j) as [Hij|[Hij|Hij]]; [done| |].
    + subst j. rewrite Hi in Hj. injection Hj as <-. lia.
    + pose proof (StronglySorted_lookup_lt _ _ _ _ _ _ Hsorted Hj Hi Hij) as Hba.
      unfold sjf_le, priority_le in Hba. lia.
  - intros i j a b Hi Hj Hij Hmin Heq.
    pose proof (StronglySorted_lookup_lt _ _ _ _ _ _ Hsorted Hi Hj Hij) as Hab.
    unfold sjf_le, priority_le in Hab. lia.
  - intros k. rewrite <- pending_filter. unfold sjf_schedule.
    apply (sorted_stable lt_tuple3
             (fun x => (Task.estimated_time (deref s x),
                        Task.priority (deref s x),
                        Task.timestamp (deref s x)))).
    apply lt_tuple3_asym.
Qed.

(** Three tasks of fifteen minutes each, admitted Economy, Mid-Range, VIP:
    the ranks decide, and the tasks come out VIP, Mid-Range, Economy. *)
Lemma sjf_policy_order_witness :
  current_algorithm same_duration = "SJF"
  /\ tasks same_duration = [0%nat; 1%nat; 2%nat]
  /\ get_scheduled_tasks same_duration = [2%nat; 1%nat; 0%nat]
  /\ 2%nat ∈ get_scheduled_tasks same_duration
  /\ get_scheduled_tasks same_duration
     ≡ₚ filter (fun r => Task.status (deref same_duration r) = "Pending")
          (tasks same_duration)
  /\ StronglySorted (sjf_le same_duration) (get_scheduled_tasks same_duration).
Proof.
  assert (Halg : current_algorithm same_duration = "SJF") by (vm_compute; reflexivity).
  assert (Htasks : tasks same_duration = [0%nat; 1%nat; 2%nat])
    by (vm_compute; reflexivity).
  split; [exact Halg|]. split; [exact Htasks|].
  split; [vm_compute; reflexivity|].
  destruct (sjf_policy_order same_duration Halg) as (_ & Hmem & Hperm & Hsorted & _).
  split; [|split; [exact Hperm | exact Hsorted]].
  apply Hmem. split; [|vm_compute; reflexivity].
  rewrite Htasks. apply list_elem_of_further, list_elem_of_further, list_elem_of_here.
Defined.

(** C4: the RoundRobin ordering is the Priority ordering on every state, and
    the time quantum has no effect on it. *)
Theorem round_robin_is_priority (s : HotelScheduler.t) (q : Z) :
  round_robin_schedule s = priority_schedule s
  /\ round_robin_schedule (set_time_quantum q s) = round_robin_schedule s
  /\ get_scheduled_tasks (set_time_quantum q (set_current_algorithm "Round Robin" s))
     = get_scheduled_tasks (set_current_algorithm "Priority" s).
Proof. repeat split. Qed.

(** ** Admission *)

(** What a successful call of [add_task] leaves behind. *)
Lemma add_task_Some rn ty n d now s room :
  get_room s rn = Some room ->
  add_task rn ty n d now s =
    (inr (length (objects s)),
     HotelScheduler.mk
       (objects s ++
          [Task.mk (task_counter s) rn (HotelRoom.get_room_class room) ty
             (HotelRoom.get_priority_level room) n d now "Pending" "" 0
             (HotelRoom.calculate_service_charge room
                (HotelRoom.get_base_service_charge room))])
       (tasks s ++ [length (objects s)]) (completed_tasks s)
       (<[replace rn "Room " "" :=
            HotelRoom.add_task_to_history room (length (objects s))]> (rooms s))
       (task_counter s + 1) (staff_members s) (current_task s) (is_running s)
       (current_algorithm s) (time_quantum s)).
Proof. intros Hroom. unfold add_task. by rewrite Hroom. Qed.

Lemma add_task_None rn ty n d now s :
  get_room s rn = None ->
  add_task rn ty n d now s = (inl (ValueError ("Room " +:+ rn +:+ " not found")), s).
Proof. intros Hroom. unfold add_task. by rewrite Hroom. Qed.

Lemma add_task_inr rn ty n d now s r :
  fst (add_task rn ty n d now s) = inr r ->
  exists room, get_room s rn = Some room.
Proof.
  unfold add_task. destruct (get_room s rn) as [room|]; [eauto|discriminate].
Qed.

Lemma deref_app_new (s' : HotelScheduler.t) (l : list Task.t) (x : Task.t) :
  objects s' = (l ++ [x])%list -> deref s' (length l) = x.
Proof.
  intros Hobj. unfold deref. rewrite Hobj.
  rewrite lookup_app_r by lia. by rewrite Nat.sub_diag.
Qed.

Lemma deref_add_task_old rn ty n d now s r :
  (r < length (objects s))%nat -> deref (snd (add_task rn ty n d now s)) r = deref s r.
Proof.
  intros Hlt. unfold add_task. destruct (get_room s rn); [|done].
  unfold deref. cbn [snd objects]. by rewrite lookup_app_l.
Qed.

Lemma length_add_task rn ty n d now s :
  (length (objects s) <= length (objects (snd (add_task rn ty n d now s))))%nat.
Proof.
  unfold add_task. destruct (get_room s rn); [|done].
  cbn [snd objects]. rewrite length_app. lia.
Qed.

(** C2: the task returned by a successful admission carries the charge
    base charge x multiplier of its room's class, with no rounding
    (Economy 10.0 x 1.0 = 10, Mid-Range 15.0 x 1.5 = 22.5,
    VIP 25.0 x 2.5 = 62.5), and the rank of the class (VIP 1, Mid-Range 2,
    Economy 3). *)
Theorem admission_charge_and_rank rn ty n d now s r :
  fst (add_task rn ty n d now s) = inr r ->
  exists room,
    get_room s rn = Some room
    /\ Task.service_charge (deref (snd (add_task rn ty n d now s)) r)
       = (HotelRoom.get_base_service_charge room
          * HotelRoom.get_service_multiplier room)%float
    /\ (exists qc qb qm,
          float_to_Q (Task.service_charge (deref (snd (add_task rn ty n d now s)) r)) = Some qc
          /\ float_to_Q (HotelRoom.get_base_service_charge room) = Some qb
          /\ float_to_Q (HotelRoom.get_service_multiplier room) = Some qm
          /\ (qc == qb * qm)%Q)
    /\ Task.priority (deref (snd (add_task rn ty n d now s)) r) = HotelRoom.get_priority_level room
    /\ Task.room_class (deref (snd (add_task rn ty n d now s)) r) = HotelRoom.get_room_class room
    /\ match HotelRoom.kind room with
       | EconomyRoom =>
           Task.room_class (deref (snd (add_task rn ty n d now s)) r) = "Economy"
           /\ Task.service_charge (deref (snd (add_task rn ty n d now s)) r) = 10%float
           /\ Task.priority (deref (snd (add_task rn ty n d now s)) r) = 3
       | MidRangeRoom =>
           Task.room_class (deref (snd (add_task rn ty n d now s)) r) = "Mid-Range"
           /\ Task.service_charge (deref (snd (add_task rn ty n d now s)) r) = 22.5%float
           /\ Task.priority (deref (snd (add_task rn ty n d now s)) r) = 2
       | VIPRoom =>
           Task.room_class (deref (snd (add_task rn ty n d now s)) r) = "VIP"
           /\ Task.service_charge (deref (snd (add_task rn ty n d now s)) r) = 62.5%float
           /\ Task.priority (deref (snd (add_task rn ty n d now s)) r) = 1
       end.
Proof.
  intros Hadd. destruct (add_task_inr _ _ _ _ _ _ _ Hadd) as [room Hroom].
  rewrite (add_task_Some _ ty n d now _ _ Hroom) in Hadd |- *.
  cbn [fst snd] in Hadd |- *.
  injection Hadd as <-. exists room. split; [done|].
  erewrite deref_app_new by reflexivity. simpl.
  unfold HotelRoom.calculate_service_charge, HotelRoom.get_base_service_charge,
    HotelRoom.get_service_multiplier, HotelRoom.get_priority_level,
    HotelRoom.get_room_class.
  destruct (HotelRoom.kind room).
  - repeat split. eexists _, _, _. repeat split.
  - repeat split. eexists _, _, _. repeat split.
  - repeat split. eexists _, _, _. repeat split.
Qed.

Lemma admission_charge_and_rank_witness :
  fst (add_task "405" "Room Service" 20 "Dinner for two" 5 init) = inr 0%nat
  /\ Task.service_charge
       (deref (snd (add_task "405" "Room Service" 20 "Dinner for two" 5 init)) 0%nat)
     = 22.5%float
  /\ Task.priority
       (deref (snd (add_task "405" "Room Service" 20 "Dinner for two" 5 init)) 0%nat)
     = 2.
Proof.
  assert (Hadd : fst (add_task "405" "Room Service" 20 "Dinner for two" 5 init)
                 = inr 0%nat) by (vm_compute; reflexivity).
  split; [exact Hadd|].
  destruct (admission_charge_and_rank "405" "Room Service" 20 "Dinner for two" 5
              init 0%nat Hadd) as (room & Hroom & _ & _ & _ & _ & Hkind).
  assert (Hk : HotelRoom.kind room = MidRangeRoom).
  { assert (E : get_room init "405" = Some (HotelRoom.new MidRangeRoom "405" 4))
      by (vm_compute; reflexivity).
    rewrite E in Hroom. by injection Hroom as <-. }
  rewrite Hk in Hkind. destruct Hkind as (_ & Hc & Hp).
  split; [exact Hc | exact Hp].
Defined.

(** C5 (as stated, refuted): a call with estimated duration 0 on room 101 of
    a fresh scheduler raises nothing; a task is created and the pending
    collection grows. *)
Lemma zero_duration_is_admitted :
  0 <= 0
  /\ fst (add_task "101" "Housekeeping" 0 "Fresh towels" 0 init) = inr 0%nat
  /\ tasks init = []
  /\ tasks (snd (add_task "101" "Housekeeping" 0 "Fresh towels" 0 init)) = [0%nat]
  /\ Task.estimated_time
       (deref (snd (add_task "101" "Housekeeping" 0 "Fresh towels" 0 init)) 0%nat)
     = 0
  /\ ~ (exists e,
          fst (add_task "101" "Housekeeping" 0 "Fresh towels" 0 init) = inl e).
Proof.
  split; [lia|]. split; [vm_compute; reflexivity|].
  split; [reflexivity|]. split; [vm_compute; reflexivity|].
  split; [vm_compute; reflexivity|].
  intros [e H]. vm_compute in H. discriminate.
Qed.

(** C5 (amended): [add_task] does not look at the estimated duration.  A
    call whose duration is zero or negative fails only if the room is
    unknown, with the same [ValueError] and the state unchanged; on an
    existing room it succeeds, and the new pending task carries that
    duration. *)
Theorem add_task_ignores_duration rn ty n d now s :
  n <= 0 ->
  (get_room s rn = None ->
     add_task rn ty n d now s
     = (inl (ValueError ("Room " +:+ rn +:+ " not found")), s))
  /\ (forall room, get_room s rn = Some room ->
        exists s',
          add_task rn ty n d now s = (inr (length (objects s)), s')
          /\ Task.estimated_time (deref s' (length (objects s))) = n
          /\ Task.status (deref s' (length (objects s))) = "Pending"
          /\ tasks s' = (tasks s ++ [length (objects s)])%list
          /\ completed_tasks s' = completed_tasks s).
Proof.
  intros _. split.
  - apply add_task_None.
  - intros room Hroom. eexists. split; [by apply add_task_Some|].
    erewrite deref_app_new by reflexivity. done.
Qed.

Lemma add_task_ignores_duration_witness :
  -5 <= 0
  /\ exists s',
       add_task "405" "Room Service" (-5) "Late supper" 7 init = (inr 0%nat, s')
       /\ Task.estimated_time (deref s' 0%nat) = -5.
Proof.
  split; [lia|].
  destruct (add_task_ignores_duration "405" "Room Service" (-5) "Late supper" 7
              init ltac:(lia)) as [_ H].
  destruct (H (HotelRoom.new MidRangeRoom "405" 4) ltac:(vm_compute; reflexivity))
    as (s' & Hadd & Hn & _).
  exists s'. split; [exact Hadd | exact Hn].
Defined.

(** The form handler is the only place where a duration is looked at: its
    "fill in all fields" test turns away the duration zero, as it turns away
    an empty string, and lets a negative duration through. *)
Lemma form_rejects_zero_only rn ty n d now g :
  GUI.add_task rn ty 0 d now g = g
  /\ (rn <> "" -> ty <> "" -> d <> "" -> n < 0 ->
      GUI.scheduler (GUI.add_task rn ty n d now g)
      = snd (add_task rn ty n d now (GUI.scheduler g))).
Proof.
  split.
  - unfold GUI.add_task. cbn. by rewrite !orb_true_r.
  - intros Hrn Hty Hd Hn. unfold GUI.add_task.
    apply String.eqb_neq in Hrn, Hty, Hd. rewrite Hrn, Hty, Hd.
    destruct (Z.eqb_spec n 0); [lia|]. reflexivity.
Qed.

(** C6: a call of [add_task] whose room number the catalog lookup does not
    find raises [ValueError] and leaves the whole scheduler state as it was:
    pending and completed collections, task counter and every room's
    history. *)
Theorem unknown_room_rejected rn ty n d now s :
  get_room s rn = None ->
  add_task rn ty n d now s
  = (inl (ValueError ("Room " +:+ rn +:+ " not found")), s)
  /\ length (tasks (snd (add_task rn ty n d now s))) = length (tasks s)
  /\ tasks (snd (add_task rn ty n d now s)) = tasks s
  /\ completed_tasks (snd (add_task rn ty n d now s)) = completed_tasks s
  /\ task_counter (snd (add_task rn ty n d now s)) = task_counter s
  /\ objects (snd (add_task rn ty n d now s)) = objects s
  /\ (forall k, HotelRoom.tasks_history <$> rooms (snd (add_task rn ty n d now s)) !! k
                = HotelRoom.tasks_history <$> rooms s !! k).
Proof.
  intros Hroom. rewrite (add_task_None _ _ _ _ _ _ Hroom). repeat split.
Qed.

Lemma unknown_room_rejected_witness :
  get_room init "999" = None
  /\ add_task "999" "Housekeeping" 30 "No such room" 0 init
     = (inl (ValueError "Room 999 not found"), init).
Proof.
  split; [vm_compute; reflexivity|].
  apply (unknown_room_rejected "999" "Housekeeping" 30 "No such room" 0 init).
  vm_compute; reflexivity.
Defined.

(** ** Room lookup *)

Lemma replace_from_no_R (s : string) :
  no_R s = true -> replace_from 0 "Room " "" s = s.
Proof.
  induction s as [|c s IH]; [done|]. intros H.
  apply andb_prop in H as [Hc Hs].
  cbn [replace_from String.prefix].
  destruct (ascii_dec "R" c) as [<-|Hne]; [discriminate Hc|].
  by rewrite IH.
Qed.

Lemma replace_no_R (s : string) : no_R s = true -> replace s "Room " "" = s.
Proof. apply replace_from_no_R. Qed.

Lemma replace_Room_prefix (s : string) :
  no_R s = true -> replace ("Room " +:+ s) "Room " "" = s.
Proof.
  intros H. destruct s as [|c s]; [reflexivity|].
  exact (replace_from_no_R (String c s) H).
Qed.

(** [replace] takes out every occurrence, not only a leading one. *)
Example replace_every_occurrence :
  replace "Room 1Room 01" "Room " "" = "101"
  /\ get_room init "Room 1Room 01" = rooms init !! "101".
Proof. split; reflexivity. Qed.

(** The identifiers made by [initialize_rooms] are strings of digits. *)
Lemma catalog_no_R (k : string) : is_Some (rooms init !! k) -> no_R k = true.
Proof.
  assert (Hall : map_Forall (fun k _ => no_R k = true) (rooms init)).
  { apply (bool_decide_unpack _). vm_compute. reflexivity. }
  intros [room Hk]. exact (Hall k room Hk).
Qed.

(** C10: for an identifier [r] of the catalog, the lookup of ["Room " r]
    strips the prefix and finds the room that the lookup of [r] finds, and
    admission under either spelling succeeds and files the new task in the
    history of that same room. *)
Theorem room_prefix_accepted (s : HotelScheduler.t) r room ty n d now :
  is_Some (rooms init !! r) ->
  rooms s !! r = Some room ->
  replace ("Room " +:+ r) "Room " "" = r
  /\ get_room s ("Room " +:+ r) = Some room
  /\ get_room s r = Some room
  /\ fst (add_task ("Room " +:+ r) ty n d now s) = inr (length (objects s))
  /\ fst (add_task r ty n d now s) = inr (length (objects s))
  /\ rooms (snd (add_task ("Room " +:+ r) ty n d now s))
     = <[r := HotelRoom.add_task_to_history room (length (objects s))]> (rooms s)
  /\ rooms (snd (add_task r ty n d now s))
     = <[r := HotelRoom.add_task_to_history room (length (objects s))]> (rooms s).
Proof.
  intros Hcat Hroom. apply catalog_no_R in Hcat.
  pose proof (replace_Room_prefix r Hcat) as Hpre.
  pose proof (replace_no_R r Hcat) as Hid.
  assert (H1 : get_room s ("Room " +:+ r) = Some room).
  { unfold get_room. by rewrite Hpre. }
  assert (H2 : get_room s r = Some room).
  { unfold get_room. by rewrite Hid. }
  rewrite (add_task_Some _ ty n d now _ _ H1), (add_task_Some _ ty n d now _ _ H2).
  cbn [fst snd rooms]. rewrite Hpre, Hid. done.
Qed.

Lemma room_prefix_accepted_witness :
  is_Some (rooms init !! "710")
  /\ rooms init !! "710" = Some (HotelRoom.new VIPRoom "710" 7)
  /\ get_room init "Room 710" = Some (HotelRoom.new VIPRoom "710" 7)
  /\ fst (add_task "Room 710" "Butler Service" 10 "Evening" 0 init) = inr 0%nat.
Proof.
  assert (Hk : rooms init !! "710" = Some (HotelRoom.new VIPRoom "710" 7))
    by (vm_compute; reflexivity).
  assert (Hs : is_Some (rooms init !! "710")) by (rewrite Hk; eauto).
  split; [exact Hs|]. split; [exact Hk|].
  destruct (room_prefix_accepted init "710" _ "Butler Service" 10 "Evening" 0 Hs Hk)
    as (_ & Hget & _ & Hadd & _).
  split; [exact Hget | exact Hadd].
Defined.

(** ** Invariants of the scheduler state *)

Lemma deref_lookup (s : HotelScheduler.t) r x :
  objects s !! r = Some x -> deref s r = x.
Proof. intros H. unfold deref. by rewrite H. Qed.

Lemma deref_in_range (s : HotelScheduler.t) r :
  (r < length (objects s))%nat -> objects s !! r = Some (deref s r).
Proof.
  intros H. destruct (lookup_lt_is_Some_2 _ _ H) as [x Hx].
  by rewrite (deref_lookup _ _ _ Hx).
Qed.

Lemma set_object_lookup (f : Task.t -> Task.t) r s r' x' :
  (forall x, Task.id (f x) = Task.id x) ->
  objects (set_object r f s) !! r' = Some x' ->
  exists x, objects s !! r' = Some x /\ Task.id x' = Task.id x.
Proof.
  intros Hf. cbn [set_object objects]. intros H.
  apply list_lookup_insert_Some in H as [(-> & <- & Hlt)|[Hne H]].
  - exists (deref s r'). split; [by apply deref_in_range | apply Hf].
  - eauto.
Qed.

Lemma wf_set_object (f : Task.t -> Task.t) r s :
  (forall x, Task.id (f x) = Task.id x) -> wf s -> wf (set_object r f s).
Proof.
  intros Hf [Hrefs Hids Huniq]. split.
  - intros r0 Hr0. cbn [set_object objects]. rewrite length_insert. by apply Hrefs.
  - intros r0 x0 H0. destruct (set_object_lookup f r s r0 x0 Hf H0) as (x & Hx & ->).
    exact (Hids _ _ Hx).
  - intros r1 r2 x1 x2 H1 H2 Heq.
    destruct (set_object_lookup f r s r1 x1 Hf H1) as (y1 & Hy1 & E1).
    destruct (set_object_lookup f r s r2 x2 Hf H2) as (y2 & Hy2 & E2).
    apply (Huniq r1 r2 y1 y2 Hy1 Hy2). congruence.
Qed.

Lemma wf_init : wf HotelScheduler.init.
Proof. split; cbn; intros; try done. by apply elem_of_nil in H. Qed.

Lemma wf_add_task rn ty n d now s :
  wf s -> wf (snd (add_task rn ty n d now s)).
Proof.
  intros Hwf. unfold add_task. destruct (get_room s rn) as [room|]; [|exact Hwf].
  destruct Hwf as [Hrefs Hids Huniq]. cbn [snd]. split; cbn [objects tasks task_counter].
  - intros r Hr. rewrite length_app. cbn [length].
    apply elem_of_app in Hr as [Hr|Hr].
    + apply Hrefs in Hr. lia.
    + apply list_elem_of_singleton in Hr. lia.
  - intros r x Hx. apply lookup_app_Some in Hx as [Hx|[Hge Hx]].
    + apply Hids in Hx. lia.
    + apply list_lookup_singleton_Some in Hx as [_ <-]. cbn. lia.
  - intros r1 r2 x1 x2 H1 H2 Heq.
    apply lookup_app_Some in H1 as [H1|[Hge1 H1]];
      apply lookup_app_Some in H2 as [H2|[Hge2 H2]].
    + by apply (Huniq r1 r2 x1 x2).
    + apply list_lookup_singleton_Some in H2 as [_ <-]. cbn in Heq.
      apply Hids in H1. lia.
    + apply list_lookup_singleton_Some in H1 as [_ <-]. cbn in Heq.
      apply Hids in H2. lia.
    + apply list_lookup_singleton_Some in H1 as [E1 _].
      apply list_lookup_singleton_Some in H2 as [E2 _]. lia.
Qed.

Lemma wf_set_tasks l s :
  (forall r, r ∈ l -> r ∈ tasks s) -> wf s -> wf (set_tasks l s).
Proof. intros Hl [Hrefs Hids Huniq]. split; cbn; eauto. Qed.

Lemma wf_set_completed_tasks l s : wf s -> wf (set_completed_tasks l s).
Proof. intros [Hrefs Hids Huniq]. split; cbn; eauto. Qed.

Lemma wf_set_current_algorithm a s : wf s -> wf (set_current_algorithm a s).
Proof. intros [Hrefs Hids Huniq]. split; cbn; eauto. Qed.

Lemma wf_set_time_quantum q s : wf s -> wf (set_time_quantum q s).
Proof. intros [Hrefs Hids Huniq]. split; cbn; eauto. Qed.

(** [l.remove(x)] on a well-formed store takes out the object [x] itself:
    an earlier element that compares equal would share its identifier. *)
Lemma Task_eqb_id x y : Task.eqb x y = true -> Task.id x = Task.id y.
Proof.
  unfold Task.eqb. intros H.
  repeat (apply andb_prop in H as [H _]). by apply Z.eqb_eq.
Qed.

Lemma list_remove_spec s x l :
  wf s -> (forall r, r ∈ l -> (r < length (objects s))%nat) -> x ∈ l ->
  exists l1 l2,
    l = (l1 ++ x :: l2)%list /\ (x ∉ l1)
    /\ GUI.list_remove s x l = Some (l1 ++ l2)%list.
Proof.
  intros Hwf. induction l as [|y l IH]; intros Hl Hx.
  - by apply elem_of_nil in Hx.
  - cbn [GUI.list_remove]. destruct (Nat.eqb_spec y x) as [->|Hne].
    + exists [], l. split; [done|]. split; [apply not_elem_of_nil|done].
    + cbn [orb]. destruct (Task.eqb (deref s y) (deref s x)) eqn:Heq.
      * exfalso. apply Hne. apply Task_eqb_id in Heq.
        eapply (wf_uniq s Hwf); [| |exact Heq]; apply deref_in_range, Hl.
        -- apply list_elem_of_here.
        -- exact Hx.
      * apply elem_of_cons in Hx as [Hx|Hx]; [congruence|].
        destruct IH as (l1 & l2 & -> & Hnot & ->); [|exact Hx|].
        { intros r Hr. apply Hl. by apply list_elem_of_further. }
        exists (y :: l1), l2. split; [done|]. split; [|done].
        intros Hin. apply elem_of_cons in Hin as [Hin|Hin]; [congruence|done].
Qed.

Lemma list_remove_absent s x l :
  wf s -> (forall r, r ∈ l -> (r < length (objects s))%nat) ->
  (x < length (objects s))%nat -> x ∉ l ->
  GUI.list_remove s x l = None.
Proof.
  intros Hwf Hl Hx. induction l as [|y l IH]; intros Hnot; [done|].
  cbn [GUI.list_remove].
  assert (Hne : y <> x) by (intros ->; apply Hnot, list_elem_of_here).
  destruct (Nat.eqb_spec y x) as [|_]; [done|]. cbn [orb].
  destruct (Task.eqb (deref s y) (deref s x)) eqn:Heq.
  - exfalso. apply Hne. apply Task_eqb_id in Heq.
    eapply (wf_uniq s Hwf); [| |exact Heq]; apply deref_in_range; [|done].
    apply Hl, list_elem_of_here.
  - rewrite IH; [done| |].
    + intros r Hr. apply Hl. by apply list_elem_of_further.
    + intros Hin. apply Hnot. by apply list_elem_of_further.
Qed.

(** ** The dispatch loop *)

Lemma scheduled_elem (s : HotelScheduler.t) r :
  r ∈ get_scheduled_tasks s ->
  r ∈ tasks s /\ Task.status (deref s r) = "Pending".
Proof.
  unfold get_scheduled_tasks, fcfs_schedule, priority_schedule, sjf_schedule,
    round_robin_schedule.
  repeat case_match; try (by intros ?%elem_of_nil);
    rewrite sorted_Permutation; apply pending_elem.
Qed.

Lemma serving_for_next task i n : serving (GUI.for_next task i n) = Some task.
Proof. unfold GUI.for_next. by destruct (i <? n). Qed.

Lemma in_flight_for_next task i n (s : HotelScheduler.t) b o os :
  in_flight (GUI.mk s b (GUI.for_next task i n) o os) = Some task.
Proof. apply serving_for_next. Qed.

Lemma in_flight_ok_focus g task :
  in_flight_ok g -> in_flight g = Some task -> task ∈ tasks (GUI.scheduler g).
Proof. intros Hok. apply (Hok (GUI.thread g)). apply list_elem_of_here. Qed.

Lemma stopped_serving p : stopped p = true -> serving p = None.
Proof. by destruct p. Qed.

Lemma alive_stopped p : GUI.alive p = negb (stopped p).
Proof. by destruct p. Qed.


(** The completion block on a task that is still pending. *)
Lemma complete_spec task g :
  wf (GUI.scheduler g) -> task ∈ tasks (GUI.scheduler g) ->
  exists l1 l2,
    tasks (GUI.scheduler g) = (l1 ++ task :: l2)%list
    /\ (task ∉ l1)
    /\ tasks (GUI.scheduler (GUI.complete task g)) = (l1 ++ l2)%list
    /\ completed_tasks (GUI.scheduler (GUI.complete task g))
       = (completed_tasks (GUI.scheduler g) ++ [task])%list
    /\ objects (GUI.scheduler (GUI.complete task g))
       = <[task := Task.set_actual_time
                     (Task.estimated_time (deref (GUI.scheduler g) task))
                     (Task.set_status "Completed" (deref (GUI.scheduler g) task))]>
           (objects (GUI.scheduler g))
    /\ task_counter (GUI.scheduler (GUI.complete task g))
       = task_counter (GUI.scheduler g)
    /\ GUI.thread (GUI.complete task g) = GUI.AtWhile
    /\ GUI.shown (GUI.complete task g) = None.
Proof.
  intros Hwf Hin. unfold GUI.complete.
  set (s1 := set_object task (Task.set_status "Completed") (GUI.scheduler g)).
  set (s2 := set_object task
               (fun x => Task.set_actual_time (Task.estimated_time x) x) s1).
  set (s3 := set_completed_tasks (completed_tasks s2 ++ [task]) s2).
  assert (Hwf3 : wf s3).
  { apply wf_set_completed_tasks, wf_set_object; [done|].
    apply wf_set_object; done. }
  assert (Hlt : (task < length (objects (GUI.scheduler g)))%nat)
    by (by apply (wf_refs _ Hwf)).
  destruct (list_remove_spec s3 task (tasks s3) Hwf3 (wf_refs _ Hwf3) Hin)
    as (l1 & l2 & Htasks & Hnot & Hrem).
  rewrite Hrem. exists l1, l2. cbn [GUI.scheduler GUI.thread GUI.shown].
  split; [exact Htasks|]. split; [exact Hnot|]. split; [done|]. split; [done|].
  split; [|done].
  subst s3 s2 s1. cbn [set_tasks set_completed_tasks set_object objects].
  unfold deref at 1 2. cbn [set_object objects].
  rewrite list_lookup_insert_eq by done. cbn [default].
  rewrite list_insert_insert_eq. done.
Qed.

Lemma list_remove_subset s x l l' :
  GUI.list_remove s x l = Some l' -> forall r, r ∈ l' -> r ∈ l.
Proof.
  revert l'. induction l as [|y l IH]; intros l' H r Hr; [done|].
  cbn [GUI.list_remove] in H.
  destruct (Nat.eqb y x || Task.eqb (deref s y) (deref s x)).
  - injection H as <-. by apply list_elem_of_further.
  - destruct (GUI.list_remove s x l) as [l0|]; [|done].
    injection H as <-. apply elem_of_cons in Hr as [->|Hr].
    + apply list_elem_of_here.
    + apply list_elem_of_further. by apply (IH l0).
Qed.

Lemma wf_complete task g :
  wf (GUI.scheduler g) -> wf (GUI.scheduler (GUI.complete task g)).
Proof.
  intros Hwf. unfold GUI.complete.
  set (s3 := set_completed_tasks _ _).
  assert (Hwf3 : wf s3).
  { apply wf_set_completed_tasks, wf_set_object; [done|].
    apply wf_set_object; done. }
  destruct (GUI.list_remove s3 task (tasks s3)) as [l|] eqn:Hrem; cbn; [|done].
  apply wf_set_tasks; [|done]. by apply (list_remove_subset _ _ _ _ Hrem).
Qed.

Lemma wf_step rnd g : wf (GUI.scheduler g) -> wf (GUI.scheduler (GUI.step rnd g)).
Proof.
  intros Hwf. unfold GUI.step. destruct (GUI.thread g); try done.
  - destruct (GUI.is_simulation_running g); [|done].
    destruct (get_scheduled_tasks (GUI.scheduler g)) as [|task l]; [done|].
    destruct (get_staff_for_room_class _ _ _); [done|].
    cbn. by apply wf_set_object.
  - by destruct (GUI.is_simulation_running g).
  - by apply wf_complete.
Qed.

(** The two buttons and a change of focus leave the scheduler alone. *)
Lemma scheduler_start_simulation g :
  GUI.scheduler (GUI.start_simulation g) = GUI.scheduler g.
Proof. unfold GUI.start_simulation. by destruct (GUI.is_simulation_running g). Qed.

Lemma scheduler_switch k g : GUI.scheduler (GUI.switch k g) = GUI.scheduler g.
Proof. unfold GUI.switch. by destruct (GUI.others g !! k). Qed.

Lemma wf_apply g e : wf (GUI.scheduler g) -> wf (GUI.scheduler (GUI.apply g e)).
Proof.
  intros Hwf. destruct e; cbn [GUI.apply].
  - by apply wf_step.
  - cbn. by apply wf_add_task.
  - unfold GUI.add_task. case_match; [done|]. cbn. by apply wf_add_task.
  - unfold GUI.on_algorithm_change. cbn. case_match.
    + by apply wf_set_time_quantum, wf_set_current_algorithm.
    + by apply wf_set_current_algorithm.
  - cbn. apply wf_set_completed_tasks, wf_set_tasks; [|done].
    by intros r ?%elem_of_nil.
  - done.
  - by rewrite scheduler_start_simulation.
  - by rewrite scheduler_switch.
Qed.

Lemma wf_run g es : wf (GUI.scheduler g) -> wf (GUI.scheduler (GUI.run g es)).
Proof.
  revert g. induction es as [|e es IH]; intros g Hwf; [done|].
  change (GUI.run g (e :: es)) with (GUI.run (GUI.apply g e) es).
  apply IH. by apply wf_apply.
Qed.

Lemma wf_gui_init t1 t2 t3 : wf (GUI.scheduler (GUI.init t1 t2 t3)).
Proof.
  unfold GUI.init, GUI.populate_sample_data. cbn [GUI.scheduler].
  do 3 apply wf_add_task. apply wf_init.
Qed.

Lemma add_task_tasks rn ty n d now s r :
  r ∈ tasks s -> r ∈ tasks (snd (add_task rn ty n d now s)).
Proof.
  intros Hr. unfold add_task. destruct (get_room s rn); [|done].
  cbn. apply elem_of_app. by left.
Qed.

(** Once a thread has finished, its steps do nothing. *)
Lemma step_stopped rnd g : stopped (GUI.thread g) = true -> GUI.step rnd g = g.
Proof. unfold GUI.step. by destruct (GUI.thread g). Qed.

(** A step of the thread in focus leaves the other threads where they
    are. *)
Lemma others_complete task g : GUI.others (GUI.complete task g) = GUI.others g.
Proof. unfold GUI.complete. by case_match. Qed.

Lemma others_step rnd g : GUI.others (GUI.step rnd g) = GUI.others g.
Proof.
  unfold GUI.step. destruct (GUI.thread g); try done.
  - destruct (GUI.is_simulation_running g); [|done].
    destruct (get_scheduled_tasks (GUI.scheduler g)); [done|].
    by destruct (get_staff_for_room_class _ _ _).
  - by destruct (GUI.is_simulation_running g).
  - apply others_complete.
Qed.

Lemma elem_of_insert_inv {A} (l : list A) k x y : y ∈ <[k := x]> l -> y = x \/ y ∈ l.
Proof.
  intros [i Hi]%list_elem_of_lookup_1.
  apply list_lookup_insert_Some in Hi as [(_ & -> & _)|[_ Hi]]; [by left|right].
  by eapply list_elem_of_lookup_2.
Qed.

(** A change of focus only rearranges the threads; the start button adds
    at most a thread at the head of the loop. *)
Lemma threads_switch k g p : p ∈ threads (GUI.switch k g) -> p ∈ threads g.
Proof.
  unfold GUI.switch. destruct (GUI.others g !! k) as [q|] eqn:Hk; [|done].
  unfold threads. cbn [GUI.thread GUI.others]. intros [-> | Hp]%elem_of_cons.
  - apply list_elem_of_further. by eapply list_elem_of_lookup_2.
  - apply elem_of_insert_inv in Hp as [-> | Hp];
      [apply list_elem_of_here | by apply list_elem_of_further].
Qed.

Lemma threads_start_simulation g p :
  p ∈ threads (GUI.start_simulation g) -> p = GUI.AtWhile \/ p ∈ threads g.
Proof.
  unfold GUI.start_simulation. destruct (GUI.is_simulation_running g); [by right|].
  unfold threads. cbn [GUI.thread GUI.others].
  intros [-> | Hp]%elem_of_cons; [by left|right].
  destruct (GUI.alive (GUI.thread g)); [done | by apply list_elem_of_further].
Qed.

(** With at most one thread running, the threads out of focus have all
    finished when the one in focus has not. *)
Lemma others_stopped g p :
  (live_threads g <= 1)%nat -> stopped (GUI.thread g) = false ->
  p ∈ GUI.others g -> stopped p = true.
Proof.
  unfold live_threads, threads. intros Hlive Hth Hp. cbn [List.filter] in Hlive.
  rewrite alive_stopped, Hth in Hlive. cbn [negb length] in Hlive.
  destruct (stopped p) eqn:E; [done|]. exfalso.
  assert (Hin : p ∈ List.filter GUI.alive (GUI.others g)).
  { apply list_elem_of_In, filter_In. split; [by apply list_elem_of_In|].
    by rewrite alive_stopped, E. }
  destruct (List.filter GUI.alive (GUI.others g)); [by apply elem_of_nil in Hin|].
  cbn [length] in Hlive. lia.
Qed.

(** The thread in focus keeps serving a pending task. *)
Lemma in_flight_step rnd g :
  (forall task, in_flight g = Some task -> task ∈ tasks (GUI.scheduler g)) ->
  forall task, in_flight (GUI.step rnd g) = Some task ->
    task ∈ tasks (GUI.scheduler (GUI.step rnd g)).
Proof.
  intros Hok. unfold GUI.step. destruct (GUI.thread g) eqn:Hth; try done.
  - destruct (GUI.is_simulation_running g); [|by intros ?].
    destruct (get_scheduled_tasks (GUI.scheduler g)) as [|task l] eqn:Hsch;
      [by intros ?|].
    destruct (get_staff_for_room_class _ _ _); [by intros ?|].
    intros task'. rewrite in_flight_for_next. intros [= <-]. cbn.
    apply (scheduled_elem (GUI.scheduler g)). rewrite Hsch. apply list_elem_of_here.
  - destruct (GUI.is_simulation_running g); [|by intros ?].
    intros task'. cbn. intros [= <-]. apply Hok. unfold in_flight. by rewrite Hth.
  - intros task'. rewrite in_flight_for_next. intros [= <-]. cbn.
    apply Hok. unfold in_flight. by rewrite Hth.
  - unfold GUI.complete. case_match; by intros ?.
Qed.

Lemma in_flight_ok_step rnd g :
  (live_threads g <= 1)%nat -> in_flight_ok g -> in_flight_ok (GUI.step rnd g).
Proof.
  intros Hlive Hok.
  destruct (stopped (GUI.thread g)) eqn:Hst; [by rewrite step_stopped|].
  intros p task Hp Hs. unfold threads in Hp. rewrite others_step in Hp.
  apply elem_of_cons in Hp as [-> | Hp].
  - apply in_flight_step; [|exact Hs]. intros t. by apply in_flight_ok_focus.
  - rewrite (stopped_serving p) in Hs; [done|]. by apply (others_stopped g).
Qed.

Lemma in_flight_ok_apply g e :
  e <> GUI.ClearAll -> (live_threads g <= 1)%nat ->
  in_flight_ok g -> in_flight_ok (GUI.apply g e).
Proof.
  intros Hne Hlive Hok. destruct e; cbn [GUI.apply]; try done.
  - by apply in_flight_ok_step.
  - intros p task Hp Hs. cbn. apply add_task_tasks. by apply (Hok p).
  - unfold GUI.add_task. case_match; [done|].
    intros p task Hp Hs. cbn. apply add_task_tasks. by apply (Hok p).
  - intros p task Hp Hs. unfold GUI.on_algorithm_change. cbn.
    case_match; cbn; by apply (Hok p).
  - intros p task Hp Hs. rewrite scheduler_start_simulation.
    apply threads_start_simulation in Hp as [-> | Hp]; [done | by apply (Hok p)].
  - intros p task Hp Hs. rewrite scheduler_switch.
    apply threads_switch in Hp. by apply (Hok p).
Qed.





Lemma one_thread_cons g e es :
  one_thread g (e :: es) = true ->
  (live_threads g <= 1)%nat /\ one_thread (GUI.apply g e) es = true.
Proof.
  cbn [one_thread]. intros [H1 H2]%andb_prop. split; [|done].
  by apply Nat.leb_le.
Qed.


Lemma wf_sample_gui : wf (GUI.scheduler sample_gui).
Proof.
  unfold sample_gui. rewrite scheduler_start_simulation. apply wf_gui_init.
Qed.

Lemma in_flight_ok_sample_gui : in_flight_ok sample_gui.
Proof.
  intros p task Hp. apply list_elem_of_singleton in Hp as ->. discriminate.
Qed.

(** The completion block on a task that has left the pending collection:
    the task is marked and appended all the same, and then
    [tasks.remove(task)] raises. *)
Lemma complete_absent (task : ref) g :
  wf (GUI.scheduler g) -> (task < length (objects (GUI.scheduler g)))%nat ->
  task ∉ tasks (GUI.scheduler g) ->
  tasks (GUI.scheduler (GUI.complete task g)) = tasks (GUI.scheduler g)
  /\ completed_tasks (GUI.scheduler (GUI.complete task g))
     = (completed_tasks (GUI.scheduler g) ++ [task])%list
  /\ objects (GUI.scheduler (GUI.complete task g))
     = <[task := Task.set_actual_time
                   (Task.estimated_time (deref (GUI.scheduler g) task))
                   (Task.set_status "Completed" (deref (GUI.scheduler g) task))]>
         (objects (GUI.scheduler g))
  /\ task_counter (GUI.scheduler (GUI.complete task g))
     = task_counter (GUI.scheduler g)
  /\ GUI.thread (GUI.complete task g)
     = GUI.Raised (ValueError "list.remove(x): x not in list")
  /\ GUI.shown (GUI.complete task g) = GUI.shown g.
Proof.
  intros Hwf Hlt Hnot. unfold GUI.complete.
  set (s1 := set_object task (Task.set_status "Completed") (GUI.scheduler g)).
  set (s2 := set_object task
               (fun x => Task.set_actual_time (Task.estimated_time x) x) s1).
  set (s3 := set_completed_tasks (completed_tasks s2 ++ [task]) s2).
  assert (Hwf3 : wf s3).
  { apply wf_set_completed_tasks, wf_set_object; [done|].
    apply wf_set_object; done. }
  assert (Hrem : GUI.list_remove s3 task (tasks s3) = None).
  { apply (list_remove_absent s3 task (tasks s3) Hwf3 (wf_refs _ Hwf3)); [|done].
    subst s3 s2 s1. cbn [set_completed_tasks set_object objects].
    by rewrite !length_insert. }
  rewrite Hrem. cbn [GUI.scheduler GUI.thread GUI.shown].
  split; [done|]. split; [done|]. split; [|done].
  subst s3 s2 s1. cbn [set_tasks set_completed_tasks set_object objects].
  unfold deref at 1 2. cbn [set_object objects].
  rewrite list_lookup_insert_eq by done. cbn [default].
  rewrite list_insert_insert_eq. done.
Qed.




(** ** The store only grows *)

Lemma ids_kept_refl s : ids_kept s s.
Proof. intros r x H. eauto. Qed.

Lemma ids_kept_trans s1 s2 s3 : ids_kept s1 s2 -> ids_kept s2 s3 -> ids_kept s1 s3.
Proof.
  intros H12 H23 r x H. destruct (H12 r x H) as (x2 & H2 & E2).
  destruct (H23 r x2 H2) as (x3 & H3 & E3). exists x3. split; [done|congruence].
Qed.

Lemma ids_kept_set_object (f : Task.t -> Task.t) r s :
  (forall x, Task.id (f x) = Task.id x) -> ids_kept s (set_object r f s).
Proof.
  intros Hf r0 x Hx. cbn [set_object objects].
  destruct (decide (r = r0)) as [->|Hne].
  - exists (f x). rewrite (deref_lookup _ _ _ Hx).
    rewrite list_lookup_insert_eq by (by eapply lookup_lt_Some). done.
  - exists x. by rewrite list_lookup_insert_ne.
Qed.

Lemma ids_kept_add_task rn ty n d now s :
  ids_kept s (snd (add_task rn ty n d now s)).
Proof.
  unfold add_task. destruct (get_room s rn); [|apply ids_kept_refl].
  intros r x Hx. exists x. cbn. split; [by apply lookup_app_l_Some|done].
Qed.

Lemma ids_kept_complete task g :
  ids_kept (GUI.scheduler g) (GUI.scheduler (GUI.complete task g)).
Proof.
  unfold GUI.complete.
  set (s1 := set_object task (Task.set_status "Completed") (GUI.scheduler g)).
  set (s2 := set_object task
               (fun x => Task.set_actual_time (Task.estimated_time x) x) s1).
  assert (H : ids_kept (GUI.scheduler g) s2).
  { apply (ids_kept_trans _ s1).
    - exact (ids_kept_set_object (Task.set_status "Completed") task _
               (fun _ => eq_refl)).
    - exact (ids_kept_set_object
               (fun x => Task.set_actual_time (Task.estimated_time x) x) task s1
               (fun _ => eq_refl)). }
  case_match; exact H.
Qed.

Lemma ids_kept_step rnd g : ids_kept (GUI.scheduler g) (GUI.scheduler (GUI.step rnd g)).
Proof.
  unfold GUI.step. destruct (GUI.thread g); try apply ids_kept_refl.
  - destruct (GUI.is_simulation_running g); [|apply ids_kept_refl].
    destruct (get_scheduled_tasks (GUI.scheduler g)); [apply ids_kept_refl|].
    destruct (get_staff_for_room_class _ _ _) as [e|staff]; [apply ids_kept_refl|].
    exact (ids_kept_set_object (Task.set_assigned_staff staff) _ _
             (fun _ => eq_refl)).
  - destruct (GUI.is_simulation_running g); apply ids_kept_refl.
  - apply ids_kept_complete.
Qed.

Lemma ids_kept_apply g e : ids_kept (GUI.scheduler g) (GUI.scheduler (GUI.apply g e)).
Proof.
  destruct e; cbn [GUI.apply].
  - apply ids_kept_step.
  - apply ids_kept_add_task.
  - unfold GUI.add_task. case_match; [apply ids_kept_refl|apply ids_kept_add_task].
  - unfold GUI.on_algorithm_change. case_match; intros r x Hx; eauto.
  - intros r x Hx. eauto.
  - apply ids_kept_refl.
  - rewrite scheduler_start_simulation. apply ids_kept_refl.
  - rewrite scheduler_switch. apply ids_kept_refl.
Qed.

Lemma ids_kept_run g es : ids_kept (GUI.scheduler g) (GUI.scheduler (GUI.run g es)).
Proof.
  revert g. induction es as [|e es IH]; intros g; [apply ids_kept_refl|].
  change (GUI.run g (e :: es)) with (GUI.run (GUI.apply g e) es).
  eapply ids_kept_trans; [apply ids_kept_apply | apply IH].
Qed.

(** ** Clearing *)

(** C8: [clear_all_tasks] empties the pending and the completed collection
    and changes nothing else; in particular the counter stays, so the task
    admitted next gets an identifier above every identifier handed out
    before, at any earlier moment [g0] of the session as well as in the
    state [g] that was cleared. *)
Theorem clear_all_keeps_counter g0 es g rn ty n d now r :
  wf (GUI.scheduler g0) ->
  g = GUI.run g0 es ->
  fst (add_task rn ty n d now (GUI.scheduler (GUI.clear_all_tasks g))) = inr r ->
  tasks (GUI.scheduler (GUI.clear_all_tasks g)) = []
  /\ completed_tasks (GUI.scheduler (GUI.clear_all_tasks g)) = []
  /\ objects (GUI.scheduler (GUI.clear_all_tasks g)) = objects (GUI.scheduler g)
  /\ rooms (GUI.scheduler (GUI.clear_all_tasks g)) = rooms (GUI.scheduler g)
  /\ task_counter (GUI.scheduler (GUI.clear_all_tasks g))
     = task_counter (GUI.scheduler g)
  /\ staff_members (GUI.scheduler (GUI.clear_all_tasks g))
     = staff_members (GUI.scheduler g)
  /\ current_task (GUI.scheduler (GUI.clear_all_tasks g))
     = current_task (GUI.scheduler g)
  /\ is_running (GUI.scheduler (GUI.clear_all_tasks g))
     = is_running (GUI.scheduler g)
  /\ current_algorithm (GUI.scheduler (GUI.clear_all_tasks g))
     = current_algorithm (GUI.scheduler g)
  /\ time_quantum (GUI.scheduler (GUI.clear_all_tasks g))
     = time_quantum (GUI.scheduler g)
  /\ GUI.is_simulation_running (GUI.clear_all_tasks g) = GUI.is_simulation_running g
  /\ GUI.thread (GUI.clear_all_tasks g) = GUI.thread g
  /\ GUI.shown (GUI.clear_all_tasks g) = GUI.shown g
  /\ GUI.others (GUI.clear_all_tasks g) = GUI.others g
  /\ Task.id (deref (snd (add_task rn ty n d now
                            (GUI.scheduler (GUI.clear_all_tasks g)))) r)
     = task_counter (GUI.scheduler g)
  /\ (forall r0 x,
        objects (GUI.scheduler g) !! r0 = Some x
        \/ objects (GUI.scheduler g0) !! r0 = Some x ->
        Task.id x
        < Task.id (deref (snd (add_task rn ty n d now
                                 (GUI.scheduler (GUI.clear_all_tasks g)))) r)).
Proof.
  intros Hwf0 Hg Hadd.
  assert (Hwf : wf (GUI.scheduler g)) by (subst g; by apply wf_run).
  destruct (add_task_inr _ _ _ _ _ _ _ Hadd) as [room Hroom].
  rewrite (add_task_Some _ ty n d now _ _ Hroom) in Hadd |- *.
  cbn [fst snd] in Hadd |- *. injection Hadd as <-.
  erewrite deref_app_new by reflexivity.
  repeat (split; [reflexivity|]). cbn.
  intros r0 x [Hx|Hx]; [exact (wf_ids _ Hwf _ _ Hx)|].
  destruct (ids_kept_run g0 es r0 x Hx) as (x' & Hx' & <-).
  rewrite <- Hg in Hx'. exact (wf_ids _ Hwf _ _ Hx').
Qed.

(** Two of the three sample tasks are served, then everything is cleared. *)
Lemma clear_all_keeps_counter_witness :
  fst (add_task "405" "Room Service" 20 "Dinner for two" 9
         (GUI.scheduler
            (GUI.clear_all_tasks (GUI.run sample_gui (repeat (GUI.Tick 0) 80)))))
  = inr 3%nat
  /\ tasks (GUI.scheduler
              (GUI.clear_all_tasks (GUI.run sample_gui (repeat (GUI.Tick 0) 80))))
     = []
  /\ Task.id
       (deref (snd (add_task "405" "Room Service" 20 "Dinner for two" 9
                      (GUI.scheduler
                         (GUI.clear_all_tasks
                            (GUI.run sample_gui (repeat (GUI.Tick 0) 80)))))) 3%nat)
     = task_counter (GUI.scheduler (GUI.run sample_gui (repeat (GUI.Tick 0) 80))).
Proof.
  assert (Hadd : fst (add_task "405" "Room Service" 20 "Dinner for two" 9
                        (GUI.scheduler
                           (GUI.clear_all_tasks
                              (GUI.run sample_gui (repeat (GUI.Tick 0) 80)))))
                 = inr 3%nat) by (vm_compute; reflexivity).
  split; [exact Hadd|].
  destruct (clear_all_keeps_counter sample_gui (repeat (GUI.Tick 0) 80) _ "405"
              "Room Service" 20 "Dinner for two" 9 3%nat wf_sample_gui eq_refl Hadd)
    as (Ht & _ & _ & _ & _ & _ & _ & _ & _ & _ & _ & _ & _ & _ & Hid & _).
  split; [exact Ht | exact Hid].
Defined.

(** ** Cancellation *)

(** Once the thread has returned, its steps do nothing. *)
Lemma run_ticks_returned g rs :
  GUI.thread g = GUI.Returned -> GUI.run g (map GUI.Tick rs) = g.
Proof.
  intros Hth. induction rs as [|r rs IH]; [done|].
  change (GUI.run g (map GUI.Tick (r :: rs)))
    with (GUI.run (GUI.step r g) (map GUI.Tick rs)).
  assert (Hstep : GUI.step r g = g) by (unfold GUI.step; by rewrite Hth).
  by rewrite Hstep.
Qed.

(** C9 (as stated, refuted): the running flag is cleared during a progress
    increment of the task being served, the loop exits, and yet the task
    is marked Completed and sits in the completed collection. *)
Lemma stop_in_last_increment_completes :
  GUI.thread (GUI.run sample_gui (repeat (GUI.Tick 0) 20)) = GUI.InIncrement 2%nat 9 10
  /\ GUI.is_simulation_running (GUI.run sample_gui (repeat (GUI.Tick 0) 20)) = true
  /\ Task.status
       (deref (GUI.scheduler (GUI.run sample_gui (repeat (GUI.Tick 0) 20))) 2%nat)
     = "Pending"
  /\ GUI.is_simulation_running (GUI.run sample_gui stop_in_last_increment) = false
  /\ GUI.thread (GUI.run sample_gui stop_in_last_increment) = GUI.InIncrement 2%nat 9 10
  /\ GUI.thread
       (GUI.run sample_gui (stop_in_last_increment ++ repeat (GUI.Tick 0) 3))
     = GUI.Returned
  /\ Task.status
       (deref (GUI.scheduler
                 (GUI.run sample_gui (stop_in_last_increment ++ repeat (GUI.Tick 0) 3)))
          2%nat)
     = "Completed"
  /\ completed_tasks
       (GUI.scheduler
          (GUI.run sample_gui (stop_in_last_increment ++ repeat (GUI.Tick 0) 3)))
     = [2%nat].
Proof. repeat split; vm_compute; reflexivity. Qed.

(** C9 (amended): if the running flag is cleared before the flag test that
    opens a progress increment, that is while the thread stands at such a
    test or is inside an increment that is not the last one, the loop exits
    at that test: the thread returns, the task in flight is still Pending,
    nothing is appended to the completed collection and the scheduler state
    is untouched. *)
Theorem cancel_before_check g task i n r1 r2 rs :
  GUI.is_simulation_running g = false ->
  GUI.thread g = GUI.AtCheck task i n
  \/ (GUI.thread g = GUI.InIncrement task i n /\ i + 1 < n) ->
  Task.status (deref (GUI.scheduler g) task) = "Pending" ->
  GUI.thread (GUI.run g (GUI.Tick r1 :: GUI.Tick r2 :: map GUI.Tick rs)) = GUI.Returned
  /\ Task.status
       (deref (GUI.scheduler
                 (GUI.run g (GUI.Tick r1 :: GUI.Tick r2 :: map GUI.Tick rs))) task)
     = "Pending"
  /\ completed_tasks
       (GUI.scheduler (GUI.run g (GUI.Tick r1 :: GUI.Tick r2 :: map GUI.Tick rs)))
     = completed_tasks (GUI.scheduler g)
  /\ GUI.scheduler (GUI.run g (GUI.Tick r1 :: GUI.Tick r2 :: map GUI.Tick rs))
     = GUI.scheduler g
  /\ GUI.shown (GUI.run g (GUI.Tick r1 :: GUI.Tick r2 :: map GUI.Tick rs)) = None
  /\ GUI.others (GUI.run g (GUI.Tick r1 :: GUI.Tick r2 :: map GUI.Tick rs))
     = GUI.others g.
Proof.
  intros Hflag Hth Hst.
  change (GUI.run g (GUI.Tick r1 :: GUI.Tick r2 :: map GUI.Tick rs))
    with (GUI.run (GUI.step r2 (GUI.step r1 g)) (map GUI.Tick rs)).
  assert (Hret : GUI.step r2 (GUI.step r1 g)
                 = GUI.mk (GUI.scheduler g) false GUI.Returned None (GUI.others g)).
  { destruct Hth as [Hth|[Hth Hlt]].
    - unfold GUI.step at 2. rewrite Hth, Hflag. reflexivity.
    - unfold GUI.step at 2. rewrite Hth. unfold GUI.for_next.
      destruct (Z.ltb_spec (i + 1) n) as [_|Hge]; [|lia].
      unfold GUI.step. cbn. rewrite Hflag. reflexivity. }
  rewrite Hret, run_ticks_returned by reflexivity. cbn. done.
Qed.

Lemma cancel_before_check_witness :
  GUI.is_simulation_running
    (GUI.run sample_gui [GUI.Tick 0; GUI.Tick 0; GUI.Tick 0; GUI.Stop]) = false
  /\ GUI.thread (GUI.run sample_gui [GUI.Tick 0; GUI.Tick 0; GUI.Tick 0; GUI.Stop])
     = GUI.AtCheck 2%nat 1 10
  /\ GUI.thread
       (GUI.run (GUI.run sample_gui [GUI.Tick 0; GUI.Tick 0; GUI.Tick 0; GUI.Stop])
          (GUI.Tick 0 :: GUI.Tick 0 :: map GUI.Tick []))
     = GUI.Returned
  /\ Task.status
       (deref (GUI.scheduler
                 (GUI.run
                    (GUI.run sample_gui [GUI.Tick 0; GUI.Tick 0; GUI.Tick 0; GUI.Stop])
                    (GUI.Tick 0 :: GUI.Tick 0 :: map GUI.Tick []))) 2%nat)
     = "Pending".
Proof.
  assert (Hflag : GUI.is_simulation_running
                    (GUI.run sample_gui [GUI.Tick 0; GUI.Tick 0; GUI.Tick 0; GUI.Stop])
                  = false) by (vm_compute; reflexivity).
  assert (Hth : GUI.thread
                  (GUI.run sample_gui [GUI.Tick 0; GUI.Tick 0; GUI.Tick 0; GUI.Stop])
                = GUI.AtCheck 2%nat 1 10) by (vm_compute; reflexivity).
  split; [exact Hflag|]. split; [exact Hth|].
  destruct (cancel_before_check
              (GUI.run sample_gui [GUI.Tick 0; GUI.Tick 0; GUI.Tick 0; GUI.Stop])
              2%nat 1 10 0%nat 0%nat [] Hflag (or_introl Hth)
              ltac:(vm_compute; reflexivity)) as (H1 & H2 & _).
  split; [exact H1 | exact H2].
Defined.

(** ** The scenarios of the design document *)

Example three_requests_priority :
  get_scheduled_tasks (set_current_algorithm "Priority" three_requests)
  = [0%nat; 2%nat; 1%nat].
Proof. vm_compute. reflexivity. Qed.

Example three_requests_sjf :
  get_scheduled_tasks (set_current_algorithm "SJF" three_requests)
  = [1%nat; 2%nat; 0%nat].
Proof. vm_compute. reflexivity. Qed.

Example three_requests_fcfs :
  get_scheduled_tasks (set_current_algorithm "FCFS" three_requests)
  = [0%nat; 1%nat; 2%nat].
Proof. vm_compute. reflexivity. Qed.

Example same_duration_sjf : get_scheduled_tasks same_duration = [2%nat; 1%nat; 0%nat].
Proof. vm_compute. reflexivity. Qed.

(** * Further properties of the code *)

(** ** First come, first served *)

Lemma lt_Z_asym a b : lt_Z a b = true -> lt_Z b a = false.
Proof. unfold lt_Z. lia. Qed.

Lemma lt_Z_cotrans a b c : lt_Z b a = false -> lt_Z c b = false -> lt_Z c a = false.
Proof. unfold lt_Z. lia. Qed.

Lemma fcfs_schedule_sorted (s : HotelScheduler.t) :
  StronglySorted (fun a b => stamp s a <= stamp s b) (fcfs_schedule s).
Proof.
  unfold fcfs_schedule.
  eapply StronglySorted_weaken;
    [|apply sorted_StronglySorted; [apply lt_Z_asym | apply lt_Z_cotrans]].
  intros a b Hab. unfold key_le, lt_Z in Hab. cbn beta in Hab.
  apply Z.ltb_ge in Hab. exact Hab.
Qed.

(** X1: under the FCFS policy the scheduled order is made of the tasks of
    the pending collection whose status is Pending, each as often as it is
    there and no other task, in ascending order of creation timestamp,
    whatever their class; tasks with the same timestamp keep the order they
    have in the pending collection. *)
Theorem fcfs_policy_order (s : HotelScheduler.t) :
  current_algorithm s = "FCFS" ->
  get_scheduled_tasks s = fcfs_schedule s
  /\ (forall r, r ∈ get_scheduled_tasks s
                <-> r ∈ tasks s /\ Task.status (deref s r) = "Pending")
  /\ get_scheduled_tasks s
     ≡ₚ filter (fun r => Task.status (deref s r) = "Pending") (tasks s)
  /\ (forall i j a b,
        get_scheduled_tasks s !! i = Some a ->
        get_scheduled_tasks s !! j = Some b ->
        (i < j)%nat -> stamp s a <= stamp s b)
  /\ (forall i j a b,
        get_scheduled_tasks s !! i = Some a ->
        get_scheduled_tasks s !! j = Some b ->
        stamp s a < stamp s b -> (i < j)%nat)
  /\ (forall k : Z,
        filter (fun x => stamp s x = k) (get_scheduled_tasks s)
        = filter (fun x => stamp s x = k)
            (filter (fun r => Task.status (deref s r) = "Pending") (tasks s))).
Proof.
  intros Halg.
  assert (Hget : get_scheduled_tasks s = fcfs_schedule s).
  { unfold get_scheduled_tasks. by rewrite Halg. }
  rewrite Hget. pose proof (fcfs_schedule_sorted s) as Hsorted.
  assert (Hperm : fcfs_schedule s ≡ₚ pending s) by apply sorted_Permutation.
  split; [done|]. split; [intros r; rewrite Hperm; apply pending_elem|].
  split; [by rewrite <- pending_filter|]. split; [|split].
  - intros i j a b Hi Hj Hij.
    exact (StronglySorted_lookup_lt _ _ _ _ _ _ Hsorted Hi Hj Hij).
  - intros i j a b Hi Hj Hlt.
    destruct (Nat.lt_trichotomy i j) as [Hij|[Hij|Hij]]; [done| |].
    + subst j. rewrite Hi in Hj. injection Hj as <-. lia.
    + pose proof (StronglySorted_lookup_lt _ _ _ _ _ _ Hsorted Hj Hi Hij) as Hba.
      cbn beta in Hba. lia.
  - intros k. rewrite <- pending_filter. unfold fcfs_schedule.
    apply (sorted_stable lt_Z (fun x => Task.timestamp (deref s x)) lt_Z_asym).
Qed.

(** The three requests come out in the order in which they were made: VIP,
    Economy, Mid-Range. *)
Lemma fcfs_policy_order_witness :
  current_algorithm (set_current_algorithm "FCFS" three_requests) = "FCFS"
  /\ tasks (set_current_algorithm "FCFS" three_requests) = [0%nat; 1%nat; 2%nat]
  /\ get_scheduled_tasks (set_current_algorithm "FCFS" three_requests)
     = [0%nat; 1%nat; 2%nat]
  /\ 1%nat ∈ get_scheduled_tasks (set_current_algorithm "FCFS" three_requests)
  /\ get_scheduled_tasks (set_current_algorithm "FCFS" three_requests)
     ≡ₚ filter
          (fun r => Task.status (deref (set_current_algorithm "FCFS" three_requests) r)
                    = "Pending")
          (tasks (set_current_algorithm "FCFS" three_requests)).
Proof.
  assert (Htasks : tasks (set_current_algorithm "FCFS" three_requests)
                   = [0%nat; 1%nat; 2%nat]) by (vm_compute; reflexivity).
  split; [reflexivity|]. split; [exact Htasks|].
  split; [vm_compute; reflexivity|].
  destruct (fcfs_policy_order (set_current_algorithm "FCFS" three_requests) eq_refl)
    as (_ & Hmem & Hperm & _).
  split; [|exact Hperm].
  apply Hmem. split; [|vm_compute; reflexivity].
  rewrite Htasks. apply list_elem_of_further, list_elem_of_here.
Defined.

(** ** Changing the policy *)

Lemma get_scheduled_tasks_known (s : HotelScheduler.t) :
  current_algorithm s ∈ policies -> get_scheduled_tasks s ≡ₚ pending s.
Proof.
  unfold policies, get_scheduled_tasks, fcfs_schedule, priority_schedule,
    sjf_schedule, round_robin_schedule.
  intros H. repeat (apply elem_of_cons in H as [->|H]);
    [..|by apply elem_of_nil in H]; cbn; apply sorted_Permutation.
Qed.

Lemma get_scheduled_tasks_unknown (s : HotelScheduler.t) :
  current_algorithm s ∉ policies -> get_scheduled_tasks s = [].
Proof.
  unfold policies, get_scheduled_tasks. intros H.
  repeat (apply not_elem_of_cons in H as [?%String.eqb_neq H]).
  by repeat case_match.
Qed.

(** X2: [on_algorithm_change] stores the selected name and, for Round Robin
    only, the quantum (15 when the field does not hold a number); tasks,
    collections, rooms and counter are not touched.  The four known policies
    order the same tasks: each returns a rearrangement of the pending tasks,
    so changing policy never drops or doubles a task; under any other name
    nothing is scheduled. *)
Theorem algorithm_change_keeps_tasks g selected_algo quantum :
  objects (GUI.scheduler (GUI.on_algorithm_change selected_algo quantum g))
  = objects (GUI.scheduler g)
  /\ tasks (GUI.scheduler (GUI.on_algorithm_change selected_algo quantum g))
     = tasks (GUI.scheduler g)
  /\ completed_tasks (GUI.scheduler (GUI.on_algorithm_change selected_algo quantum g))
     = completed_tasks (GUI.scheduler g)
  /\ rooms (GUI.scheduler (GUI.on_algorithm_change selected_algo quantum g))
     = rooms (GUI.scheduler g)
  /\ task_counter (GUI.scheduler (GUI.on_algorithm_change selected_algo quantum g))
     = task_counter (GUI.scheduler g)
  /\ current_algorithm (GUI.scheduler (GUI.on_algorithm_change selected_algo quantum g))
     = selected_algo
  /\ time_quantum (GUI.scheduler (GUI.on_algorithm_change selected_algo quantum g))
     = (if decide (selected_algo = "Round Robin") then default 15 quantum
        else time_quantum (GUI.scheduler g))
  /\ (selected_algo ∈ policies ->
      get_scheduled_tasks (GUI.scheduler (GUI.on_algorithm_change selected_algo quantum g))
      ≡ₚ pending (GUI.scheduler g))
  /\ (selected_algo ∉ policies ->
      get_scheduled_tasks (GUI.scheduler (GUI.on_algorithm_change selected_algo quantum g))
      = []).
Proof.
  unfold GUI.on_algorithm_change. cbn [GUI.scheduler].
  set (s' := if String.eqb selected_algo "Round Robin" then _ else _).
  assert (Hs : objects s' = objects (GUI.scheduler g)
               /\ tasks s' = tasks (GUI.scheduler g)
               /\ completed_tasks s' = completed_tasks (GUI.scheduler g)
               /\ rooms s' = rooms (GUI.scheduler g)
               /\ task_counter s' = task_counter (GUI.scheduler g)
               /\ current_algorithm s' = selected_algo
               /\ pending s' = pending (GUI.scheduler g)).
  { subst s'. by case_match. }
  destruct Hs as (H1 & H2 & H3 & H4 & H5 & H6 & H7).
  repeat (split; [done|]). split; [|split].
  - subst s'. destruct (String.eqb_spec selected_algo "Round Robin");
      case_decide; done.
  - intros Hin. rewrite <- H7. apply get_scheduled_tasks_known. by rewrite H6.
  - intros Hout. apply get_scheduled_tasks_unknown. by rewrite H6.
Qed.

(** X3: while the policy name is none of the four, the dispatch loop idles:
    however often it runs, it finds nothing scheduled, serves no task and
    leaves the scheduler as it is, whatever is pending. *)
Theorem unknown_policy_idles g rs :
  current_algorithm (GUI.scheduler g) ∉ policies ->
  GUI.is_simulation_running g = true ->
  GUI.thread g = GUI.AtWhile ->
  GUI.scheduler (GUI.run g (map GUI.Tick rs)) = GUI.scheduler g
  /\ GUI.thread (GUI.run g (map GUI.Tick rs)) = GUI.AtWhile
  /\ in_flight (GUI.run g (map GUI.Tick rs)) = None.
Proof.
  intros Halg. revert g Halg. induction rs as [|r rs IH]; intros g Halg Hflag Hth.
  - unfold in_flight. cbn. by rewrite Hth.
  - change (GUI.run g (map GUI.Tick (r :: rs)))
      with (GUI.run (GUI.step r g) (map GUI.Tick rs)).
    assert (Hstep : GUI.step r g
                    = GUI.mk (GUI.scheduler g) true GUI.AtWhile None (GUI.others g)).
    { unfold GUI.step. rewrite Hth, Hflag.
      by rewrite (get_scheduled_tasks_unknown _ Halg). }
    rewrite Hstep.
    apply (IH (GUI.mk (GUI.scheduler g) true GUI.AtWhile None (GUI.others g))); done.
Qed.

Lemma unknown_policy_idles_witness :
  (current_algorithm (GUI.scheduler unknown_policy_gui) ∉ policies)
  /\ pending_count unknown_policy_gui = 3%nat
  /\ GUI.scheduler (GUI.run unknown_policy_gui (map GUI.Tick [0; 1; 2]%nat))
     = GUI.scheduler unknown_policy_gui.
Proof.
  assert (Halg : current_algorithm (GUI.scheduler unknown_policy_gui) ∉ policies).
  { intros H. vm_compute in H.
    repeat (apply elem_of_cons in H as [H|H]; [discriminate|]).
    by apply elem_of_nil in H. }
  split; [exact Halg|]. split; [vm_compute; reflexivity|].
  destruct (unknown_policy_idles unknown_policy_gui [0; 1; 2]%nat Halg
              ltac:(vm_compute; reflexivity) ltac:(vm_compute; reflexivity))
    as (H & _).
  exact H.
Defined.

(** ** What every handler and every step of the loop preserves *)

(** The functions the dispatch loop applies to a task leave its admission
    data alone. *)
Lemma frozen_refl x : frozen x x.
Proof. by repeat split. Qed.

Lemma frozen_trans x y z : frozen x y -> frozen y z -> frozen x z.
Proof. unfold frozen. intros ? ?. destruct_and!. repeat split; congruence. Qed.

Lemma frozen_set_status v x : frozen x (Task.set_status v x).
Proof. by repeat split. Qed.

Lemma frozen_set_assigned_staff v x : frozen x (Task.set_assigned_staff v x).
Proof. by repeat split. Qed.

Lemma frozen_set_actual_time x :
  frozen x (Task.set_actual_time (Task.estimated_time x) x).
Proof. by repeat split. Qed.

(** A property of the scheduler that reads only the store, the catalog, the
    counter and the staff table, and that admission and updates of the
    loop's three fields keep, holds along every run. *)
Section Preserved.
Variable P : HotelScheduler.t -> Prop.
Hypothesis P_set_object :
  forall r f s, (forall x, frozen x (f x)) -> P s -> P (set_object r f s).
Hypothesis P_add_task :
  forall rn ty n d now s, P s -> P (snd (add_task rn ty n d now s)).
Hypothesis P_frame :
  forall s s', objects s' = objects s -> rooms s' = rooms s ->
    task_counter s' = task_counter s -> staff_members s' = staff_members s ->
    P s -> P s'.

Lemma preserved_complete task g :
  P (GUI.scheduler g) -> P (GUI.scheduler (GUI.complete task g)).
Proof.
  intros HP. unfold GUI.complete.
  set (s1 := set_object task (Task.set_status "Completed") (GUI.scheduler g)).
  set (s2 := set_object task
               (fun x => Task.set_actual_time (Task.estimated_time x) x) s1).
  assert (H2 : P s2).
  { apply P_set_object; [apply frozen_set_actual_time|].
    apply P_set_object; [apply frozen_set_status|done]. }
  case_match; cbn [GUI.scheduler]; by eapply (P_frame s2).
Qed.

Lemma preserved_step rnd g :
  P (GUI.scheduler g) -> P (GUI.scheduler (GUI.step rnd g)).
Proof.
  intros HP. unfold GUI.step. destruct (GUI.thread g); try done.
  - destruct (GUI.is_simulation_running g); [|done].
    destruct (get_scheduled_tasks (GUI.scheduler g)); [done|].
    destruct (get_staff_for_room_class _ _ _); [done|].
    cbn. apply P_set_object; [apply frozen_set_assigned_staff|done].
  - by destruct (GUI.is_simulation_running g).
  - by apply preserved_complete.
Qed.

Lemma preserved_apply g e :
  P (GUI.scheduler g) -> P (GUI.scheduler (GUI.apply g e)).
Proof.
  intros HP. destruct e; cbn [GUI.apply].
  - by apply preserved_step.
  - by apply P_add_task.
  - unfold GUI.add_task. case_match; [done|]. by apply P_add_task.
  - unfold GUI.on_algorithm_change. case_match; by eapply (P_frame (GUI.scheduler g)).
  - by eapply (P_frame (GUI.scheduler g)).
  - done.
  - by rewrite scheduler_start_simulation.
  - by rewrite scheduler_switch.
Qed.

Lemma preserved_run g es :
  P (GUI.scheduler g) -> P (GUI.scheduler (GUI.run g es)).
Proof.
  revert g. induction es as [|e es IH]; intros g HP; [done|].
  change (GUI.run g (e :: es)) with (GUI.run (GUI.apply g e) es).
  by apply IH, preserved_apply.
Qed.

Lemma preserved_quick_add c ty n now rnd g :
  P (GUI.scheduler g) -> P (GUI.scheduler (GUI.quick_add_by_class c ty n now rnd g)).
Proof.
  intros HP. unfold GUI.quick_add_by_class. case_match; [|done]. by apply P_add_task.
Qed.

Lemma preserved_gui_init t1 t2 t3 :
  P HotelScheduler.init -> P (GUI.scheduler (GUI.init t1 t2 t3)).
Proof.
  intros HP. unfold GUI.init, GUI.populate_sample_data. cbn [GUI.scheduler].
  by do 3 apply P_add_task.
Qed.

Lemma preserved_sample_gui : P HotelScheduler.init -> P (GUI.scheduler sample_gui).
Proof.
  intros HP. unfold sample_gui. rewrite scheduler_start_simulation.
  by apply preserved_gui_init.
Qed.
End Preserved.

Lemma set_object_lookup_frozen (f : Task.t -> Task.t) r s r' x' :
  (forall x, frozen x (f x)) ->
  objects (set_object r f s) !! r' = Some x' ->
  exists x, objects s !! r' = Some x /\ frozen x x'.
Proof.
  intros Hf. cbn [set_object objects]. intros H.
  apply list_lookup_insert_Some in H as [(-> & <- & Hlt)|[Hne H]].
  - exists (deref s r'). split; [by apply deref_in_range | apply Hf].
  - exists x'. split; [done|apply frozen_refl].
Qed.

Lemma set_object_lookup_kept (f : Task.t -> Task.t) r s r' x :
  (forall x, frozen x (f x)) ->
  objects s !! r' = Some x ->
  exists x', objects (set_object r f s) !! r' = Some x' /\ frozen x x'.
Proof.
  intros Hf Hx. cbn [set_object objects].
  destruct (decide (r = r')) as [->|Hne].
  - exists (f x). rewrite (deref_lookup _ _ _ Hx).
    rewrite list_lookup_insert_eq by (by eapply lookup_lt_Some). split; [done|apply Hf].
  - exists x. rewrite list_lookup_insert_ne by done. split; [done|apply frozen_refl].
Qed.

(** ** Admission data is a snapshot *)

Lemma snapshot_kept_set_object s0 r f s :
  (forall x, frozen x (f x)) -> snapshot_kept s0 s -> snapshot_kept s0 (set_object r f s).
Proof.
  intros Hf H r0 x Hx. destruct (H r0 x Hx) as (y & Hy & Hxy).
  destruct (set_object_lookup_kept f r s r0 y Hf Hy) as (z & Hz & Hyz).
  exists z. split; [done|]. by eapply frozen_trans.
Qed.

Lemma snapshot_kept_add_task s0 rn ty n d now s :
  snapshot_kept s0 s -> snapshot_kept s0 (snd (add_task rn ty n d now s)).
Proof.
  intros H. unfold add_task. destruct (get_room s rn); [|done].
  intros r x Hx. destruct (H r x Hx) as (y & Hy & Hxy).
  exists y. cbn. split; [by apply lookup_app_l_Some|done].
Qed.

Lemma snapshot_kept_frame s0 s s' :
  objects s' = objects s -> rooms s' = rooms s ->
  task_counter s' = task_counter s -> staff_members s' = staff_members s ->
  snapshot_kept s0 s -> snapshot_kept s0 s'.
Proof. intros E _ _ _ H r x Hx. rewrite E. by apply H. Qed.

(** X4: whatever happens later (admissions, policy changes, service,
    completion, clearing, stopping), a task once stored stays stored under
    its reference, and its identifier, room number, room class, task type,
    priority, estimated time, description, timestamp and service charge
    keep the values given at admission. *)
Theorem admission_data_never_changes g es r x :
  objects (GUI.scheduler g) !! r = Some x ->
  exists x',
    objects (GUI.scheduler (GUI.run g es)) !! r = Some x'
    /\ Task.id x' = Task.id x
    /\ Task.room_number x' = Task.room_number x
    /\ Task.room_class x' = Task.room_class x
    /\ Task.task_type x' = Task.task_type x
    /\ Task.priority x' = Task.priority x
    /\ Task.estimated_time x' = Task.estimated_time x
    /\ Task.description x' = Task.description x
    /\ Task.timestamp x' = Task.timestamp x
    /\ Task.service_charge x' = Task.service_charge x.
Proof.
  intros Hx.
  assert (H : snapshot_kept (GUI.scheduler g) (GUI.scheduler (GUI.run g es))).
  { apply (preserved_run (snapshot_kept (GUI.scheduler g))).
    - apply snapshot_kept_set_object.
    - apply snapshot_kept_add_task.
    - apply snapshot_kept_frame.
    - intros r0 x0 H0. exists x0. split; [done|apply frozen_refl]. }
  destruct (H r x Hx) as (x' & Hx' & Hfr). exists x'. split; [done|exact Hfr].
Qed.

(** ** Identifiers *)

Lemma ids_consecutive_init : ids_consecutive HotelScheduler.init.
Proof. split; [done|]. intros r x H. done. Qed.

Lemma ids_consecutive_set_object r f s :
  (forall x, frozen x (f x)) -> ids_consecutive s -> ids_consecutive (set_object r f s).
Proof.
  intros Hf [Hc Hi]. split.
  - cbn [set_object objects task_counter]. by rewrite length_insert.
  - intros r0 x0 H0.
    destruct (set_object_lookup_frozen f r s r0 x0 Hf H0) as (x & Hx & Hfr).
    destruct Hfr as [-> _]. by apply Hi.
Qed.

Lemma ids_consecutive_add_task rn ty n d now s :
  ids_consecutive s -> ids_consecutive (snd (add_task rn ty n d now s)).
Proof.
  intros [Hc Hi]. unfold add_task. destruct (get_room s rn); [|by split].
  split; cbn [snd objects task_counter].
  - rewrite length_app. cbn [length]. lia.
  - intros r x Hx. apply lookup_app_Some in Hx as [Hx|[Hge Hx]]; [by apply Hi|].
    apply list_lookup_singleton_Some in Hx as [Hr <-]. cbn. lia.
Qed.

Lemma ids_consecutive_frame s s' :
  objects s' = objects s -> rooms s' = rooms s ->
  task_counter s' = task_counter s -> staff_members s' = staff_members s ->
  ids_consecutive s -> ids_consecutive s'.
Proof. intros E _ Ec _ [Hc Hi]. split; rewrite ?E, ?Ec; done. Qed.

(** X5: identifiers count up from 1 in the order of admission, through
    every run: the task stored at position [r] has identifier [r + 1], and
    the counter is one more than the number of tasks admitted so far.  Failed
    admissions, completions and clear-all do not consume or free a number. *)
Theorem ids_count_up g es :
  task_counter (GUI.scheduler g) = Z.of_nat (length (objects (GUI.scheduler g))) + 1 ->
  (forall r x, objects (GUI.scheduler g) !! r = Some x -> Task.id x = Z.of_nat r + 1) ->
  task_counter (GUI.scheduler (GUI.run g es))
  = Z.of_nat (length (objects (GUI.scheduler (GUI.run g es)))) + 1
  /\ (forall r x, objects (GUI.scheduler (GUI.run g es)) !! r = Some x ->
        Task.id x = Z.of_nat r + 1).
Proof.
  intros Hc Hi.
  apply (preserved_run ids_consecutive).
  - apply ids_consecutive_set_object.
  - apply ids_consecutive_add_task.
  - apply ids_consecutive_frame.
  - by split.
Qed.

Lemma admission_data_never_changes_witness :
  exists x',
    objects (GUI.scheduler (GUI.run sample_gui (repeat (GUI.Tick 0) 25))) !! 2%nat
    = Some x'
    /\ Task.priority x' = 1
    /\ Task.service_charge x' = 62.5%float.
Proof.
  destruct (admission_data_never_changes sample_gui (repeat (GUI.Tick 0) 25) 2%nat
              (Task.mk 3 "710" "VIP" "Butler Service" 1 10 "Sample butler for VIP" 3
                 "Pending" "" 0 62.5%float) ltac:(vm_compute; reflexivity))
    as (x' & Hx' & _ & _ & _ & _ & Hp & _ & _ & _ & Hc).
  exists x'. split; [exact Hx'|]. split; [exact Hp | exact Hc].
Defined.

Lemma ids_consecutive_sample_gui : ids_consecutive (GUI.scheduler sample_gui).
Proof.
  apply (preserved_sample_gui ids_consecutive).
  - apply ids_consecutive_add_task.
  - apply ids_consecutive_init.
Qed.

Lemma ids_count_up_witness :
  task_counter (GUI.scheduler (GUI.run sample_gui admit_and_serve))
  = Z.of_nat (length (objects (GUI.scheduler (GUI.run sample_gui admit_and_serve)))) + 1.
Proof.
  destruct (ids_count_up sample_gui admit_and_serve
              (proj1 ids_consecutive_sample_gui) (proj2 ids_consecutive_sample_gui))
    as [H _].
  exact H.
Defined.

(** ** The price list *)

Lemma priced_frozen x x' : frozen x x' -> priced x -> priced x'.
Proof.
  unfold frozen, priced. intros (_ & _ & -> & _ & -> & _ & _ & _ & ->). done.
Qed.

Lemma priced_text x : priced x -> get_priority_text (Task.priority x) = Task.room_class x.
Proof. intros [(-> & -> & _)|[(-> & -> & _)|(-> & -> & _)]]; reflexivity. Qed.

Lemma all_priced_set_object r f s :
  (forall x, frozen x (f x)) ->
  (forall r0 x0, objects s !! r0 = Some x0 -> priced x0) ->
  forall r0 x0, objects (set_object r f s) !! r0 = Some x0 -> priced x0.
Proof.
  intros Hf H r0 x0 H0.
  destruct (set_object_lookup_frozen f r s r0 x0 Hf H0) as (x & Hx & Hfr).
  eapply priced_frozen; [exact Hfr|]. by eapply H.
Qed.

Lemma all_priced_add_task rn ty n d now s :
  (forall r0 x0, objects s !! r0 = Some x0 -> priced x0) ->
  forall r0 x0, objects (snd (add_task rn ty n d now s)) !! r0 = Some x0 -> priced x0.
Proof.
  intros H. unfold add_task. destruct (get_room s rn) as [room|]; [|done].
  cbn [snd objects]. intros r0 x0 H0.
  apply lookup_app_Some in H0 as [H0|[_ H0]]; [by eapply H|].
  apply list_lookup_singleton_Some in H0 as [_ <-].
  unfold priced, HotelRoom.calculate_service_charge,
    HotelRoom.get_base_service_charge, HotelRoom.get_service_multiplier,
    HotelRoom.get_priority_level, HotelRoom.get_room_class. cbn.
  destruct (HotelRoom.kind room); [left|right; left|right; right]; done.
Qed.

(** X6: every task ever stored carries one line of the price list, and
    keeps it: Economy with rank 3 and charge 10.0, Mid-Range with rank 2 and
    charge 22.5, or VIP with rank 1 and charge 62.5; hence the text that
    [get_priority_text] shows for its rank is its room class. *)
Theorem stored_tasks_are_priced g es :
  (forall r x, objects (GUI.scheduler g) !! r = Some x -> priced x) ->
  forall r x,
    objects (GUI.scheduler (GUI.run g es)) !! r = Some x ->
    priced x /\ get_priority_text (Task.priority x) = Task.room_class x.
Proof.
  intros H r x Hx.
  assert (Hp : priced x).
  { revert r x Hx.
    apply (preserved_run (fun s => forall r x, objects s !! r = Some x -> priced x)).
    - apply all_priced_set_object.
    - apply all_priced_add_task.
    - intros s s' E _ _ _ Hs r x. rewrite E. apply Hs.
    - exact H. }
  split; [exact Hp | by apply priced_text].
Qed.

Lemma stored_tasks_are_priced_witness :
  get_priority_text
    (Task.priority
       (deref (GUI.scheduler
                 (GUI.run (GUI.mk HotelScheduler.init false GUI.NotStarted None [])
                    [GUI.Admit "405" "Room Service" 20 "Dinner for two" 5])) 0%nat))
  = Task.room_class
      (deref (GUI.scheduler
                (GUI.run (GUI.mk HotelScheduler.init false GUI.NotStarted None [])
                   [GUI.Admit "405" "Room Service" 20 "Dinner for two" 5])) 0%nat).
Proof.
  exact (proj2 (stored_tasks_are_priced
                  (GUI.mk HotelScheduler.init false GUI.NotStarted None [])
                  [GUI.Admit "405" "Room Service" 20 "Dinner for two" 5]
                  ltac:(intros r0 x0 H0; vm_compute in H0; discriminate)
                  0%nat _ ltac:(vm_compute; reflexivity))).
Defined.

(** ** The catalog *)

Lemma room_kept_refl room : room_kept room room.
Proof. by repeat split. Qed.

Lemma rooms_kept_refl s : rooms_kept s s.
Proof. intros k. destruct (rooms s !! k); [apply room_kept_refl|done]. Qed.

Lemma rooms_kept_add_task s0 rn ty n d now s :
  rooms_kept s0 s -> rooms_kept s0 (snd (add_task rn ty n d now s)).
Proof.
  intros H. unfold add_task, get_room.
  destruct (rooms s !! replace rn "Room " "") as [room|] eqn:Hroom; [|done].
  intros k. cbn [snd rooms]. specialize (H k).
  destruct (decide (replace rn "Room " "" = k)) as [<-|Hne].
  - rewrite lookup_insert_eq. rewrite Hroom in H.
    destruct (rooms s0 !! replace rn "Room " "") as [room0|]; [|done].
    unfold room_kept in *. cbn. destruct_and!. repeat split; try done.
    by apply prefix_app_r.
  - by rewrite lookup_insert_ne.
Qed.

(** X7: the catalog never changes: through every run the set of room
    identifiers stays the same and each room keeps its class, number, floor,
    amenities and occupancy data; only its task history changes, and only by
    growing at the end. *)
Theorem catalog_never_changes g es k :
  (rooms (GUI.scheduler (GUI.run g es)) !! k = None
   <-> rooms (GUI.scheduler g) !! k = None)
  /\ (forall room, rooms (GUI.scheduler g) !! k = Some room ->
        exists room',
          rooms (GUI.scheduler (GUI.run g es)) !! k = Some room'
          /\ room_kept room room'
          /\ HotelRoom.get_room_class room' = HotelRoom.get_room_class room
          /\ HotelRoom.get_priority_level room' = HotelRoom.get_priority_level room
          /\ HotelRoom.tasks_history room `prefix_of` HotelRoom.tasks_history room').
Proof.
  assert (H : rooms_kept (GUI.scheduler g) (GUI.scheduler (GUI.run g es))).
  { apply (preserved_run (rooms_kept (GUI.scheduler g))).
    - intros r f s _ Hs. exact Hs.
    - apply rooms_kept_add_task.
    - intros s s' _ E _ _ Hs k0. rewrite E. apply Hs.
    - apply rooms_kept_refl. }
  specialize (H k).
  destruct (rooms (GUI.scheduler g) !! k) as [room|],
    (rooms (GUI.scheduler (GUI.run g es)) !! k) as [room'|]; try done.
  split; [done|]. intros ? [= <-]. exists room'. split; [done|]. split; [done|].
  unfold HotelRoom.get_room_class, HotelRoom.get_priority_level.
  destruct H as (-> & _ & _ & _ & _ & _ & _ & _ & Hpre). done.
Qed.

(** ** Tasks and room histories *)

Lemma filed_init : filed HotelScheduler.init.
Proof.
  split.
  - intros r x H. done.
  - intros k room r Hk Hr. exfalso.
    assert (Hall : map_Forall (fun _ room => HotelRoom.tasks_history room = [])
                     (rooms HotelScheduler.init)).
    { apply (bool_decide_unpack _). vm_compute. reflexivity. }
    rewrite (Hall k room Hk) in Hr. by apply elem_of_nil in Hr.
Qed.

Lemma filed_set_object r f s :
  (forall x, frozen x (f x)) -> filed s -> filed (set_object r f s).
Proof.
  intros Hf [H1 H2]. split.
  - intros r0 x0 H0.
    destruct (set_object_lookup_frozen f r s r0 x0 Hf H0) as (x & Hx & Hfr).
    destruct (H1 r0 x Hx) as (room & Hroom & Hin & Hc & Hp).
    destruct Hfr as (_ & Hrn & Hrc & _ & Hpr & _).
    exists room. unfold get_room in *. cbn [set_object rooms].
    rewrite Hrn, Hrc, Hpr. done.
  - intros k room r0 Hk Hr. cbn [set_object rooms] in Hk.
    destruct (H2 k room r0 Hk Hr) as (x & Hx & Hkey).
    destruct (set_object_lookup_kept f r s r0 x Hf Hx) as (x' & Hx' & Hfr).
    exists x'. split; [done|]. destruct Hfr as (_ & -> & _). done.
Qed.

Lemma filed_add_task rn ty n d now s :
  filed s -> filed (snd (add_task rn ty n d now s)).
Proof.
  intros [H1 H2]. unfold add_task, get_room.
  assert (Hkey : exists key, key = replace rn "Room " "") by eauto.
  destruct Hkey as [key Hkey]. rewrite <- Hkey.
  destruct (rooms s !! key) as [room|] eqn:Hroom; [|by split].
  cbn [snd]. split.
  - intros r0 x0 H0. cbn [objects] in H0. unfold get_room. cbn [rooms].
    apply lookup_app_Some in H0 as [H0|[Hge H0]].
    + destruct (H1 r0 x0 H0) as (room0 & Hroom0 & Hin & Hc & Hp).
      unfold get_room in Hroom0.
      destruct (decide (key = replace (Task.room_number x0) "Room " ""))
        as [E|Hne].
      * rewrite <- E, lookup_insert_eq. rewrite <- E, Hroom in Hroom0.
        injection Hroom0 as <-. eexists. split; [done|].
        split; [|done].
        cbn [HotelRoom.add_task_to_history HotelRoom.tasks_history].
        apply elem_of_app. by left.
      * rewrite lookup_insert_ne by done. by exists room0.
    + apply list_lookup_singleton_Some in H0 as [Hr0 <-].
      assert (r0 = length (objects s)) as -> by lia. cbn [Task.room_number].
      rewrite <- Hkey, lookup_insert_eq. eexists. split; [done|]. split; [|done].
      cbn [HotelRoom.add_task_to_history HotelRoom.tasks_history].
      apply elem_of_app. right. apply list_elem_of_here.
  - intros k room' r0 Hk Hr. cbn [rooms objects] in *.
    destruct (decide (key = k)) as [<-|Hne].
    + rewrite lookup_insert_eq in Hk. injection Hk as <-.
      cbn [HotelRoom.add_task_to_history HotelRoom.tasks_history] in Hr.
      apply elem_of_app in Hr as [Hr|Hr].
      * destruct (H2 _ room r0 Hroom Hr) as (x & Hx & Hxk).
        exists x. split; [by apply lookup_app_l_Some|done].
      * apply list_elem_of_singleton in Hr as ->. eexists.
        split; [rewrite lookup_app_r by lia; by rewrite Nat.sub_diag|].
        symmetry. exact Hkey.
    + rewrite lookup_insert_ne in Hk by done.
      destruct (H2 k room' r0 Hk Hr) as (x & Hx & Hxk).
      exists x. split; [by apply lookup_app_l_Some|done].
Qed.

Lemma filed_frame s s' :
  objects s' = objects s -> rooms s' = rooms s ->
  task_counter s' = task_counter s -> staff_members s' = staff_members s ->
  filed s -> filed s'.
Proof.
  intros Eo Er _ _ [H1 H2]. split.
  - intros r x Hx. unfold get_room. rewrite Er. rewrite Eo in Hx. by apply H1.
  - intros k room r Hk Hr. rewrite Eo. rewrite Er in Hk. by eapply H2.
Qed.

(** X8: tasks and room histories stay in agreement through every run:
    every task ever stored is an entry of the history of the room its room
    number names, that room has the task's class and rank, and every entry
    of a room's history is a stored task naming that room.  Completion and
    clear-all remove nothing from a history. *)
Theorem histories_agree_with_tasks g es :
  filed (GUI.scheduler g) ->
  (forall r x,
     objects (GUI.scheduler (GUI.run g es)) !! r = Some x ->
     exists room,
       get_room (GUI.scheduler (GUI.run g es)) (Task.room_number x) = Some room
       /\ r ∈ HotelRoom.tasks_history room
       /\ HotelRoom.get_room_class room = Task.room_class x
       /\ HotelRoom.get_priority_level room = Task.priority x)
  /\ (forall k room r,
        rooms (GUI.scheduler (GUI.run g es)) !! k = Some room ->
        r ∈ HotelRoom.tasks_history room ->
        exists x, objects (GUI.scheduler (GUI.run g es)) !! r = Some x
                  /\ replace (Task.room_number x) "Room " "" = k).
Proof.
  intros H. apply (preserved_run filed); [apply filed_set_object
    | apply filed_add_task | apply filed_frame | exact H].
Qed.

Lemma filed_sample_gui : filed (GUI.scheduler sample_gui).
Proof.
  apply (preserved_sample_gui filed); [apply filed_add_task | apply filed_init].
Qed.

Lemma histories_agree_with_tasks_witness :
  exists room,
    get_room (GUI.scheduler (GUI.run sample_gui [GUI.ClearAll])) "710" = Some room
    /\ 2%nat ∈ HotelRoom.tasks_history room.
Proof.
  destruct (histories_agree_with_tasks sample_gui [GUI.ClearAll] filed_sample_gui)
    as [H _].
  destruct (H 2%nat
              (Task.mk 3 "710" "VIP" "Butler Service" 1 10 "Sample butler for VIP" 3
                 "Pending" "" 0 62.5%float) ltac:(vm_compute; reflexivity))
    as (room & Hroom & Hin & _).
  exists room. split; [exact Hroom | exact Hin].
Defined.

(** ** The rooms that [initialize_rooms] makes *)

Lemma room_numbers_on_elem floors k :
  k ∈ GUI.room_numbers_on floors
  <-> exists floor n, floor ∈ floors /\ 1 <= n <= 30 /\ k = room_number_of floor n.
Proof.
  unfold GUI.room_numbers_on. rewrite list_elem_of_In, in_concat. split.
  - intros (l & Hl & Hk). apply in_map_iff in Hl as (floor & <- & Hfloor).
    apply in_map_iff in Hk as (n & <- & Hn).
    apply list_elem_of_In in Hfloor. apply list_elem_of_In, elem_of_seqZ in Hn.
    exists floor, n. split; [done|]. split; [lia|done].
  - intros (floor & n & Hfloor & Hn & ->).
    exists (map (room_number_of floor) (seqZ 1 30)). split.
    + apply in_map_iff. exists floor. split; [done|]. by apply list_elem_of_In.
    + apply in_map_iff. exists n. split; [done|].
      apply list_elem_of_In, elem_of_seqZ. lia.
Qed.

Lemma catalog_complete floor n :
  1 <= floor <= 10 -> 1 <= n <= 30 ->
  rooms init !! room_number_of floor n
  = Some (HotelRoom.new (floor_kind floor) (room_number_of floor n) floor).
Proof.
  intros Hfloor Hn.
  assert (Hall :
    Forall (fun floor =>
      Forall (fun n =>
        rooms init !! room_number_of floor n
        = Some (HotelRoom.new (floor_kind floor) (room_number_of floor n) floor))
        (seqZ 1 30)) (seqZ 1 10)).
  { apply (bool_decide_unpack _). vm_compute. reflexivity. }
  rewrite Forall_forall in Hall.
  assert (Hf : floor ∈ seqZ 1 10) by (apply elem_of_seqZ; lia).
  specialize (Hall floor Hf). rewrite Forall_forall in Hall.
  apply Hall, elem_of_seqZ. lia.
Qed.

Lemma catalog_sound k room :
  rooms init !! k = Some room ->
  exists floor n,
    1 <= floor <= 10 /\ 1 <= n <= 30 /\ k = room_number_of floor n
    /\ room = HotelRoom.new (floor_kind floor) k floor.
Proof.
  intros Hk.
  assert (Hall :
    map_Forall (fun k room =>
      k ∈ GUI.room_numbers_on [HotelRoom.floor room]
      /\ 1 <= HotelRoom.floor room <= 10
      /\ room = HotelRoom.new (floor_kind (HotelRoom.floor room)) k (HotelRoom.floor room))
      (rooms init)).
  { apply (bool_decide_unpack _). vm_compute. reflexivity. }
  destruct (Hall k room Hk) as (Hin & Hfloor & Hroom).
  apply room_numbers_on_elem in Hin as (floor & n & Hf & Hn & ->).
  apply list_elem_of_singleton in Hf as ->.
  exists (HotelRoom.floor room), n.
  exact (conj Hfloor (conj Hn (conj eq_refl Hroom))).
Qed.

(** X9: [initialize_rooms] makes 300 rooms with 300 different identifiers:
    for every floor 1 to 10 and every number 1 to 30 the identifier written
    floor, then number on two digits, names a fresh room of that floor,
    Economy on floors 1 to 3, Mid-Range on floors 4 to 6, VIP on floors 7 to
    10, unoccupied and with an empty history; and the catalog holds no other
    room. *)
Theorem catalog_of_initialize_rooms :
  size (rooms init) = 300%nat
  /\ (forall floor n, 1 <= floor <= 10 -> 1 <= n <= 30 ->
        rooms init !! room_number_of floor n
        = Some (HotelRoom.new (floor_kind floor) (room_number_of floor n) floor))
  /\ (forall k room, rooms init !! k = Some room ->
        exists floor n,
          1 <= floor <= 10 /\ 1 <= n <= 30 /\ k = room_number_of floor n
          /\ room = HotelRoom.new (floor_kind floor) k floor).
Proof.
  split; [vm_compute; reflexivity|].
  split; [apply catalog_complete | apply catalog_sound].
Qed.

(** ** The room lists of the form *)

Lemma floor_kind_cases floor :
  (floor <= 3 /\ floor_kind floor = EconomyRoom)
  \/ (4 <= floor <= 6 /\ floor_kind floor = MidRangeRoom)
  \/ (7 <= floor /\ floor_kind floor = VIPRoom).
Proof.
  unfold floor_kind. destruct (Z.leb_spec floor 3); [left; done|].
  destruct (Z.leb_spec floor 6); [right; left|right; right]; split; (lia || done).
Qed.

Lemma class_room_numbers_sound c k :
  k ∈ GUI.class_room_numbers c ->
  exists floor n,
    1 <= floor <= 10 /\ 1 <= n <= 30 /\ k = room_number_of floor n
    /\ HotelRoom.get_room_class (HotelRoom.new (floor_kind floor) k floor) = c.
Proof.
  unfold GUI.class_room_numbers. intros Hk.
  destruct (String.eqb_spec c "Economy") as [->|_];
    [|destruct (String.eqb_spec c "Mid-Range") as [->|_];
      [|destruct (String.eqb_spec c "VIP") as [->|_];
        [|by apply elem_of_nil in Hk]]];
    apply room_numbers_on_elem in Hk as (floor & n & Hf & Hn & ->);
    apply elem_of_seqZ in Hf; exists floor, n;
    (split; [lia|]); (split; [done|]); (split; [done|]);
    destruct (floor_kind_cases floor) as [[? ->]|[[? ->]|[? ->]]];
    (reflexivity || lia).
Qed.

Lemma class_room_numbers_complete floor n :
  1 <= floor <= 10 -> 1 <= n <= 30 ->
  room_number_of floor n
  ∈ GUI.class_room_numbers
      (HotelRoom.get_room_class
         (HotelRoom.new (floor_kind floor) (room_number_of floor n) floor)).
Proof.
  intros Hfloor Hn.
  destruct (floor_kind_cases floor) as [[? E]|[[? E]|[? E]]]; rewrite E;
    unfold HotelRoom.get_room_class, HotelRoom.new; cbn [HotelRoom.kind].
  - change (GUI.class_room_numbers "Economy") with (GUI.room_numbers_on (seqZ 1 3)).
    apply room_numbers_on_elem. exists floor, n.
    split; [apply elem_of_seqZ; lia|done].
  - change (GUI.class_room_numbers "Mid-Range") with (GUI.room_numbers_on (seqZ 4 3)).
    apply room_numbers_on_elem. exists floor, n.
    split; [apply elem_of_seqZ; lia|done].
  - change (GUI.class_room_numbers "VIP") with (GUI.room_numbers_on (seqZ 7 4)).
    apply room_numbers_on_elem. exists floor, n.
    split; [apply elem_of_seqZ; lia|done].
Qed.

(** X10: the room numbers that the form offers for a class
    ([on_room_class_change]), which are also the ones [quick_add_by_class]
    draws from, are exactly the identifiers of the catalog rooms of that
    class; the box is set to the first of them, and for any other class name
    the list is empty and the box is blank. *)
Theorem form_rooms_match_catalog c k :
  fst (GUI.on_room_class_change c) = GUI.class_room_numbers c
  /\ (k ∈ fst (GUI.on_room_class_change c)
      <-> exists room, rooms init !! k = Some room
                       /\ HotelRoom.get_room_class room = c)
  /\ snd (GUI.on_room_class_change c) = default "" (head (GUI.class_room_numbers c))
  /\ (c ∉ room_classes -> GUI.on_room_class_change c = ([], "")).
Proof.
  split; [done|]. split; [|split].
  - cbn [GUI.on_room_class_change fst]. split.
    + intros Hk.
      destruct (class_room_numbers_sound c k Hk) as (floor & n & Hf & Hn & -> & Hc).
      eexists. split; [by apply catalog_complete|done].
    + intros (room & Hroom & <-).
      destruct (catalog_sound k room Hroom) as (floor & n & Hf & Hn & -> & ->).
      by apply class_room_numbers_complete.
  - unfold GUI.on_room_class_change. cbn [snd].
    by destruct (GUI.class_room_numbers c).
  - unfold room_classes. intros Hc.
    repeat (apply not_elem_of_cons in Hc as [?%String.eqb_neq Hc]).
    unfold GUI.on_room_class_change, GUI.class_room_numbers.
    by repeat case_match.
Qed.

Lemma rooms_kept_sample_gui : rooms_kept init (GUI.scheduler sample_gui).
Proof.
  apply (preserved_sample_gui (rooms_kept init));
    [apply rooms_kept_add_task | apply rooms_kept_refl].
Qed.

Lemma class_room_numbers_length c :
  c ∈ room_classes -> (0 < length (GUI.class_room_numbers c))%nat.
Proof.
  unfold room_classes. intros H.
  repeat (apply elem_of_cons in H as [->|H]); [..|by apply elem_of_nil in H];
    apply Nat.ltb_lt; vm_compute; reflexivity.
Qed.

(** X11: in a state whose catalog is the initial one, [quick_add_by_class]
    for one of the three classes always admits a task: the room drawn
    exists and has that class, the call amounts to the scheduler's
    [add_task] for that room with the generated description, and the new
    pending task has the class asked for, its rank and the given duration.
    For any other class name nothing is added. *)
Theorem quick_add_admits g c ty n now rnd :
  rooms_kept init (GUI.scheduler g) ->
  (c ∈ room_classes ->
   exists rn room,
     rn ∈ GUI.class_room_numbers c
     /\ get_room (GUI.scheduler g) rn = Some room
     /\ HotelRoom.get_room_class room = c
     /\ GUI.quick_add_by_class c ty n now rnd g
        = GUI.apply g
            (GUI.Admit rn ty n ("Auto-generated " +:+ ty +:+ " for " +:+ c) now)
     /\ tasks (GUI.scheduler (GUI.quick_add_by_class c ty n now rnd g))
        = (tasks (GUI.scheduler g) ++ [length (objects (GUI.scheduler g))])%list
     /\ deref (GUI.scheduler (GUI.quick_add_by_class c ty n now rnd g))
          (length (objects (GUI.scheduler g)))
        = Task.mk (task_counter (GUI.scheduler g)) rn c ty
            (HotelRoom.get_priority_level room) n
            ("Auto-generated " +:+ ty +:+ " for " +:+ c) now "Pending" "" 0
            (HotelRoom.calculate_service_charge room
               (HotelRoom.get_base_service_charge room)))
  /\ (c ∉ room_classes -> GUI.quick_add_by_class c ty n now rnd g = g).
Proof.
  intros Hkept. split.
  - intros Hc. pose proof (class_room_numbers_length c Hc) as Hlen.
    destruct (lookup_lt_is_Some_2 (GUI.class_room_numbers c)
                (rnd mod length (GUI.class_room_numbers c))%nat) as [rn Hrn].
    { apply Nat.mod_upper_bound. lia. }
    assert (Hin : rn ∈ GUI.class_room_numbers c) by (by eapply list_elem_of_lookup_2).
    destruct (class_room_numbers_sound c rn Hin)
      as (floor & n0 & Hfl & Hn0 & Hrn0 & Hclass0).
    pose proof (catalog_complete floor n0 Hfl Hn0) as Hroom0.
    rewrite <- Hrn0 in Hroom0.
    specialize (Hkept rn). rewrite Hroom0 in Hkept.
    destruct (rooms (GUI.scheduler g) !! rn) as [room|] eqn:Hroom; [|done].
    assert (Hget : get_room (GUI.scheduler g) rn = Some room).
    { unfold get_room. rewrite replace_no_R; [done|].
      apply catalog_no_R. by rewrite Hroom0. }
    assert (Hclass : HotelRoom.get_room_class room = c).
    { rewrite <- Hclass0. unfold HotelRoom.get_room_class.
      by destruct Hkept as (-> & _). }
    exists rn, room. split; [done|]. split; [done|]. split; [done|].
    unfold GUI.quick_add_by_class. rewrite Hrn. cbn [GUI.apply GUI.scheduler].
    rewrite (add_task_Some _ ty n _ now _ _ Hget). cbn [snd tasks].
    split; [done|]. split; [done|].
    erewrite deref_app_new by reflexivity. by rewrite Hclass.
  - unfold room_classes. intros Hc.
    repeat (apply not_elem_of_cons in Hc as [?%String.eqb_neq Hc]).
    unfold GUI.quick_add_by_class, GUI.class_room_numbers.
    by repeat case_match.
Qed.

Lemma quick_add_admits_witness :
  exists rn room,
    get_room (GUI.scheduler sample_gui) rn = Some room
    /\ HotelRoom.get_room_class room = "VIP"
    /\ tasks (GUI.scheduler
                (GUI.quick_add_by_class "VIP" "Concierge Service" 12 4 7 sample_gui))
       = (tasks (GUI.scheduler sample_gui)
            ++ [length (objects (GUI.scheduler sample_gui))])%list.
Proof.
  destruct (proj1 (quick_add_admits sample_gui "VIP" "Concierge Service" 12 4 7
                     rooms_kept_sample_gui)) as (rn & room & _ & H1 & H2 & _ & H3 & _).
  { unfold room_classes. apply list_elem_of_further, list_elem_of_further,
      list_elem_of_here. }
  exists rn, room. split; [exact H1|]. split; [exact H2 | exact H3].
Defined.

(** ** Staff *)

Lemma initial_staff_lookup c :
  initial_staff !! c
  = if decide (c = "VIP")
    then Some ["Alice (VIP Specialist)"; "Robert (Butler)"; "Elena (Concierge)"]
    else if decide (c = "Mid-Range")
    then Some ["Bob (Senior Staff)"; "Diana (Room Service)"; "Carlos (Maintenance)"]
    else if decide (c = "Economy")
    then Some ["Charlie (Staff)"; "Eve (Housekeeper)"; "Frank (Assistant)"]
    else None.
Proof.
  unfold initial_staff. cbn [list_to_map foldr fst snd].
  repeat case_decide; subst;
    rewrite ?lookup_insert_eq, ?lookup_insert_ne, ?lookup_empty by done; done.
Qed.

Lemma choice_of_three {A} (a b c : A) rnd :
  exists x, [a; b; c] !! (rnd mod 3)%nat = Some x /\ x ∈ [a; b; c].
Proof.
  destruct (lookup_lt_is_Some_2 [a; b; c] (rnd mod 3)%nat) as [x Hx].
  { cbn [length]. apply Nat.mod_upper_bound. lia. }
  exists x. split; [done|]. by eapply list_elem_of_lookup_2.
Qed.

Lemma get_staff_in_pool s c rnd :
  staff_members s = initial_staff ->
  exists staff,
    get_staff_for_room_class s c rnd = inr staff
    /\ staff
       ∈ (if decide (c = "VIP")
          then ["Alice (VIP Specialist)"; "Robert (Butler)"; "Elena (Concierge)"]
          else if decide (c = "Mid-Range")
          then ["Bob (Senior Staff)"; "Diana (Room Service)"; "Carlos (Maintenance)"]
          else ["Charlie (Staff)"; "Eve (Housekeeper)"; "Frank (Assistant)"]).
Proof.
  intros Hs. unfold get_staff_for_room_class. rewrite Hs.
  assert (He : initial_staff !! "Economy"
               = Some ["Charlie (Staff)"; "Eve (Housekeeper)"; "Frank (Assistant)"])
    by (vm_compute; reflexivity).
  rewrite He, (initial_staff_lookup c).
  repeat case_decide; cbn [default from_option id length];
    match goal with
    | |- context [[?a; ?b; ?c] !! _] =>
        destruct (choice_of_three a b c rnd) as (x & -> & Hx)
    end; eauto.
Qed.

(** X12: with the staff table of [__init__], [get_staff_for_room_class]
    never raises: it returns a member of the VIP staff for "VIP", of the
    Mid-Range staff for "Mid-Range", and of the Economy staff for "Economy"
    and for every other class name. *)
Theorem staff_is_of_the_class s c rnd :
  staff_members s = initial_staff ->
  exists staff,
    get_staff_for_room_class s c rnd = inr staff
    /\ staff
       ∈ (if decide (c = "VIP")
          then ["Alice (VIP Specialist)"; "Robert (Butler)"; "Elena (Concierge)"]
          else if decide (c = "Mid-Range")
          then ["Bob (Senior Staff)"; "Diana (Room Service)"; "Carlos (Maintenance)"]
          else ["Charlie (Staff)"; "Eve (Housekeeper)"; "Frank (Assistant)"]).
Proof.
  intros Hs. destruct (get_staff_in_pool s c rnd Hs) as (staff & Hget & Hin).
  exists staff. split; [exact Hget | exact Hin].
Qed.

Lemma staff_is_of_the_class_witness :
  exists staff,
    get_staff_for_room_class init "Penthouse" 4 = inr staff
    /\ staff ∈ ["Charlie (Staff)"; "Eve (Housekeeper)"; "Frank (Assistant)"].
Proof.
  destruct (staff_is_of_the_class init "Penthouse" 4 eq_refl) as (staff & H1 & H2).
  exists staff. split; [exact H1 | exact H2].
Defined.

(** ** The dispatch thread at work *)

Lemma run_app g es1 es2 : GUI.run g (es1 ++ es2) = GUI.run (GUI.run g es1) es2.
Proof. unfold GUI.run. apply foldl_app. Qed.

(** With the flag set, the progress loop goes through all its remaining
    increments, two program points each, and reaches the completion block
    without touching the scheduler. *)
Lemma run_increments task n (k : nat) :
  forall i g rs,
    GUI.is_simulation_running g = true ->
    GUI.thread g = GUI.for_next task i n ->
    Z.to_nat (n - i) = k ->
    length rs = (2 * k)%nat ->
    GUI.run g (map GUI.Tick rs)
    = GUI.mk (GUI.scheduler g) true (GUI.AtComplete task) (GUI.shown g) (GUI.others g).
Proof.
  induction k as [|k IH]; intros i g rs Hflag Hth Hk Hlen.
  - destruct rs; [|done]. destruct g as [s b th sh]. cbn in *. subst b th.
    unfold GUI.for_next. destruct (Z.ltb_spec i n); [lia|done].
  - destruct rs as [|a [|b rs]]; [cbn in Hlen; lia|cbn in Hlen; lia|].
    change (GUI.run g (map GUI.Tick (a :: b :: rs)))
      with (GUI.run (GUI.step b (GUI.step a g)) (map GUI.Tick rs)).
    assert (Hlt : i < n) by lia.
    assert (H1 : GUI.step a g
                 = GUI.mk (GUI.scheduler g) true (GUI.InIncrement task i n) (GUI.shown g) (GUI.others g)).
    { unfold GUI.step. rewrite Hth. unfold GUI.for_next.
      destruct (Z.ltb_spec i n); [|lia]. by rewrite Hflag. }
    rewrite H1.
    assert (H2 : GUI.step b (GUI.mk (GUI.scheduler g) true (GUI.InIncrement task i n)
                               (GUI.shown g) (GUI.others g))
                 = GUI.mk (GUI.scheduler g) true (GUI.for_next task (i + 1) n)
                     (GUI.shown g) (GUI.others g)) by done.
    rewrite H2. rewrite (IH (i + 1)); [done|done|done|lia|].
    cbn [length] in Hlen. lia.
Qed.

Lemma staff_kept_run g es :
  staff_members (GUI.scheduler g) = initial_staff ->
  staff_members (GUI.scheduler (GUI.run g es)) = initial_staff.
Proof.
  apply (preserved_run (fun s => staff_members s = initial_staff)).
  - intros r f s _ H. exact H.
  - intros rn ty n d now s H. unfold add_task. by destruct (get_room s rn).
  - intros s s' _ _ _ E H. congruence.
Qed.

Lemma deref_set_object_eq r f s :
  (r < length (objects s))%nat -> deref (set_object r f s) r = f (deref s r).
Proof.
  intros Hlt. unfold deref at 1. cbn [set_object objects].
  by rewrite list_lookup_insert_eq.
Qed.

Lemma deref_set_object_ne r r' f s :
  r <> r' -> deref (set_object r f s) r' = deref s r'.
Proof.
  intros Hne. unfold deref. cbn [set_object objects].
  by rewrite list_lookup_insert_ne.
Qed.

(** X13: a task at the head of the schedule is served to the end when
    nobody interferes: with the flag set, after the pick, two program points
    for each of its estimated minutes (none when the estimate is zero or
    negative) and the completion block, the thread is back at the loop
    head, the task has left the pending collection and is the last entry of
    the completed one, its status is Completed, its actual time is its
    estimated time and its staff member is the one drawn at the pick. *)
Theorem served_task_completes g task rest r0 rs :
  wf (GUI.scheduler g) ->
  staff_members (GUI.scheduler g) = initial_staff ->
  GUI.is_simulation_running g = true ->
  GUI.thread g = GUI.AtWhile ->
  get_scheduled_tasks (GUI.scheduler g) = task :: rest ->
  length rs
  = (2 * Z.to_nat (Task.estimated_time (deref (GUI.scheduler g) task)) + 1)%nat ->
  GUI.thread (GUI.run g (GUI.Tick r0 :: map GUI.Tick rs)) = GUI.AtWhile
  /\ tasks (GUI.scheduler g)
     ≡ₚ task :: tasks (GUI.scheduler (GUI.run g (GUI.Tick r0 :: map GUI.Tick rs)))
  /\ length (tasks (GUI.scheduler (GUI.run g (GUI.Tick r0 :: map GUI.Tick rs))))
     = pred (length (tasks (GUI.scheduler g)))
  /\ completed_tasks (GUI.scheduler (GUI.run g (GUI.Tick r0 :: map GUI.Tick rs)))
     = (completed_tasks (GUI.scheduler g) ++ [task])%list
  /\ Task.status
       (deref (GUI.scheduler (GUI.run g (GUI.Tick r0 :: map GUI.Tick rs))) task)
     = "Completed"
  /\ Task.actual_time
       (deref (GUI.scheduler (GUI.run g (GUI.Tick r0 :: map GUI.Tick rs))) task)
     = Task.estimated_time (deref (GUI.scheduler g) task)
  /\ get_staff_for_room_class (GUI.scheduler g)
       (Task.room_class (deref (GUI.scheduler g) task)) r0
     = inr (Task.assigned_staff
              (deref (GUI.scheduler (GUI.run g (GUI.Tick r0 :: map GUI.Tick rs))) task)).
Proof.
  intros Hwf Hstaff Hflag Hth Hsch Hlen.
  set (s := GUI.scheduler g) in *. set (x := deref s task) in *.
  destruct (get_staff_in_pool s (Task.room_class x) r0 Hstaff)
    as (staff & Hget & _).
  assert (Hin : task ∈ tasks s).
  { apply (scheduled_elem s). rewrite Hsch. apply list_elem_of_here. }
  assert (Hlt : (task < length (objects s))%nat) by (by apply (wf_refs _ Hwf)).
  set (s1 := set_object task (Task.set_assigned_staff staff) s).
  assert (H1 : GUI.step r0 g
               = GUI.mk s1 true (GUI.for_next task 0 (Task.estimated_time x))
                   (Some task) (GUI.others g)).
  { unfold GUI.step. rewrite Hth, Hflag. fold s. rewrite Hsch. fold x.
    by rewrite Hget. }
  assert (Hrs : exists rs1 r1, rs = (rs1 ++ [r1])%list
                               /\ length rs1 = (2 * Z.to_nat (Task.estimated_time x))%nat).
  { assert (Hne : rs <> []) by (intros ->; cbn in Hlen; lia).
    destruct (exists_last Hne) as (rs1 & r1 & ->).
    exists rs1, r1. split; [done|]. rewrite length_app in Hlen. cbn in Hlen. lia. }
  destruct Hrs as (rs1 & r1 & -> & Hlen1).
  change (GUI.run g (GUI.Tick r0 :: map GUI.Tick (rs1 ++ [r1])))
    with (GUI.run (GUI.step r0 g) (map GUI.Tick (rs1 ++ [r1]))).
  rewrite H1, map_app, run_app.
  assert (Hinc :
    GUI.run (GUI.mk s1 true (GUI.for_next task 0 (Task.estimated_time x)) (Some task)
               (GUI.others g))
      (map GUI.Tick rs1)
    = GUI.mk s1 true (GUI.AtComplete task) (Some task) (GUI.others g)).
  { apply (run_increments task (Task.estimated_time x)
             (Z.to_nat (Task.estimated_time x)) 0
             (GUI.mk s1 true (GUI.for_next task 0 (Task.estimated_time x)) (Some task)
                (GUI.others g)));
      [reflexivity | reflexivity | f_equal; lia | exact Hlen1]. }
  rewrite Hinc. cbn [map].
  change (GUI.run ?g0 [GUI.Tick r1]) with (GUI.step r1 g0).
  set (g2 := GUI.mk s1 true (GUI.AtComplete task) (Some task) (GUI.others g)).
  change (GUI.step r1 g2) with (GUI.complete task g2).
  assert (Hwf1 : wf s1) by (by apply wf_set_object).
  destruct (complete_spec task g2 Hwf1 Hin)
    as (l1 & l2 & Ht & _ & -> & -> & Hobj & _ & -> & _).
  cbn [GUI.scheduler g2] in Ht, Hobj |- *.
  assert (Hd : deref (GUI.scheduler (GUI.complete task g2)) task
               = Task.set_actual_time (Task.estimated_time (deref s1 task))
                   (Task.set_status "Completed" (deref s1 task))).
  { unfold deref at 1. rewrite Hobj, list_lookup_insert_eq; [done|].
    cbn [s1 set_object objects]. by rewrite length_insert. }
  assert (Hd1 : deref s1 task = Task.set_assigned_staff staff x)
    by (apply deref_set_object_eq; exact Hlt).
  rewrite Hd, Hd1.
  cbn [Task.status Task.actual_time Task.assigned_staff Task.estimated_time
       Task.set_actual_time Task.set_status Task.set_assigned_staff].
  change (tasks s1) with (tasks s) in Ht.
  split; [done|]. split; [rewrite Ht; by rewrite Permutation_middle|].
  split; [rewrite Ht, !length_app; cbn [length]; lia|]. done.
Qed.

Lemma staff_sample_gui : staff_members (GUI.scheduler sample_gui) = initial_staff.
Proof.
  apply (preserved_sample_gui (fun s => staff_members s = initial_staff)); [|done].
  intros rn ty n d now s H. unfold add_task. by destruct (get_room s rn).
Qed.

Lemma served_task_completes_witness :
  GUI.thread (GUI.run sample_gui (GUI.Tick 0 :: map GUI.Tick (repeat 0%nat 21)))
  = GUI.AtWhile
  /\ completed_tasks
       (GUI.scheduler (GUI.run sample_gui (GUI.Tick 0 :: map GUI.Tick (repeat 0%nat 21))))
     = (completed_tasks (GUI.scheduler sample_gui) ++ [2%nat])%list.
Proof.
  destruct (served_task_completes sample_gui 2%nat [1%nat; 0%nat] 0%nat
              (repeat 0%nat 21) wf_sample_gui staff_sample_gui
              ltac:(vm_compute; reflexivity) ltac:(vm_compute; reflexivity)
              ltac:(vm_compute; reflexivity) ltac:(vm_compute; reflexivity))
    as (H1 & _ & _ & H2 & _).
  split; [exact H1 | exact H2].
Defined.

Lemma step_not_raised rnd g :
  wf (GUI.scheduler g) -> in_flight_ok g ->
  staff_members (GUI.scheduler g) = initial_staff ->
  raised (GUI.thread g) = false -> raised (GUI.thread (GUI.step rnd g)) = false.
Proof.
  intros Hwf Hok Hstaff Hth. unfold GUI.step. destruct (GUI.thread g) eqn:Hpc.
  - by rewrite Hpc.
  - destruct (GUI.is_simulation_running g); [|done].
    destruct (get_scheduled_tasks (GUI.scheduler g)) as [|task l]; [done|].
    destruct (get_staff_in_pool (GUI.scheduler g)
                (Task.room_class (deref (GUI.scheduler g) task)) rnd Hstaff)
      as (staff & -> & _).
    cbn. unfold GUI.for_next. by case_match.
  - by destruct (GUI.is_simulation_running g).
  - cbn. unfold GUI.for_next. by case_match.
  - destruct (complete_spec task g Hwf)
      as (l1 & l2 & _ & _ & _ & _ & _ & _ & -> & _); [|done].
    apply (in_flight_ok_focus g); [done|]. unfold in_flight. by rewrite Hpc.
  - by rewrite Hpc.
  - done.
Qed.

Lemma not_raised_apply g e :
  wf (GUI.scheduler g) -> in_flight_ok g ->
  staff_members (GUI.scheduler g) = initial_staff ->
  (forall p, p ∈ threads g -> raised p = false) ->
  forall p, p ∈ threads (GUI.apply g e) -> raised p = false.
Proof.
  intros Hwf Hok Hstaff Hth p. destruct e; cbn [GUI.apply]; try apply Hth.
  - unfold threads. rewrite others_step. intros [-> | Hp]%elem_of_cons.
    + apply step_not_raised; [done|done|done|]. apply Hth, list_elem_of_here.
    + by apply Hth, list_elem_of_further.
  - unfold GUI.add_task. case_match; apply Hth.
  - intros [-> | Hp]%threads_start_simulation; [done | by apply Hth].
  - intros Hp%threads_switch. by apply Hth.
Qed.

(** X14: as long as at most one dispatch thread is running at any time and
    nobody clears the collections, no dispatch thread dies of an exception:
    from a well-formed state with the staff table of [__init__], along every
    such run (admissions, policy changes, stops, starts after the earlier
    thread has returned), neither the staff draw nor [tasks.remove(task)]
    raises. *)
Theorem dispatch_never_raises g es :
  wf (GUI.scheduler g) -> in_flight_ok g ->
  staff_members (GUI.scheduler g) = initial_staff ->
  (forall p, p ∈ threads g -> raised p = false) ->
  no_clear_all es = true ->
  one_thread g es = true ->
  forall p, p ∈ threads (GUI.run g es) -> raised p = false.
Proof.
  revert g. induction es as [|e es IH]; intros g Hwf Hok Hstaff Hth Hno Hone; [done|].
  cbn in Hno. apply andb_prop in Hno as [He Hes].
  apply one_thread_cons in Hone as [Hlive Hone].
  assert (Hne : e <> GUI.ClearAll) by (by intros ->).
  change (GUI.run g (e :: es)) with (GUI.run (GUI.apply g e) es).
  apply IH; [by apply wf_apply | by apply in_flight_ok_apply | | | exact Hes | exact Hone].
  - exact (staff_kept_run g [e] Hstaff).
  - by apply not_raised_apply.
Qed.

Lemma dispatch_never_raises_witness :
  no_clear_all (stop_then_restart ++ [GUI.Tick 0]) = true
  /\ one_thread sample_gui (stop_then_restart ++ [GUI.Tick 0]) = true
  /\ raised (GUI.thread (GUI.run sample_gui (stop_then_restart ++ [GUI.Tick 0])))
     = false.
Proof.
  split; [reflexivity|]. split; [vm_compute; reflexivity|].
  apply (dispatch_never_raises sample_gui (stop_then_restart ++ [GUI.Tick 0])
           wf_sample_gui in_flight_ok_sample_gui staff_sample_gui).
  - intros p Hp. apply list_elem_of_singleton in Hp as ->. reflexivity.
  - reflexivity.
  - vm_compute; reflexivity.
  - apply list_elem_of_here.
Defined.

(** What the handlers of the GUI thread, the stop and clear-all buttons
    apart, leave alone while the flag is set: flag, focus, threads and
    completed collection stay; the pending collection and the store can
    only get a new task at the end. *)
Lemma handler_frame g e :
  goes_on e = true -> (forall rnd, e <> GUI.Tick rnd) ->
  GUI.is_simulation_running g = true ->
  GUI.is_simulation_running (GUI.apply g e) = true
  /\ GUI.thread (GUI.apply g e) = GUI.thread g
  /\ completed_tasks (GUI.scheduler (GUI.apply g e)) = completed_tasks (GUI.scheduler g)
  /\ (forall r, r ∈ tasks (GUI.scheduler (GUI.apply g e)) ->
        r ∈ tasks (GUI.scheduler g) \/ r = length (objects (GUI.scheduler g)))
  /\ (length (objects (GUI.scheduler g))
      <= length (objects (GUI.scheduler (GUI.apply g e))))%nat
  /\ (forall r, (r < length (objects (GUI.scheduler g)))%nat ->
        deref (GUI.scheduler (GUI.apply g e)) r = deref (GUI.scheduler g) r).
Proof.
  intros Hgo Hnt Hflag.
  assert (Hadd : forall rn ty n d now,
            (forall r, r ∈ tasks (snd (add_task rn ty n d now (GUI.scheduler g))) ->
               r ∈ tasks (GUI.scheduler g) \/ r = length (objects (GUI.scheduler g)))
            /\ completed_tasks (snd (add_task rn ty n d now (GUI.scheduler g)))
               = completed_tasks (GUI.scheduler g)).
  { intros rn ty n d now. unfold add_task.
    destruct (get_room (GUI.scheduler g) rn); [|by split; [left|]].
    cbn [snd tasks completed_tasks]. split; [|done].
    intros r [Hr | Hr%list_elem_of_singleton]%elem_of_app; [by left | by right]. }
  destruct e; cbn [GUI.apply]; try discriminate Hgo.
  - by destruct (Hnt rnd).
  - destruct (Hadd room_number task_type estimated_time description now) as [H1 H2].
    cbn [GUI.is_simulation_running GUI.thread GUI.scheduler].
    split; [done|]. split; [done|]. split; [done|]. split; [done|].
    split; [apply length_add_task|]. intros r. apply deref_add_task_old.
  - unfold GUI.add_task. case_match.
    + split; [done|]. split; [done|]. split; [done|]. split; [by left|]. done.
    + destruct (Hadd room_number task_type estimated_time description now) as [H1 H2].
      cbn [GUI.is_simulation_running GUI.thread GUI.scheduler].
      split; [done|]. split; [done|]. split; [done|]. split; [done|].
      split; [apply length_add_task|]. intros r. apply deref_add_task_old.
  - unfold GUI.on_algorithm_change.
    cbn [GUI.is_simulation_running GUI.thread GUI.scheduler].
    split; [done|]. split; [done|].
    case_match; (split; [done|]); (split; [by left|]); done.
  - unfold GUI.start_simulation. rewrite Hflag.
    split; [done|]. split; [done|]. split; [done|]. split; [by left|]. done.
Qed.

Lemma steps_left_for_next task i n :
  steps_left (GUI.for_next task (i + 1) n) = (2 * Z.to_nat (n - (i + 1)) + 1)%nat.
Proof.
  unfold GUI.for_next. destruct (Z.ltb_spec (i + 1) n); cbn [steps_left]; lia.
Qed.

Lemma tick_or_handler e :
  (exists rnd, e = GUI.Tick rnd) \/ (forall rnd, e <> GUI.Tick rnd).
Proof. destruct e; eauto; right; intros; discriminate. Qed.

Lemma admitted_later_apply N g e :
  goes_on e = true -> (forall rnd, e <> GUI.Tick rnd) ->
  admitted_later N g -> admitted_later N (GUI.apply g e).
Proof.
  intros Hgo Hnt (Hwf & Hflag & HN & Hnew).
  destruct (handler_frame g e Hgo Hnt Hflag) as (H1 & _ & _ & H4 & H5 & _).
  split; [by apply wf_apply|]. split; [done|]. split; [lia|].
  intros r [Hr | ->]%H4; [by apply Hnew | done].
Qed.

Section ClearedTask.
(** [task] was stored before the clear-all, when the store held [N]
    tasks. *)
Variables (task : ref) (N : nat).
Hypothesis task_lt_N : (task < N)%nat.

(** Once the thread has died of the [ValueError], things stay as they
    are. *)
Lemma raised_stays es :
  forall g,
    admitted_later N g ->
    GUI.thread g = GUI.Raised (ValueError "list.remove(x): x not in list") ->
    completed_tasks (GUI.scheduler g) = [task] ->
    Task.status (deref (GUI.scheduler g) task) = "Completed" ->
    forallb goes_on es = true ->
    admitted_later N (GUI.run g es)
    /\ GUI.thread (GUI.run g es)
       = GUI.Raised (ValueError "list.remove(x): x not in list")
    /\ completed_tasks (GUI.scheduler (GUI.run g es)) = [task]
    /\ Task.status (deref (GUI.scheduler (GUI.run g es)) task) = "Completed".
Proof.
  induction es as [|e es IH]; intros g Hlater Hth Hcom Hst Hes; [done|].
  cbn [forallb] in Hes. apply andb_prop in Hes as [Hgo Hes].
  change (GUI.run g (e :: es)) with (GUI.run (GUI.apply g e) es).
  destruct (tick_or_handler e) as [[rnd ->] | Hnt].
  - cbn [GUI.apply]. rewrite step_stopped by (by rewrite Hth). by apply IH.
  - pose proof Hnt as Hnt'.
    destruct Hlater as (Hwf & Hflag & HN & Hnew).
    destruct (handler_frame g e Hgo Hnt' Hflag) as (_ & H2 & H3 & _ & _ & H6).
    apply IH; [by apply admitted_later_apply | congruence | congruence | | exact Hes].
    rewrite H6; [done|lia].
Qed.

(** While the thread serves [task], which is not pending any more, it goes
    on to the completion block and dies there. *)
Lemma cleared_task_raises es :
  forall g,
    admitted_later N g ->
    serving (GUI.thread g) = Some task ->
    completed_tasks (GUI.scheduler g) = [] ->
    forallb goes_on es = true ->
    (steps_left (GUI.thread g) <= ticks es)%nat ->
    admitted_later N (GUI.run g es)
    /\ GUI.thread (GUI.run g es)
       = GUI.Raised (ValueError "list.remove(x): x not in list")
    /\ completed_tasks (GUI.scheduler (GUI.run g es)) = [task]
    /\ Task.status (deref (GUI.scheduler (GUI.run g es)) task) = "Completed".
Proof.
  induction es as [|e es IH]; intros g Hlater Hs Hcom Hes Hsteps.
  { exfalso. destruct (GUI.thread g); try discriminate Hs; cbn in Hsteps; lia. }
  cbn [forallb] in Hes. apply andb_prop in Hes as [Hgo Hes].
  change (GUI.run g (e :: es)) with (GUI.run (GUI.apply g e) es).
  destruct (tick_or_handler e) as [[rnd ->] | Hnt].
  - assert (Hticks : ticks (GUI.Tick rnd :: es) = S (ticks es)) by reflexivity.
    rewrite Hticks in Hsteps. cbn [GUI.apply].
    destruct Hlater as (Hwf & Hflag & HN & Hnew).
    destruct (GUI.thread g) as [| |t i n|t i n|t| |] eqn:Hth; try discriminate Hs;
      injection Hs as ->.
    + assert (E : GUI.step rnd g
                  = GUI.mk (GUI.scheduler g) true (GUI.InIncrement task i n)
                      (GUI.shown g) (GUI.others g)).
      { unfold GUI.step. by rewrite Hth, Hflag. }
      rewrite E. apply IH; [done|done|done|exact Hes|].
      cbn [GUI.thread steps_left] in Hsteps |- *. lia.
    + assert (E : GUI.step rnd g
                  = GUI.mk (GUI.scheduler g) true (GUI.for_next task (i + 1) n)
                      (GUI.shown g) (GUI.others g)).
      { unfold GUI.step. by rewrite Hth, Hflag. }
      rewrite E. apply IH; [done|apply serving_for_next|done|exact Hes|].
      cbn [GUI.thread]. rewrite steps_left_for_next. cbn [steps_left] in Hsteps. lia.
    + assert (E : GUI.step rnd g = GUI.complete task g).
      { unfold GUI.step. by rewrite Hth. }
      rewrite E.
      destruct (complete_absent task g Hwf) as (H1 & H2 & H3 & _ & H5 & _); [lia| |].
      { intros Hin. apply Hnew in Hin. lia. }
      assert (Hlen : length (objects (GUI.scheduler (GUI.complete task g)))
                     = length (objects (GUI.scheduler g)))
        by (by rewrite H3, length_insert).
      apply raised_stays; [|exact H5|by rewrite H2, Hcom| |exact Hes].
      * split; [by apply wf_complete|]. split.
        { unfold GUI.complete. by case_match. }
        split; [lia|]. intros r. rewrite H1. apply Hnew.
      * unfold deref. rewrite H3, list_lookup_insert_eq; [done|lia].
  - pose proof Hnt as Hnt'.
    assert (Hticks : ticks (e :: es) = ticks es).
    { unfold ticks. cbn [List.filter]. destruct e; try done. by destruct (Hnt' rnd). }
    rewrite Hticks in Hsteps.
    pose proof (admitted_later_apply N g e Hgo Hnt' Hlater) as Hlater'.
    destruct Hlater as (Hwf & Hflag & HN & Hnew).
    destruct (handler_frame g e Hgo Hnt' Hflag) as (_ & H2 & H3 & _ & _ & _).
    apply IH; [done | by rewrite H2 | by rewrite H3 | exact Hes | by rewrite H2].
Qed.
End ClearedTask.

(** X15: clear-all pressed while a task is being served kills the dispatch
    thread unless the stop button is pressed in time.  The thread may stand
    at the flag test of a progress increment, sleep inside an increment or
    stand before the completion block.  As long as the flag stays set,
    whatever else the GUI thread does meanwhile (admissions, policy
    changes, the start button), once the thread has taken the steps that
    remain to it, it has gone through the rest of the progress loop, marked
    the task Completed, appended it to the completed collection that was
    just emptied, and died of the [ValueError] that [tasks.remove(task)]
    raises, since the pending collection no longer holds the task: it holds
    only tasks admitted after the clear-all. *)
Theorem clear_while_serving g task es :
  wf (GUI.scheduler g) ->
  GUI.is_simulation_running g = true ->
  in_flight g = Some task ->
  (task < length (objects (GUI.scheduler g)))%nat ->
  forallb goes_on es = true ->
  (steps_left (GUI.thread g) <= ticks es)%nat ->
  GUI.thread (GUI.run g (GUI.ClearAll :: es))
  = GUI.Raised (ValueError "list.remove(x): x not in list")
  /\ completed_tasks (GUI.scheduler (GUI.run g (GUI.ClearAll :: es))) = [task]
  /\ Task.status (deref (GUI.scheduler (GUI.run g (GUI.ClearAll :: es))) task)
     = "Completed"
  /\ (task ∉ tasks (GUI.scheduler (GUI.run g (GUI.ClearAll :: es))))
  /\ (forall r, r ∈ tasks (GUI.scheduler (GUI.run g (GUI.ClearAll :: es))) ->
        (length (objects (GUI.scheduler g)) <= r)%nat)
  /\ GUI.is_simulation_running (GUI.run g (GUI.ClearAll :: es)) = true.
Proof.
  intros Hwf Hflag Hfl Hlt Hes Hsteps.
  change (GUI.run g (GUI.ClearAll :: es)) with (GUI.run (GUI.clear_all_tasks g) es).
  destruct (cleared_task_raises task (length (objects (GUI.scheduler g))) Hlt es
              (GUI.clear_all_tasks g))
    as ((_ & Hflag' & _ & Hnew) & Hth & Hcom & Hst); [|done|done|exact Hes|done|].
  { split.
    - cbn. apply wf_set_completed_tasks, wf_set_tasks; [|done].
      by intros r ?%elem_of_nil.
    - split; [done|]. split; [done|]. by intros r ?%elem_of_nil. }
  split; [exact Hth|]. split; [exact Hcom|]. split; [exact Hst|].
  split; [|split; [exact Hnew | exact Hflag']].
  intros Hin. apply Hnew in Hin. lia.
Qed.

(** Clear-all comes while the thread sleeps in the fourth increment of the
    sample task for room 710; a request for room 101 is admitted before the
    thread goes on. *)
Lemma clear_while_serving_witness :
  GUI.thread (GUI.run sample_gui (repeat (GUI.Tick 0) 8)) = GUI.InIncrement 2%nat 3 10
  /\ GUI.thread
       (GUI.run (GUI.run sample_gui (repeat (GUI.Tick 0) 8))
          (GUI.ClearAll
             :: GUI.Admit "101" "Housekeeping" 5 "Fresh towels" 4
             :: repeat (GUI.Tick 0) 14))
     = GUI.Raised (ValueError "list.remove(x): x not in list")
  /\ completed_tasks
       (GUI.scheduler
          (GUI.run (GUI.run sample_gui (repeat (GUI.Tick 0) 8))
             (GUI.ClearAll
                :: GUI.Admit "101" "Housekeeping" 5 "Fresh towels" 4
                :: repeat (GUI.Tick 0) 14)))
     = [2%nat].
Proof.
  split; [vm_compute; reflexivity|].
  destruct (clear_while_serving (GUI.run sample_gui (repeat (GUI.Tick 0) 8)) 2%nat
              (GUI.Admit "101" "Housekeeping" 5 "Fresh towels" 4
                 :: repeat (GUI.Tick 0) 14))
    as (H1 & H2 & _).
  - apply wf_run, wf_sample_gui.
  - vm_compute; reflexivity.
  - vm_compute; reflexivity.
  - vm_compute. lia.
  - reflexivity.
  - vm_compute. lia.
  - split; [exact H1 | exact H2].
Defined.

(** ** Which task is served next *)

Lemma head_is_least {A} (R : A -> A -> Prop) (l l' : list A) x rest :
  (forall a, R a a) -> StronglySorted R l -> l = x :: rest -> l ≡ₚ l' ->
  forall r, r ∈ l' -> R x r.
Proof.
  intros Hrefl Hs -> Hp r Hr. rewrite <- Hp in Hr.
  apply StronglySorted_inv in Hs as [_ Hall]. rewrite Forall_forall in Hall.
  apply elem_of_cons in Hr as [->|Hr]; [apply Hrefl | by apply Hall].
Qed.

(** X16: at the loop head, with the flag set, a known policy and something
    pending, the thread picks a pending task that is first in the order of
    the policy: under Priority and Round Robin no pending task has a lower
    rank, or the same rank and an earlier timestamp; under SJF none has a
    shorter estimate, or the same estimate and a better rank, or both the
    same and an earlier timestamp; under FCFS none has an earlier timestamp.
    The task is shown as the current one and gets its staff member. *)
Theorem next_task_is_first_in_order g rnd :
  wf (GUI.scheduler g) ->
  staff_members (GUI.scheduler g) = initial_staff ->
  GUI.is_simulation_running g = true ->
  GUI.thread g = GUI.AtWhile ->
  current_algorithm (GUI.scheduler g) ∈ policies ->
  pending (GUI.scheduler g) <> [] ->
  exists task,
    in_flight (GUI.step rnd g) = Some task
    /\ GUI.shown (GUI.step rnd g) = Some task
    /\ task ∈ pending (GUI.scheduler g)
    /\ get_staff_for_room_class (GUI.scheduler g)
         (Task.room_class (deref (GUI.scheduler g) task)) rnd
       = inr (Task.assigned_staff (deref (GUI.scheduler (GUI.step rnd g)) task))
    /\ (current_algorithm (GUI.scheduler g) = "Priority"
        \/ current_algorithm (GUI.scheduler g) = "Round Robin" ->
        forall r, r ∈ pending (GUI.scheduler g) -> priority_le (GUI.scheduler g) task r)
    /\ (current_algorithm (GUI.scheduler g) = "SJF" ->
        forall r, r ∈ pending (GUI.scheduler g) -> sjf_le (GUI.scheduler g) task r)
    /\ (current_algorithm (GUI.scheduler g) = "FCFS" ->
        forall r, r ∈ pending (GUI.scheduler g) ->
                  stamp (GUI.scheduler g) task <= stamp (GUI.scheduler g) r).
Proof.
  intros Hwf Hstaff Hflag Hth Halg Hpend. set (s := GUI.scheduler g) in *.
  pose proof (get_scheduled_tasks_known s Halg) as Hperm.
  destruct (get_scheduled_tasks s) as [|task rest] eqn:Hsch.
  { apply Permutation_nil in Hperm. done. }
  destruct (get_staff_in_pool s (Task.room_class (deref s task)) rnd Hstaff)
    as (staff & Hget & _).
  assert (Hin : task ∈ pending s) by (rewrite <- Hperm; apply list_elem_of_here).
  assert (Hlt : (task < length (objects s))%nat).
  { apply (wf_refs _ Hwf). by apply pending_elem in Hin as [Hin _]. }
  assert (Hstep : GUI.step rnd g
                  = GUI.mk (set_object task (Task.set_assigned_staff staff) s) true
                      (GUI.for_next task 0 (Task.estimated_time (deref s task)))
                      (Some task) (GUI.others g)).
  { unfold GUI.step. rewrite Hth, Hflag. fold s. rewrite Hsch. by rewrite Hget. }
  exists task. rewrite Hstep. split; [apply in_flight_for_next|].
  split; [done|]. split; [done|]. split.
  { cbn [GUI.scheduler]. by rewrite deref_set_object_eq. }
  split; [|split].
  - intros Hp.
    assert (E : priority_schedule s = task :: rest).
    { rewrite <- Hsch. unfold get_scheduled_tasks. by destruct Hp as [->| ->]. }
    apply (head_is_least (priority_le s) (priority_schedule s) (pending s) task rest);
      [|apply priority_schedule_sorted|done|apply sorted_Permutation].
    intros a. right. split; [done|lia].
  - intros Hp.
    assert (E : sjf_schedule s = task :: rest).
    { rewrite <- Hsch. unfold get_scheduled_tasks. by rewrite Hp. }
    apply (head_is_least (sjf_le s) (sjf_schedule s) (pending s) task rest);
      [|apply sjf_schedule_sorted|done|apply sorted_Permutation].
    intros a. right. split; [done|]. right. split; [done|lia].
  - intros Hp.
    assert (E : fcfs_schedule s = task :: rest).
    { rewrite <- Hsch. unfold get_scheduled_tasks. by rewrite Hp. }
    apply (head_is_least (fun a b => stamp s a <= stamp s b) (fcfs_schedule s)
             (pending s) task rest);
      [|apply fcfs_schedule_sorted|done|apply sorted_Permutation].
    intros a. lia.
Qed.

Lemma next_task_is_first_in_order_witness :
  exists task,
    in_flight (GUI.step 0 sample_gui) = Some task
    /\ forall r, r ∈ pending (GUI.scheduler sample_gui) ->
                 priority_le (GUI.scheduler sample_gui) task r.
Proof.
  assert (Halg : current_algorithm (GUI.scheduler sample_gui) = "Priority")
    by (vm_compute; reflexivity).
  destruct (next_task_is_first_in_order sample_gui 0 wf_sample_gui staff_sample_gui
              ltac:(vm_compute; reflexivity) ltac:(vm_compute; reflexivity))
    as (task & H1 & _ & _ & _ & H2 & _).
  - rewrite Halg. unfold policies. apply list_elem_of_further, list_elem_of_here.
  - intros H. vm_compute in H. discriminate.
  - exists task. split; [exact H1|]. apply H2. by left.
Defined.

(** ** Status and collections *)

(** What the completion block leaves in the store. *)
Lemma deref_completed_store task l s r :
  (task < length (objects s))%nat ->
  deref (set_completed_tasks l
           (set_object task (fun x => Task.set_actual_time (Task.estimated_time x) x)
              (set_object task (Task.set_status "Completed") s))) r
  = if decide (r = task)
    then Task.set_actual_time (Task.estimated_time (deref s task))
           (Task.set_status "Completed" (deref s task))
    else deref s r.
Proof.
  intros Hlt.
  set (s1 := set_object task (Task.set_status "Completed") s).
  change (deref (set_completed_tasks l ?s0) r) with (deref s0 r).
  case_decide as Hr.
  - subst r. rewrite deref_set_object_eq
      by (unfold s1; cbn [set_object objects]; by rewrite length_insert).
    unfold s1. by rewrite deref_set_object_eq.
  - rewrite deref_set_object_ne by done. unfold s1. by rewrite deref_set_object_ne.
Qed.

Lemma length_completed_store task l s :
  length (objects (set_completed_tasks l
            (set_object task (fun x => Task.set_actual_time (Task.estimated_time x) x)
               (set_object task (Task.set_status "Completed") s))))
  = length (objects s).
Proof. cbn [set_completed_tasks set_object objects]. by rewrite !length_insert. Qed.

Lemma collections_ok_complete task g :
  wf (GUI.scheduler g) -> collections_ok g -> GUI.thread g = GUI.AtComplete task ->
  collections_ok (GUI.complete task g).
Proof.
  intros Hwf (Hnd & Hpen & Hcom & Hfl) Hth.
  assert (Hlt : (task < length (objects (GUI.scheduler g)))%nat).
  { apply (Hfl (GUI.thread g)); [apply list_elem_of_here | by rewrite Hth]. }
  unfold GUI.complete.
  set (s3 := set_completed_tasks _ _).
  assert (Hwf3 : wf s3).
  { apply wf_set_completed_tasks, wf_set_object; [done|].
    apply wf_set_object; done. }
  assert (Hd : forall r, deref s3 r
                 = if decide (r = task)
                   then Task.set_actual_time
                          (Task.estimated_time (deref (GUI.scheduler g) task))
                          (Task.set_status "Completed" (deref (GUI.scheduler g) task))
                   else deref (GUI.scheduler g) r).
  { intros r. by apply deref_completed_store. }
  assert (Hlen : length (objects s3) = length (objects (GUI.scheduler g)))
    by apply length_completed_store.
  assert (Hc3 : forall r, r ∈ completed_tasks s3 ->
                  (r < length (objects s3))%nat
                  /\ Task.status (deref s3 r) = "Completed"
                  /\ Task.actual_time (deref s3 r) = Task.estimated_time (deref s3 r)).
  { intros r Hr. rewrite Hlen, Hd. cbn [s3 set_completed_tasks completed_tasks] in Hr.
    change (completed_tasks (set_object _ _ _)) with (completed_tasks (GUI.scheduler g))
      in Hr.
    case_decide as E; [subst r; by split|].
    apply elem_of_app in Hr as [Hr|Hr]; [by apply Hcom|].
    apply list_elem_of_singleton in Hr. done. }
  assert (Ht3 : tasks s3 = tasks (GUI.scheduler g)) by done.
  destruct (decide (task ∈ tasks (GUI.scheduler g))) as [Hin|Hout].
  - destruct (list_remove_spec s3 task (tasks s3) Hwf3 (wf_refs _ Hwf3))
      as (l1 & l2 & Ht & Hnot & ->); [by rewrite Ht3|].
    rewrite Ht3 in Ht. rewrite Ht in Hnd, Hpen.
    apply NoDup_app in Hnd as (Hnd1 & Hd12 & Hnd2).
    apply NoDup_cons in Hnd2 as [Hnot2 Hnd2].
    split; [|split; [|split]]; cbn [GUI.scheduler set_tasks tasks completed_tasks objects].
    + apply NoDup_app. split; [done|]. split; [|done].
      intros r Hr1 Hr2. apply (Hd12 r Hr1). by apply list_elem_of_further.
    + intros r Hr. change (deref (set_tasks _ s3) r) with (deref s3 r).
      rewrite Hd. case_decide as E.
      * subst r. apply elem_of_app in Hr as [Hr|Hr]; done.
      * apply Hpen. apply elem_of_app in Hr as [Hr|Hr]; apply elem_of_app;
          [by left|right; by apply list_elem_of_further].
    + intros r Hr. apply (Hc3 r Hr).
    + intros p t [-> | Hp]%elem_of_cons Hs; [done|].
      rewrite Hlen. apply (Hfl p); [by apply list_elem_of_further | done].
  - rewrite (list_remove_absent s3 task (tasks s3) Hwf3 (wf_refs _ Hwf3));
      [|by rewrite Hlen|by rewrite Ht3].
    split; [|split; [|split]]; cbn [GUI.scheduler].
    + by rewrite Ht3.
    + intros r Hr. rewrite Ht3 in Hr. rewrite Hd. case_decide as E; [by subst r|].
      by apply Hpen.
    + exact Hc3.
    + intros p t [-> | Hp]%elem_of_cons Hs; [done|].
      rewrite Hlen. apply (Hfl p); [by apply list_elem_of_further | done].
Qed.

Lemma deref_set_object_cases r f s r' :
  deref (set_object r f s) r' = deref s r'
  \/ deref (set_object r f s) r' = f (deref s r').
Proof.
  destruct (decide (r = r')) as [<-|Hne]; [|left; by apply deref_set_object_ne].
  destruct (decide (r < length (objects s))%nat) as [Hlt|Hge].
  - right. by apply deref_set_object_eq.
  - left. unfold deref. cbn [set_object objects]. rewrite list_insert_ge; [done|lia].
Qed.

Lemma collections_ok_add_task rn ty n d now g :
  wf (GUI.scheduler g) -> collections_ok g ->
  collections_ok
    (GUI.mk (snd (add_task rn ty n d now (GUI.scheduler g)))
       (GUI.is_simulation_running g) (GUI.thread g) (GUI.shown g)
       (GUI.others g)).
Proof.
  intros Hwf (Hnd & Hpen & Hcom & Hfl).
  pose proof (length_add_task rn ty n d now (GUI.scheduler g)) as Hlen.
  assert (Hrest :
    (forall r, r ∈ completed_tasks (snd (add_task rn ty n d now (GUI.scheduler g))) ->
       (r < length (objects (snd (add_task rn ty n d now (GUI.scheduler g)))))%nat
       /\ Task.status (deref (snd (add_task rn ty n d now (GUI.scheduler g))) r)
          = "Completed"
       /\ Task.actual_time (deref (snd (add_task rn ty n d now (GUI.scheduler g))) r)
          = Task.estimated_time
              (deref (snd (add_task rn ty n d now (GUI.scheduler g))) r))
    /\ (forall p task, p ∈ threads g -> serving p = Some task ->
          (task < length (objects (snd (add_task rn ty n d now (GUI.scheduler g)))))%nat)).
  { split.
    - intros r Hr.
      assert (Hr' : r ∈ completed_tasks (GUI.scheduler g)).
      { revert Hr. unfold add_task. by destruct (get_room (GUI.scheduler g) rn). }
      destruct (Hcom r Hr') as (Hlt & Hs & Ha).
      rewrite deref_add_task_old by done. split; [lia|done].
    - intros p task Hp Ht. specialize (Hfl p task Hp Ht). lia. }
  destruct Hrest as [Hcom' Hfl'].
  split; [|split; [|split]]; cbn [GUI.scheduler]; [| |exact Hcom'|exact Hfl'].
  - unfold add_task. destruct (get_room (GUI.scheduler g) rn); [|done].
    cbn [snd tasks]. apply NoDup_app. split; [done|]. split; [|apply NoDup_singleton].
    intros r Hr Hr'. apply list_elem_of_singleton in Hr' as ->.
    apply (wf_refs _ Hwf) in Hr. lia.
  - intros r Hr.
    destruct (get_room (GUI.scheduler g) rn) as [room|] eqn:Hroom.
    + rewrite (add_task_Some _ ty n d now _ _ Hroom) in Hr |- *.
      cbn [snd tasks] in Hr. apply elem_of_app in Hr as [Hr|Hr].
      * pose proof (deref_add_task_old rn ty n d now (GUI.scheduler g) r
                      (wf_refs _ Hwf r Hr)) as E.
        rewrite (add_task_Some _ ty n d now _ _ Hroom) in E. rewrite E.
        by apply Hpen.
      * apply list_elem_of_singleton in Hr as ->.
        cbn [snd]. by erewrite deref_app_new by reflexivity.
    + rewrite (add_task_None _ ty n d now _ Hroom) in Hr |- *. by apply Hpen.
Qed.

(** The tasks being served are stored tasks after a step that swaps the
    thread in focus for [p'] and keeps the size of the store. *)
Lemma stored_step (g : GUI.t) s' b p' sh :
  length (objects s') = length (objects (GUI.scheduler g)) ->
  (forall p t, p ∈ threads g -> serving p = Some t ->
     (t < length (objects (GUI.scheduler g)))%nat) ->
  (forall t, serving p' = Some t -> (t < length (objects (GUI.scheduler g)))%nat) ->
  forall p t, p ∈ threads (GUI.mk s' b p' sh (GUI.others g)) -> serving p = Some t ->
    (t < length (objects s'))%nat.
Proof.
  intros Hlen Hfl Hp' p t [-> | Hp]%elem_of_cons Hs; rewrite Hlen.
  - by apply Hp'.
  - apply (Hfl p); [by apply list_elem_of_further | done].
Qed.

Lemma collections_ok_step rnd g :
  wf (GUI.scheduler g) -> collections_ok g -> collections_ok (GUI.step rnd g).
Proof.
  intros Hwf Hok. unfold GUI.step. destruct (GUI.thread g) eqn:Hth; try done.
  - destruct Hok as (Hnd & Hpen & Hcom & Hfl).
    destruct (GUI.is_simulation_running g);
      [|split; [done|split; [done|split; [done|by apply stored_step]]]].
    destruct (get_scheduled_tasks (GUI.scheduler g)) as [|task l] eqn:Hsch;
      [split; [done|split; [done|split; [done|by apply stored_step]]]|].
    destruct (get_staff_for_room_class _ _ _) as [e|staff];
      [split; [done|split; [done|split; [done|by apply stored_step]]]|].
    assert (Hin : task ∈ tasks (GUI.scheduler g)).
    { apply (scheduled_elem (GUI.scheduler g)). rewrite Hsch. apply list_elem_of_here. }
    assert (Hf : forall r, Task.status
                     (deref (set_object task (Task.set_assigned_staff staff)
                               (GUI.scheduler g)) r)
                   = Task.status (deref (GUI.scheduler g) r)
                   /\ Task.actual_time
                        (deref (set_object task (Task.set_assigned_staff staff)
                                  (GUI.scheduler g)) r)
                      = Task.actual_time (deref (GUI.scheduler g) r)
                   /\ Task.estimated_time
                        (deref (set_object task (Task.set_assigned_staff staff)
                                  (GUI.scheduler g)) r)
                      = Task.estimated_time (deref (GUI.scheduler g) r)).
    { intros r.
      destruct (deref_set_object_cases task (Task.set_assigned_staff staff)
                  (GUI.scheduler g) r) as [-> | ->]; done. }
    split; [|split; [|split]]; cbn [GUI.scheduler set_object tasks completed_tasks].
    + done.
    + intros r Hr. rewrite (proj1 (Hf r)). by apply Hpen.
    + intros r Hr. destruct (Hf r) as (-> & -> & ->).
      cbn [set_object objects]. rewrite length_insert. by apply Hcom.
    + apply stored_step;
        [cbn [set_object objects]; by rewrite length_insert | exact Hfl |].
      intros t. rewrite serving_for_next. intros [= <-]. by apply (wf_refs _ Hwf).
  - destruct Hok as (Hnd & Hpen & Hcom & Hfl).
    destruct (GUI.is_simulation_running g);
      (split; [done|split; [done|split; [done|]]]);
      (apply stored_step; [done | exact Hfl |]); [|done].
    intros t [= <-]. apply (Hfl (GUI.thread g)); [apply list_elem_of_here|].
    by rewrite Hth.
  - destruct Hok as (Hnd & Hpen & Hcom & Hfl).
    split; [done|split; [done|split; [done|]]].
    apply stored_step; [done | exact Hfl |].
    intros t. rewrite serving_for_next. intros [= <-].
    apply (Hfl (GUI.thread g)); [apply list_elem_of_here|]. by rewrite Hth.
  - by apply collections_ok_complete.
Qed.

Lemma collections_ok_apply g e :
  wf (GUI.scheduler g) -> collections_ok g -> collections_ok (GUI.apply g e).
Proof.
  intros Hwf Hok. destruct e; cbn [GUI.apply].
  - by apply collections_ok_step.
  - by apply collections_ok_add_task.
  - unfold GUI.add_task. case_match; [done|]. by apply collections_ok_add_task.
  - destruct Hok as (Hnd & Hpen & Hcom & Hfl).
    unfold GUI.on_algorithm_change.
    case_match; exact (conj Hnd (conj Hpen (conj Hcom Hfl))).
  - destruct Hok as (Hnd & Hpen & Hcom & Hfl).
    split; [apply NoDup_nil_2|]. split; [by intros r ?%elem_of_nil|].
    split; [by intros r ?%elem_of_nil|]. exact Hfl.
  - exact Hok.
  - destruct Hok as (Hnd & Hpen & Hcom & Hfl).
    unfold collections_ok. rewrite scheduler_start_simulation.
    split; [done|split; [done|split; [done|]]].
    intros p t [-> | Hp]%threads_start_simulation Hs; [done | by apply (Hfl p)].
  - destruct Hok as (Hnd & Hpen & Hcom & Hfl).
    unfold collections_ok. rewrite scheduler_switch.
    split; [done|split; [done|split; [done|]]].
    intros p t Hp%threads_switch Hs. by apply (Hfl p).
Qed.

Lemma collections_ok_run g es :
  wf (GUI.scheduler g) -> collections_ok g -> collections_ok (GUI.run g es).
Proof.
  revert g. induction es as [|e es IH]; intros g Hwf Hok; [done|].
  change (GUI.run g (e :: es)) with (GUI.run (GUI.apply g e) es).
  apply IH; [by apply wf_apply | by apply collections_ok_apply].
Qed.

Lemma filter_all {A} (f : A -> bool) (l : list A) :
  (forall x, x ∈ l -> f x = true) -> List.filter f l = l.
Proof.
  induction l as [|x l IH]; intros H; [done|]. cbn.
  rewrite (H x) by apply list_elem_of_here. f_equal. apply IH.
  intros y Hy. apply H. by apply list_elem_of_further.
Qed.

(** X17: the collections stay in order through every run, clear-all
    included: no task is pending twice; every task of the pending
    collection has status Pending, so the schedules and the pending table
    work on the whole collection; every completed task has status
    Completed and an actual time equal to its estimated time; and no task
    is pending and completed at once. *)
Theorem collections_stay_in_order g es :
  wf (GUI.scheduler g) -> collections_ok g ->
  NoDup (tasks (GUI.scheduler (GUI.run g es)))
  /\ (forall r, r ∈ tasks (GUI.scheduler (GUI.run g es)) ->
        Task.status (deref (GUI.scheduler (GUI.run g es)) r) = "Pending")
  /\ pending (GUI.scheduler (GUI.run g es)) = tasks (GUI.scheduler (GUI.run g es))
  /\ (forall r, r ∈ completed_tasks (GUI.scheduler (GUI.run g es)) ->
        Task.status (deref (GUI.scheduler (GUI.run g es)) r) = "Completed"
        /\ Task.actual_time (deref (GUI.scheduler (GUI.run g es)) r)
           = Task.estimated_time (deref (GUI.scheduler (GUI.run g es)) r))
  /\ (forall r, r ∈ tasks (GUI.scheduler (GUI.run g es)) ->
        r ∉ completed_tasks (GUI.scheduler (GUI.run g es))).
Proof.
  intros Hwf Hok.
  destruct (collections_ok_run g es Hwf Hok) as (Hnd & Hpen & Hcom & _).
  split; [done|]. split; [done|]. split; [|split].
  - unfold pending. apply filter_all. intros r Hr. rewrite (Hpen r Hr). done.
  - intros r Hr. by destruct (Hcom r Hr) as (_ & ? & ?).
  - intros r Hr Hr'. destruct (Hcom r Hr') as (_ & Hs & _).
    rewrite (Hpen r Hr) in Hs. discriminate.
Qed.

Lemma collections_stay_in_order_witness :
  pending
    (GUI.scheduler
       (GUI.run (GUI.mk HotelScheduler.init true GUI.AtWhile None [])
          [GUI.Admit "710" "Butler Service" 1 "Evening service" 1;
           GUI.Tick 0; GUI.Tick 0; GUI.Tick 0; GUI.Tick 0;
           GUI.Admit "101" "Housekeeping" 5 "Fresh towels" 2; GUI.ClearAll]))
  = tasks
      (GUI.scheduler
         (GUI.run (GUI.mk HotelScheduler.init true GUI.AtWhile None [])
            [GUI.Admit "710" "Butler Service" 1 "Evening service" 1;
             GUI.Tick 0; GUI.Tick 0; GUI.Tick 0; GUI.Tick 0;
             GUI.Admit "101" "Housekeeping" 5 "Fresh towels" 2; GUI.ClearAll])).
Proof.
  assert (H0 : collections_ok (GUI.mk HotelScheduler.init true GUI.AtWhile None [])).
  { split; [apply NoDup_nil_2|]. split; [by intros r ?%elem_of_nil|].
    split; [by intros r ?%elem_of_nil|].
    intros p t Hp Hs. apply list_elem_of_singleton in Hp as ->. discriminate. }
  destruct (collections_stay_in_order
              (GUI.mk HotelScheduler.init true GUI.AtWhile None [])
              [GUI.Admit "710" "Butler Service" 1 "Evening service" 1;
               GUI.Tick 0; GUI.Tick 0; GUI.Tick 0; GUI.Tick 0;
               GUI.Admit "101" "Housekeeping" 5 "Fresh towels" 2; GUI.ClearAll]
              wf_init H0) as (_ & _ & H & _).
  exact H.
Defined.

(** ** Stopping *)

Lemma stopped_after_complete task a g :
  GUI.is_simulation_running g = false ->
  stopped (GUI.thread (GUI.step a (GUI.complete task g))) = true
  /\ GUI.is_simulation_running (GUI.step a (GUI.complete task g)) = false
  /\ completed_tasks (GUI.scheduler (GUI.step a (GUI.complete task g)))
     = (completed_tasks (GUI.scheduler g) ++ [task])%list.
Proof.
  intros Hflag. unfold GUI.complete. case_match.
  - unfold GUI.step. cbn. by rewrite Hflag.
  - unfold GUI.step. cbn. by rewrite Hflag.
Qed.

(** X18: a stop is seen within three program points: once the flag is
    cleared, after at most three steps of the dispatch thread the thread has
    returned (or was not running), and it stays so.  At most one task is
    completed on the way, the one in flight, and only if the thread was
    already past the flag test of its last progress increment. *)
Theorem stop_is_seen_within_three_steps g a b c rs :
  GUI.is_simulation_running g = false ->
  stopped (GUI.thread (GUI.run g (GUI.Tick a :: GUI.Tick b :: GUI.Tick c :: map GUI.Tick rs)))
  = true
  /\ GUI.run g (GUI.Tick a :: GUI.Tick b :: GUI.Tick c :: map GUI.Tick rs)
     = GUI.run g [GUI.Tick a; GUI.Tick b; GUI.Tick c]
  /\ (completed_tasks
        (GUI.scheduler (GUI.run g (GUI.Tick a :: GUI.Tick b :: GUI.Tick c :: map GUI.Tick rs)))
      = completed_tasks (GUI.scheduler g)
      \/ exists task,
           (GUI.thread g = GUI.AtComplete task
            \/ exists i n, GUI.thread g = GUI.InIncrement task i n /\ n <= i + 1)
           /\ completed_tasks
                (GUI.scheduler
                   (GUI.run g (GUI.Tick a :: GUI.Tick b :: GUI.Tick c :: map GUI.Tick rs)))
              = (completed_tasks (GUI.scheduler g) ++ [task])%list).
Proof.
  intros Hflag.
  assert (Hmain :
    stopped (GUI.thread (GUI.step c (GUI.step b (GUI.step a g)))) = true
    /\ (completed_tasks (GUI.scheduler (GUI.step c (GUI.step b (GUI.step a g))))
        = completed_tasks (GUI.scheduler g)
        \/ exists task,
             (GUI.thread g = GUI.AtComplete task
              \/ exists i n, GUI.thread g = GUI.InIncrement task i n /\ n <= i + 1)
             /\ completed_tasks (GUI.scheduler (GUI.step c (GUI.step b (GUI.step a g))))
                = (completed_tasks (GUI.scheduler g) ++ [task])%list)).
  { destruct (GUI.thread g) eqn:Hth.
    - rewrite (step_stopped a g), (step_stopped b g), (step_stopped c g)
        by (by rewrite Hth).
      rewrite Hth. by split; [|left].
    - assert (E : GUI.step a g = GUI.mk (GUI.scheduler g) false GUI.Returned None (GUI.others g)).
      { unfold GUI.step. by rewrite Hth, Hflag. }
      rewrite E, !step_stopped by done. by split; [|left].
    - assert (E : GUI.step a g = GUI.mk (GUI.scheduler g) false GUI.Returned None (GUI.others g)).
      { unfold GUI.step. by rewrite Hth, Hflag. }
      rewrite E, !step_stopped by done. by split; [|left].
    - assert (E : GUI.step a g
                  = GUI.mk (GUI.scheduler g) false (GUI.for_next task (i + 1) n)
                      (GUI.shown g) (GUI.others g)).
      { unfold GUI.step. by rewrite Hth, Hflag. }
      rewrite E. unfold GUI.for_next. destruct (Z.ltb_spec (i + 1) n).
      + assert (E2 : GUI.step b (GUI.mk (GUI.scheduler g) false
                                  (GUI.AtCheck task (i + 1) n) (GUI.shown g) (GUI.others g))
                     = GUI.mk (GUI.scheduler g) false GUI.Returned None (GUI.others g)) by done.
        rewrite E2, step_stopped by done. by split; [|left].
      + change (GUI.step b (GUI.mk (GUI.scheduler g) false (GUI.AtComplete task)
                              (GUI.shown g) (GUI.others g)))
          with (GUI.complete task (GUI.mk (GUI.scheduler g) false (GUI.AtComplete task)
                                     (GUI.shown g) (GUI.others g))).
        destruct (stopped_after_complete task c
                    (GUI.mk (GUI.scheduler g) false (GUI.AtComplete task) (GUI.shown g) (GUI.others g))
                    eq_refl) as (H1 & _ & H3).
        split; [exact H1|]. right. exists task. split; [|exact H3].
        right. exists i, n. split; [done|lia].
    - change (GUI.step a g) with (GUI.step a g).
      assert (E : GUI.step a g = GUI.complete task g).
      { unfold GUI.step. by rewrite Hth. }
      rewrite E.
      destruct (stopped_after_complete task b g Hflag) as (H1 & _ & H3).
      rewrite step_stopped by exact H1.
      split; [exact H1|]. right. exists task. split; [by left|exact H3].
    - rewrite (step_stopped a g), (step_stopped b g), (step_stopped c g)
        by (by rewrite Hth).
      rewrite Hth. by split; [|left].
    - rewrite (step_stopped a g), (step_stopped b g), (step_stopped c g)
        by (by rewrite Hth).
      rewrite Hth. by split; [|left]. }
  destruct Hmain as [Hst Hcomp].
  assert (Hrun : GUI.run g (GUI.Tick a :: GUI.Tick b :: GUI.Tick c :: map GUI.Tick rs)
                 = GUI.step c (GUI.step b (GUI.step a g))).
  { change (GUI.run g (GUI.Tick a :: GUI.Tick b :: GUI.Tick c :: map GUI.Tick rs))
      with (GUI.run (GUI.step c (GUI.step b (GUI.step a g))) (map GUI.Tick rs)).
    induction rs as [|r rs IH]; [done|].
    change (GUI.run ?g0 (map GUI.Tick (r :: rs)))
      with (GUI.run (GUI.step r g0) (map GUI.Tick rs)).
    by rewrite step_stopped. }
  rewrite Hrun. split; [exact Hst|]. split; [done|exact Hcomp].
Qed.

Lemma stop_is_seen_within_three_steps_witness :
  stopped
    (GUI.thread
       (GUI.run (GUI.run sample_gui stop_in_last_increment)
          (GUI.Tick 0 :: GUI.Tick 0 :: GUI.Tick 0 :: map GUI.Tick [])))
  = true.
Proof.
  destruct (stop_is_seen_within_three_steps
              (GUI.run sample_gui stop_in_last_increment) 0 0 0 []
              ltac:(vm_compute; reflexivity)) as (H & _).
  exact H.
Defined.

(** ** The form *)

(** X19: the form handler [add_task] changes the state only through a
    successful admission: with an empty room number, task type or
    description, or with the duration 0, nothing happens; with all fields
    filled and a room the lookup does not find, nothing happens either;
    otherwise the scheduler is left as its own [add_task] leaves it, with one
    more pending task, and the simulation flag, the dispatch threads and the
    task shown are untouched. *)
Theorem form_changes_state_only_by_admission rn ty n d now g :
  (rn = "" \/ ty = "" \/ n = 0 \/ d = "" -> GUI.add_task rn ty n d now g = g)
  /\ (get_room (GUI.scheduler g) rn = None -> GUI.add_task rn ty n d now g = g)
  /\ (rn <> "" -> ty <> "" -> n <> 0 -> d <> "" ->
      forall room, get_room (GUI.scheduler g) rn = Some room ->
        GUI.add_task rn ty n d now g = GUI.apply g (GUI.Admit rn ty n d now)
        /\ tasks (GUI.scheduler (GUI.add_task rn ty n d now g))
           = (tasks (GUI.scheduler g) ++ [length (objects (GUI.scheduler g))])%list
        /\ GUI.is_simulation_running (GUI.add_task rn ty n d now g)
           = GUI.is_simulation_running g
        /\ GUI.thread (GUI.add_task rn ty n d now g) = GUI.thread g
        /\ GUI.shown (GUI.add_task rn ty n d now g) = GUI.shown g
        /\ GUI.others (GUI.add_task rn ty n d now g) = GUI.others g).
Proof.
  split; [|split].
  - unfold GUI.add_task. intros [-> | [-> | [-> | ->]]].
    + done.
    + by rewrite orb_true_r.
    + by rewrite !orb_true_r.
    + by rewrite !orb_true_r.
  - intros Hroom. unfold GUI.add_task. case_match; [done|].
    rewrite (add_task_None _ ty n d now _ Hroom). by destruct g.
  - intros Hrn Hty Hn Hd room Hroom. unfold GUI.add_task.
    apply String.eqb_neq in Hrn, Hty, Hd. rewrite Hrn, Hty, Hd.
    destruct (Z.eqb_spec n 0); [done|]. cbn [orb GUI.apply].
    rewrite (add_task_Some _ ty n d now _ _ Hroom). done.
Qed.
